(** * sora_video_generator.py: request / poll / download runner

    A shallow embedding of [src/sora_video_generator.py].  The two public
    functions [text_to_video_sora2] and [image_to_video_sora2] talk to a
    remote service through [client.videos], read the wall clock, sleep,
    print and write one file.  All of that is made explicit here:

    - the remote service, the clock and the outcome of the file write are
      an [env]: a script of answers fixed in advance;
    - the file system, the open file handles and the sequence of effects
      performed so far are a [state], threaded through a small
      state-and-exception monad [M];
    - the [while] loop of the source has no bound, so the embedding takes
      a [fuel] that bounds the number of loop iterations; an execution
      that is still inside the loop when the fuel is used up has the
      outcome [Running].

    Left out: the readings of [time.time()], which only feed the line
    "Done in .. minutes and .. seconds"; the loading of the environment
    and the construction of [client] at import time.

    [print] writes to a standard output that takes every line: that is
    the setting of all statements about what a run does.  The guarantee
    that no exception reaches the caller depends on what [print] itself
    may raise, so it is stated on the second embedding [Console], the
    same two functions over a standard output that can refuse a line. *)

From Stdlib Require Import ZArith Lia List Ascii String DecimalString.
From Stdlib.Strings Require Import Byte.
From stdpp Require Import base strings gmap list.

Open Scope Z_scope.

(** ** Python values, exceptions, remote objects *)

(** What the public functions hand back: a [str], a [bool], or the [None]
    of a function body that ends without [return]. *)
Inductive pyval :=
  | PyStr (s : string)
  | PyBool (b : bool)
  | PyNone.

(** A raised exception.  [derives_Exception] tells whether its class is a
    subclass of [Exception]: [except Exception] catches exactly those,
    and lets [KeyboardInterrupt], [SystemExit] and [GeneratorExit]
    through. *)
Record exn := Exn { derives_Exception : bool; exn_str : string }.

Definition KeyboardInterrupt : exn := Exn false "KeyboardInterrupt".
Definition FileNotFoundError : exn := Exn true "FileNotFoundError".
Definition IsADirectoryError : exn := Exn true "IsADirectoryError".
Definition FileExistsError : exn := Exn true "FileExistsError".

(** The job object returned by [client.videos.create] and
    [client.videos.retrieve]; the code reads [video.id] and
    [video.status] only. *)
Record video := Video { id : string; status : string }.

Definition bytes := list byte.

(** An answer of the outside world: a value or a raised exception. *)
Inductive answer (A : Type) :=
  | Ok (a : A)
  | Err (e : exn).
Arguments Ok {A} a.
Arguments Err {A} e.

(** ** Wall clock: [datetime.datetime] and [strftime] *)

Record datetime := Datetime {
  year : Z; month : Z; day : Z;
  hour : Z; minute : Z; second : Z; microsecond : Z
}.

Definition is_leap (y : Z) : bool :=
  (y mod 4 =? 0) && (negb (y mod 100 =? 0) || (y mod 400 =? 0)).

Definition days_in_month (y m : Z) : Z :=
  match m with
  | 1 => 31 | 2 => if is_leap y then 29 else 28 | 3 => 31 | 4 => 30
  | 5 => 31 | 6 => 30 | 7 => 31 | 8 => 31 | 9 => 30 | 10 => 31
  | 11 => 30 | 12 => 31 | _ => 0
  end.

(** The ranges the [datetime] constructor enforces. *)
Definition datetime_ok (d : datetime) : bool :=
  (1 <=? year d) && (year d <=? 9999) &&
  (1 <=? month d) && (month d <=? 12) &&
  (1 <=? day d) && (day d <=? days_in_month (year d) (month d)) &&
  (0 <=? hour d) && (hour d <=? 23) &&
  (0 <=? minute d) && (minute d <=? 59) &&
  (0 <=? second d) && (second d <=? 59) &&
  (0 <=? microsecond d) && (microsecond d <=? 999999).

(** Proleptic Gregorian ordinal of a date, with 0001-01-01 as day 1, as
    [datetime.toordinal] computes it. *)
Definition days_before_year (y : Z) : Z :=
  let y1 := y - 1 in y1 * 365 + y1 / 4 - y1 / 100 + y1 / 400.

Definition days_before_month (y m : Z) : Z :=
  match m with
  | 1 => 0 | 2 => 31 | 3 => 59 | 4 => 90 | 5 => 120 | 6 => 151
  | 7 => 181 | 8 => 212 | 9 => 243 | 10 => 273 | 11 => 304 | 12 => 334
  | _ => 0
  end + (if (2 <? m) && is_leap y then 1 else 0).

Definition toordinal (d : datetime) : Z :=
  days_before_year (year d) + days_before_month (year d) (month d) + day d.

(** Position of a timestamp on the time line, in microseconds; the
    difference of two timestamps is the difference of their positions. *)
Definition to_microseconds (d : datetime) : Z :=
  ((toordinal d * 86400 + hour d * 3600 + minute d * 60 + second d)
   * 1000000) + microsecond d.

Definition digit (k : Z) : ascii := ascii_of_nat (48 + Z.to_nat k).

(** The fields [%d], [%H], [%M], [%S] (two digits) and [%Y] (four digits)
    for a number in range.  For a year below 1000 the C library decides
    whether [%Y] is filled with zeros (glibc prints [999]); from 1000 on
    every platform prints the four digits, and the statements about the
    shape of the stamp are made for those years. *)
Definition pad2 (n : Z) : string :=
  String (digit (n / 10)) (String (digit (n mod 10)) "").

Definition pad4 (n : Z) : string :=
  String (digit (n / 1000)) (String (digit (n / 100 mod 10))
    (String (digit (n / 10 mod 10)) (String (digit (n mod 10)) ""))).

(** [%b] in the C locale. *)
Definition month_abbr (m : Z) : string :=
  match m with
  | 1 => "Jan" | 2 => "Feb" | 3 => "Mar" | 4 => "Apr" | 5 => "May"
  | 6 => "Jun" | 7 => "Jul" | 8 => "Aug" | 9 => "Sep" | 10 => "Oct"
  | 11 => "Nov" | 12 => "Dec" | _ => ""
  end.

Definition directive (c : ascii) (d : datetime) : string :=
  if Ascii.eqb c "d" then pad2 (day d)
  else if Ascii.eqb c "b" then month_abbr (month d)
  else if Ascii.eqb c "Y" then pad4 (year d)
  else if Ascii.eqb c "H" then pad2 (hour d)
  else if Ascii.eqb c "M" then pad2 (minute d)
  else if Ascii.eqb c "S" then pad2 (second d)
  else String "%" (String c "").

(** [d.strftime(fmt)] for the directives the source uses; every other
    character is copied. *)
Fixpoint strftime (fmt : string) (d : datetime) : string :=
  match fmt with
  | EmptyString => ""
  | String c rest =>
      if Ascii.eqb c "%" then
        match rest with
        | String k rest' => directive k d +:+ strftime rest' d
        | EmptyString => "%"
        end
      else String c (strftime rest d)
  end.

(** ** File system *)

Inductive node :=
  | Dir
  | File (data : bytes).

(** [os.path.join] of a directory name and a relative file name. *)
Definition os_path_join (a b : string) : string := a +:+ "/" +:+ b.

(** ** Effects *)

(** The lines the source prints, one constructor per [print] call. *)
Inductive log_line :=
  | LogBanner                         (* "===== Creating SORA-2 video ... =====" *)
  | LogInputImage (image_file : string)
  | LogPrompt (prompt : string)
  | LogVideoId (i : string)
  | LogInitialStatus (s : string)
  | LogStatus (now s : string)        (* "[{now}] Status: {video.status}" *)
  | LogCompleted                      (* "Video generation completed!" *)
  | LogDownloading                    (* "Downloading video" *)
  | LogDone                           (* "Done in .. minutes and .. seconds" *)
  | LogSaved (path : string)
  | LogFailed
  | LogCancelled
  | LogError (msg : string).

(** Everything a run does to the outside, in the order it does it.  The
    remote calls carry the answer they received. *)
Inductive event :=
  | EvPrint (l : log_line)
  | EvOpen (path mode : string)
  | EvClose (path : string)
  | EvCreate (model prompt : string) (input_reference : option string)
             (size : string) (seconds : Z) (r : answer video)
  | EvNow (d : datetime)
  | EvSleep (secs : Z)
  | EvRetrieve (video_id : string) (r : answer video)
  | EvDownload (video_id variant : string) (r : answer bytes)
  | EvWrite (path : string) (data : bytes).

(** What [content.write_to_file] does: it succeeds, or it raises and
    leaves either no file or the first [k] bytes.  Which of these happens
    is up to the outside world (a missing directory, a full disk). *)
Inductive write_outcome :=
  | WriteOk
  | WriteFails (e : exn) (partial : option nat).

(** The scripted outside world of one run: the answer of the creation
    call, of the k-th status request, of the download call, the outcome
    of the file write, and the k-th reading of the clock.  A run is
    deterministic given these, so whatever a service answers in one run
    is the run against the script of its answers. *)
Record env := Env {
  create_resp : answer video;
  retrieve_resp : nat -> answer video;
  download_resp : answer bytes;
  write_resp : write_outcome;
  clock : nat -> datetime
}.

Record state := State {
  fs : gmap string node;
  open_files : list string;
  polls : nat;
  ticks : nat;
  trace : list event
}.

Definition initial (files : gmap string node) : state :=
  State files [] 0 0 [].

Definition record (ev : event) (st : state) : state :=
  State (fs st) (open_files st) (polls st) (ticks st) (trace st ++ [ev]).

Definition set_fs (files : gmap string node) (st : state) : state :=
  State files (open_files st) (polls st) (ticks st) (trace st).

Definition set_open_files (l : list string) (st : state) : state :=
  State (fs st) l (polls st) (ticks st) (trace st).

Definition next_poll (st : state) : state :=
  State (fs st) (open_files st) (S (polls st)) (ticks st) (trace st).

Definition next_tick (st : state) : state :=
  State (fs st) (open_files st) (polls st) (S (ticks st)) (trace st).

(** ** The monad *)

Inductive outcome (A : Type) :=
  | Val (a : A)
  | Raise (e : exn)
  | Running.
Arguments Val {A} a.
Arguments Raise {A} e.
Arguments Running {A}.

Definition M (A : Type) : Type := env -> state -> outcome A * state.

Definition ret {A} (a : A) : M A := fun _ st => (Val a, st).

Definition bind {A B} (m : M A) (k : A -> M B) : M B := fun w st =>
  match m w st with
  | (Val a, st') => k a w st'
  | (Raise e, st') => (Raise e, st')
  | (Running, st') => (Running, st')
  end.

Definition raise {A} (e : exn) : M A := fun _ st => (Raise e, st).

Definition out_of_fuel {A} : M A := fun _ st => (Running, st).

Declare Scope py_scope.
Delimit Scope py_scope with py.
Notation "x <- m ;; k" := (bind m (fun x => k))
  (at level 100, m at next level, right associativity) : py_scope.
Notation "m ;; k" := (bind m (fun _ => k))
  (at level 100, right associativity) : py_scope.
Open Scope py_scope.

(** [try: body / except Exception as e: handler e]. *)
Definition try_except_Exception {A} (body : M A) (handler : exn -> M A) : M A :=
  fun w st =>
    match body w st with
    | (Raise e, st') =>
        if derives_Exception e then handler e w st' else (Raise e, st')
    | r => r
    end.

Definition lift {A} (r : answer A) : M A :=
  match r with Ok a => ret a | Err e => raise e end.

Definition emit (ev : event) : M unit := fun _ st => (Val tt, record ev st).

Definition print (l : log_line) : M unit := emit (EvPrint l).

(** ** The outside world's operations *)

Definition client_videos_create (model prompt : string)
    (input_reference : option string) (size : string) (seconds : Z) : M video :=
  fun w st =>
    lift (create_resp w) w
      (record (EvCreate model prompt input_reference size seconds (create_resp w)) st).

Definition client_videos_retrieve (video_id : string) : M video := fun w st =>
  let r := retrieve_resp w (polls st) in
  lift r w (next_poll (record (EvRetrieve video_id r) st)).

Definition client_videos_download_content (video_id variant : string) : M bytes :=
  fun w st =>
    lift (download_resp w) w (record (EvDownload video_id variant (download_resp w)) st).

Definition write_to_file (content : bytes) (path : string) : M unit := fun w st =>
  let st1 := record (EvWrite path content) st in
  match write_resp w with
  | WriteOk => (Val tt, set_fs (<[path := File content]> (fs st1)) st1)
  | WriteFails e None => (Raise e, st1)
  | WriteFails e (Some k) =>
      (Raise e, set_fs (<[path := File (take k content)]> (fs st1)) st1)
  end.

Definition datetime_now : M datetime := fun w st =>
  let d := clock w (ticks st) in
  (Val d, next_tick (record (EvNow d) st)).

Definition time_sleep (secs : Z) : M unit := emit (EvSleep secs).

(** [open(path, mode)] for reading. *)
Definition py_open (path mode : string) : M string := fun _ st =>
  match fs st !! path with
  | Some (File _) =>
      (Val path, set_open_files (path :: open_files st) (record (EvOpen path mode) st))
  | Some Dir => (Raise IsADirectoryError, st)
  | None => (Raise FileNotFoundError, st)
  end.

Fixpoint remove_first (x : string) (l : list string) : list string :=
  match l with
  | [] => []
  | y :: l' => if String.eqb x y then l' else y :: remove_first x l'
  end.

Definition py_close (f : string) (st : state) : state :=
  set_open_files (remove_first f (open_files st)) (record (EvClose f) st).

(** [with open(path, mode) as f: body f]: the handle is closed when the
    body is left, whether it returns or raises. *)
Definition with_open {A} (path mode : string) (body : string -> M A) : M A :=
  fun w st =>
    match py_open path mode w st with
    | (Val f, st1) =>
        match body f w st1 with
        | (Running, st2) => (Running, st2)
        | (r, st2) => (r, py_close f st2)
        end
    | (Raise e, st1) => (Raise e, st1)
    | (Running, st1) => (Running, st1)
    end.

(** [os.makedirs(name, exist_ok=...)] for a one-component path. *)
Definition os_makedirs (name : string) (exist_ok : bool) : M unit := fun _ st =>
  match fs st !! name with
  | None => (Val tt, set_fs (<[name := Dir]> (fs st)) st)
  | Some Dir => if exist_ok then (Val tt, st) else (Raise FileExistsError, st)
  | Some (File _) => (Raise FileExistsError, st)
  end.

(** ** The module *)

Definition VIDEO_DIR : string := "videos".

(** Line 31, executed when the module is imported. *)
Definition module_setup : M unit := os_makedirs VIDEO_DIR true.

Definition terminal (s : string) : bool :=
  existsb (String.eqb s) ["completed"; "failed"; "cancelled"].

(** Lines 71-75 (and 145-149): one unit of fuel per iteration. *)
Fixpoint poll (fuel : nat) (v : video) : M video :=
  if terminal (status v) then ret v
  else
    match fuel with
    | O => out_of_fuel
    | S fuel' =>
        now <- datetime_now;;
        print (LogStatus (strftime "%d-%b-%Y %H:%M:%S" now) (status v));;
        time_sleep 10;;
        v' <- client_videos_retrieve (id v);;
        poll fuel' v'
    end.

(** Lines 82-85 (and 154-157): the value of the local [sora2_videofile]
    for the clock reading [now]. *)
Definition sora2_videofile (now : datetime) : string :=
  os_path_join VIDEO_DIR
    ("sora2_video_" +:+ strftime "%d%b%Y_%H%M%S" now +:+ ".mp4").

(** Lines 33-102. *)
Definition text_to_video_sora2 (fuel : nat)
    (prompt : string) (size : string) (seconds : Z) : M pyval :=
  print LogBanner;;
  print (LogPrompt prompt);;
  try_except_Exception
    (v <- client_videos_create "sora-2" prompt None size seconds;;
     print (LogVideoId (id v));;
     print (LogInitialStatus (status v));;
     v <- poll fuel v;;
     if String.eqb (status v) "completed" then
       print LogCompleted;;
       print LogDownloading;;
       content <- client_videos_download_content (id v) "video";;
       now <- datetime_now;;
       write_to_file content (sora2_videofile now);;
       print LogDone;;
       print (LogSaved (sora2_videofile now));;
       ret (PyStr (sora2_videofile now))
     else if String.eqb (status v) "failed" then
       print LogFailed;;
       ret (PyBool false)
     else if String.eqb (status v) "cancelled" then
       print LogCancelled;;
       ret (PyBool false)
     else ret PyNone)
    (fun e => print (LogError (exn_str e));; ret (PyBool false)).

(** Lines 105-174.  After [with open(image_file, "rb") as image_file]
    the name [image_file] is the handle, which is what the creation call
    receives as [input_reference]. *)
Definition image_to_video_sora2 (fuel : nat)
    (prompt : string) (image_file : string) (size : string) (seconds : Z) : M pyval :=
  print LogBanner;;
  print (LogInputImage image_file);;
  print (LogPrompt prompt);;
  try_except_Exception
    (v <- with_open image_file "rb" (fun f =>
            client_videos_create "sora-2" prompt (Some f) size seconds);;
     print (LogVideoId (id v));;
     print (LogInitialStatus (status v));;
     v <- poll fuel v;;
     if String.eqb (status v) "completed" then
       content <- client_videos_download_content (id v) "video";;
       now <- datetime_now;;
       write_to_file content (sora2_videofile now);;
       print LogDone;;
       print (LogSaved (sora2_videofile now));;
       ret (PyStr (sora2_videofile now))
     else if String.eqb (status v) "failed" then
       print LogFailed;;
       ret (PyBool false)
     else if String.eqb (status v) "cancelled" then
       print LogCancelled;;
       ret (PyBool false)
     else ret PyNone)
    (fun e => print (LogError (exn_str e));; ret (PyBool false)).

(** The two public entry points behind one name: with a reference image
    the image-to-video function runs, without one the text-to-video
    function. *)
Definition run (reference : option string) (fuel : nat)
    (prompt : string) (size : string) (seconds : Z) : M pyval :=
  match reference with
  | None => text_to_video_sora2 fuel prompt size seconds
  | Some image_file => image_to_video_sora2 fuel prompt image_file size seconds
  end.

(** ** Reading a trace *)

Definition is_retrieve (ev : event) : bool :=
  match ev with EvRetrieve _ _ => true | _ => false end.

Definition is_download (ev : event) : bool :=
  match ev with EvDownload _ _ _ => true | _ => false end.

Definition is_write (ev : event) : bool :=
  match ev with EvWrite _ _ => true | _ => false end.

Definition is_sleep (ev : event) : bool :=
  match ev with EvSleep _ => true | _ => false end.

(** Opening, closing, and the creation call that receives the handle. *)
Definition is_file_event (ev : event) : bool :=
  match ev with
  | EvOpen _ _ | EvClose _ | EvCreate _ _ _ _ _ _ => true
  | _ => false
  end.

(** Events of the poll loop: clock reads, prints, sleeps, status fetches. *)
Definition is_poll_event (ev : event) : bool :=
  match ev with
  | EvNow _ | EvPrint _ | EvSleep _ | EvRetrieve _ _ => true
  | _ => false
  end.

(** Counting events of one kind. *)
Definition count (p : event -> bool) (tr : list event) : nat :=
  length (List.filter p tr).

(** The job status a remote answer shows to the runner. *)
Definition status_of (ev : event) : option string :=
  match ev with
  | EvCreate _ _ _ _ _ (Ok v) => Some (status v)
  | EvRetrieve _ (Ok v) => Some (status v)
  | _ => None
  end.

(** The statuses observed along a trace, oldest first. *)
Definition observed (tr : list event) : list string := omap status_of tr.

Definition last_status (tr : list event) : option string := last (observed tr).

(** The file handles held after a trace. *)
Definition hold (h : list string) (ev : event) : list string :=
  match ev with
  | EvOpen f _ => f :: h
  | EvClose f => remove_first f h
  | _ => h
  end.

Definition held_after (tr : list event) : list string := fold_left hold tr [].

(** The clock reading that names the output file: the one taken just
    before the write. *)
Fixpoint write_time (tr : list event) : option datetime :=
  match tr with
  | [] => None
  | EvNow d :: ((EvWrite _ _ :: _) as tr') => Some d
  | _ :: tr' => write_time tr'
  end.

(** What the remote service, the clock and the file system see of a run:
    everything but the prints and the handling of the image file. *)
Definition is_outward (ev : event) : bool :=
  match ev with
  | EvPrint _ | EvOpen _ _ | EvClose _ => false
  | _ => true
  end.

Definition outward (tr : list event) : list event := List.filter is_outward tr.

Definition forget_reference (ev : event) : event :=
  match ev with
  | EvCreate model prompt _ size seconds r => EvCreate model prompt None size seconds r
  | _ => ev
  end.

(** An answer to a status request that ends the loop: a terminal status
    or an exception.  An answer that does not resolve is a status outside
    [completed], [failed], [cancelled]. *)
Definition resolves (r : answer video) : bool :=
  match r with
  | Ok v => terminal (status v)
  | Err _ => true
  end.

Definition outcome_of_answer {A} (r : answer A) : outcome A :=
  match r with Ok a => Val a | Err e => Raise e end.

(** ** The poll loop as a relation

    [polled w v p t n evs o]: started with job [v] when [p] status
    fetches and [t] clock reads have been made, the loop runs [n]
    iterations, performs [evs] and ends with [o]. *)
Definition iteration (w : env) (v : video) (p t : nat) : list event :=
  [ EvNow (clock w t);
    EvPrint (LogStatus (strftime "%d-%b-%Y %H:%M:%S" (clock w t)) (status v));
    EvSleep 10;
    EvRetrieve (id v) (retrieve_resp w p) ].

Inductive polled (w : env) :
    video -> nat -> nat -> nat -> list event -> outcome video -> Prop :=
  | polled_done v p t :
      terminal (status v) = true ->
      polled w v p t 0 [] (Val v)
  | polled_pending v p t :
      terminal (status v) = false ->
      polled w v p t 0 [] Running
  | polled_raise v p t e :
      terminal (status v) = false ->
      retrieve_resp w p = Err e ->
      polled w v p t 1 (iteration w v p t) (Raise e)
  | polled_again v p t v' n evs o :
      terminal (status v) = false ->
      retrieve_resp w p = Ok v' ->
      polled w v' (S p) (S t) n evs o ->
      polled w v p t (S n) (iteration w v p t ++ evs) o.

(** ** The two functions in stages

    Both functions are the same sequence of stages: some prints, the
    creation call (inside [with open(...)] when there is a reference
    image), then everything after the creation call, all of it inside one
    [try] whose handler prints the error and returns [False].  The
    definitions below name the stages; [run_stages] shows that the
    functions above are their composition. *)

Definition chatty (reference : option string) : bool :=
  match reference with None => true | Some _ => false end.

Definition prologue (reference : option string) (prompt : string) : list event :=
  match reference with
  | None => [EvPrint LogBanner; EvPrint (LogPrompt prompt)]
  | Some image_file =>
      [EvPrint LogBanner; EvPrint (LogInputImage image_file); EvPrint (LogPrompt prompt)]
  end.

Definition announced (reference : option string) (prompt : string)
    (st : state) : state :=
  match reference with
  | None => record (EvPrint (LogPrompt prompt)) (record (EvPrint LogBanner) st)
  | Some image_file =>
      record (EvPrint (LogPrompt prompt))
        (record (EvPrint (LogInputImage image_file))
           (record (EvPrint LogBanner) st))
  end.

Definition creation (reference : option string)
    (prompt size : string) (seconds : Z) : M video :=
  match reference with
  | None => client_videos_create "sora-2" prompt None size seconds
  | Some image_file =>
      with_open image_file "rb" (fun f =>
        client_videos_create "sora-2" prompt (Some f) size seconds)
  end.

Definition store (v : video) : M pyval :=
  content <- client_videos_download_content (id v) "video";;
  now <- datetime_now;;
  write_to_file content (sora2_videofile now);;
  print LogDone;;
  print (LogSaved (sora2_videofile now));;
  ret (PyStr (sora2_videofile now)).

Definition conclude (verbose : bool) (v : video) : M pyval :=
  if String.eqb (status v) "completed" then
    if verbose then print LogCompleted;; print LogDownloading;; store v
    else store v
  else if String.eqb (status v) "failed" then
    print LogFailed;; ret (PyBool false)
  else if String.eqb (status v) "cancelled" then
    print LogCancelled;; ret (PyBool false)
  else ret PyNone.

Definition after_create (verbose : bool) (fuel : nat) (v : video) : M pyval :=
  print (LogVideoId (id v));;
  print (LogInitialStatus (status v));;
  v' <- poll fuel v;;
  conclude verbose v'.

Definition on_error (e : exn) : M pyval :=
  print (LogError (exn_str e));; ret (PyBool false).

(** What the [try] statement makes of the result of its body. *)
Definition handled (r : outcome pyval * state) : outcome pyval * state :=
  match r with
  | (Raise e, st) =>
      if derives_Exception e
      then (Val (PyBool false), record (EvPrint (LogError (exn_str e))) st)
      else (Raise e, st)
  | _ => r
  end.

(** Everything from the end of the loop on, handler included. *)
Definition finish (verbose : bool) (w : env)
    (o : outcome video) (st : state) : outcome pyval * state :=
  handled
    match o with
    | Val v => conclude verbose v w st
    | Raise e => (Raise e, st)
    | Running => (Running, st)
    end.

(** Whether the creation call can be reached: the text-to-video function
    always reaches it, the image-to-video function when the image file
    can be opened. *)
Definition readable (files : gmap string node) (reference : option string) : bool :=
  match reference with
  | None => true
  | Some image_file =>
      match files !! image_file with
      | Some (File _) => true
      | _ => false
      end
  end.

Definition open_error (files : gmap string node) (image_file : string) : exn :=
  match files !! image_file with
  | Some Dir => IsADirectoryError
  | _ => FileNotFoundError
  end.

Definition creation_events (reference : option string)
    (prompt size : string) (seconds : Z) (r : answer video) : list event :=
  match reference with
  | None => [EvCreate "sora-2" prompt None size seconds r]
  | Some image_file =>
      [EvOpen image_file "rb";
       EvCreate "sora-2" prompt (Some image_file) size seconds r;
       EvClose image_file]
  end.

Definition extend (st : state) (evs : list event) : state :=
  State (fs st) (open_files st) (polls st) (ticks st) (trace st ++ evs).

Definition written (partial : option nat) (path : string) (content : bytes)
    (files : gmap string node) : gmap string node :=
  match partial with
  | None => files
  | Some k => <[path := File (take k content)]> files
  end.

Definition completion_lines (verbose : bool) : list event :=
  if verbose then [EvPrint LogCompleted; EvPrint LogDownloading] else [].

Definition caught (e : exn) : outcome pyval :=
  if derives_Exception e then Val (PyBool false) else Raise e.

Definition error_lines (e : exn) : list event :=
  if derives_Exception e then [EvPrint (LogError (exn_str e))] else [].

(** The trace up to the end of the loop. *)
Definition head (reference : option string) (prompt size : string) (seconds : Z)
    (v : video) (evs : list event) : list event :=
  prologue reference prompt ++
  creation_events reference prompt size seconds (Ok v) ++
  [EvPrint (LogVideoId (id v)); EvPrint (LogInitialStatus (status v))] ++
  evs.

(** ** Every execution, case by case

    [execution reference fuel prompt size seconds w files o st]: the run
    started on the file system [files], with [fuel] loop iterations
    allowed, has outcome [o] and final state [st].  One constructor per
    way through the function. *)
Inductive execution (reference : option string) (fuel : nat)
    (prompt size : string) (seconds : Z) (w : env) (files : gmap string node) :
    outcome pyval -> state -> Prop :=
  | ex_unreadable image_file :
      reference = Some image_file ->
      readable files reference = false ->
      execution reference fuel prompt size seconds w files
        (Val (PyBool false))
        (State files [] 0 0
           (prologue reference prompt ++
            [EvPrint (LogError (exn_str (open_error files image_file)))]))
  | ex_create_raises e :
      readable files reference = true ->
      create_resp w = Err e ->
      execution reference fuel prompt size seconds w files
        (caught e)
        (State files [] 0 0
           (prologue reference prompt ++
            creation_events reference prompt size seconds (Err e) ++
            error_lines e))
  | ex_running v evs :
      readable files reference = true ->
      create_resp w = Ok v ->
      polled w v 0 0 fuel evs Running ->
      execution reference fuel prompt size seconds w files
        Running
        (State files [] fuel fuel (head reference prompt size seconds v evs))
  | ex_poll_raises v n evs e :
      readable files reference = true ->
      create_resp w = Ok v ->
      polled w v 0 0 n evs (Raise e) ->
      (n <= fuel)%nat ->
      execution reference fuel prompt size seconds w files
        (caught e)
        (State files [] n n
           (head reference prompt size seconds v evs ++ error_lines e))
  | ex_failed v n evs v' :
      readable files reference = true ->
      create_resp w = Ok v ->
      polled w v 0 0 n evs (Val v') ->
      (n <= fuel)%nat ->
      status v' = "failed" ->
      execution reference fuel prompt size seconds w files
        (Val (PyBool false))
        (State files [] n n
           (head reference prompt size seconds v evs ++ [EvPrint LogFailed]))
  | ex_cancelled v n evs v' :
      readable files reference = true ->
      create_resp w = Ok v ->
      polled w v 0 0 n evs (Val v') ->
      (n <= fuel)%nat ->
      status v' = "cancelled" ->
      execution reference fuel prompt size seconds w files
        (Val (PyBool false))
        (State files [] n n
           (head reference prompt size seconds v evs ++ [EvPrint LogCancelled]))
  | ex_download_raises v n evs v' e :
      readable files reference = true ->
      create_resp w = Ok v ->
      polled w v 0 0 n evs (Val v') ->
      (n <= fuel)%nat ->
      status v' = "completed" ->
      download_resp w = Err e ->
      execution reference fuel prompt size seconds w files
        (caught e)
        (State files [] n n
           (head reference prompt size seconds v evs ++
            completion_lines (chatty reference) ++
            [EvDownload (id v') "video" (Err e)] ++ error_lines e))
  | ex_write_raises v n evs v' content e partial :
      readable files reference = true ->
      create_resp w = Ok v ->
      polled w v 0 0 n evs (Val v') ->
      (n <= fuel)%nat ->
      status v' = "completed" ->
      download_resp w = Ok content ->
      write_resp w = WriteFails e partial ->
      execution reference fuel prompt size seconds w files
        (caught e)
        (State
           (written partial (sora2_videofile (clock w n)) content files)
           [] n (S n)
           (head reference prompt size seconds v evs ++
            completion_lines (chatty reference) ++
            [EvDownload (id v') "video" (Ok content);
             EvNow (clock w n);
             EvWrite (sora2_videofile (clock w n)) content] ++
            error_lines e))
  | ex_stored v n evs v' content :
      readable files reference = true ->
      create_resp w = Ok v ->
      polled w v 0 0 n evs (Val v') ->
      (n <= fuel)%nat ->
      status v' = "completed" ->
      download_resp w = Ok content ->
      write_resp w = WriteOk ->
      execution reference fuel prompt size seconds w files
        (Val (PyStr (sora2_videofile (clock w n))))
        (State
           (<[sora2_videofile (clock w n) := File content]> files)
           [] n (S n)
           (head reference prompt size seconds v evs ++
            completion_lines (chatty reference) ++
            [EvDownload (id v') "video" (Ok content);
             EvNow (clock w n);
             EvWrite (sora2_videofile (clock w n)) content;
             EvPrint LogDone;
             EvPrint (LogSaved (sora2_videofile (clock w n)))])).

(** ** Vocabulary of the properties *)

(** The two results a caller may see: [False], or a path
    [<VIDEO_DIR>/<stem>.mp4]. *)
Definition is_result (v : pyval) : Prop :=
  v = PyBool false \/
  exists stem, v = PyStr (VIDEO_DIR +:+ "/" +:+ stem +:+ ".mp4").

(** Every exception the outside world raises is an instance of
    [Exception]. *)
Definition raises_only_Exception (w : env) : Prop :=
  (forall e, create_resp w = Err e -> derives_Exception e = true) /\
  (forall k e, retrieve_resp w k = Err e -> derives_Exception e = true) /\
  (forall e, download_resp w = Err e -> derives_Exception e = true) /\
  (forall e partial, write_resp w = WriteFails e partial -> derives_Exception e = true).

(** The job does not stay pending for ever: the creation call or some
    status request is answered by a terminal status or an exception. *)
Definition settles (w : env) : Prop :=
  resolves (create_resp w) = true \/
  exists N, resolves (retrieve_resp w N) = true.

(** ** Scripted services used as concrete inputs *)

Definition dog_prompt : string := "A dog running on a beach".

Definition FAKEMP4 : bytes := [x46; x41; x4b; x45; x4d; x50; x34].

Definition march_15 : datetime := Datetime 2025 3 15 14 30 22 0.

Definition march_15_later : datetime := Datetime 2025 3 15 14 30 24 500000.

(** Creation answers [queued]; the first [N] status requests answer
    [in_progress], all later ones [final]. *)
Definition scripted (N : nat) (final : string) (now : datetime) : env :=
  Env (Ok (Video "video_1" "queued"))
      (fun k => if (k <? N)%nat
                then Ok (Video "video_1" "in_progress")
                else Ok (Video "video_1" final))
      (Ok FAKEMP4) WriteOk (fun _ => now).

(** A job that is already [completed] when the creation call returns. *)
Definition completed_at_once : env :=
  Env (Ok (Video "video_1" "completed"))
      (fun _ => Ok (Video "video_1" "completed"))
      (Ok FAKEMP4) WriteOk (fun _ => march_15).

(** A job that never leaves the queue. *)
Definition queued_forever : env :=
  Env (Ok (Video "video_1" "queued"))
      (fun _ => Ok (Video "video_1" "queued"))
      (Ok FAKEMP4) WriteOk (fun _ => march_15).

(** The creation call raises: an API error, or an interrupt from the
    keyboard while the call is in flight. *)
Definition create_refused : env :=
  Env (Err (Exn true "BadRequestError"))
      (fun _ => Ok (Video "video_1" "completed"))
      (Ok FAKEMP4) WriteOk (fun _ => march_15).

Definition create_interrupted : env :=
  Env (Err KeyboardInterrupt)
      (fun _ => Ok (Video "video_1" "completed"))
      (Ok FAKEMP4) WriteOk (fun _ => march_15).

Definition with_image : gmap string node := {[ "cat.png" := File [x89; x50] ]}.

(** ** Further vocabulary *)

Definition is_create (ev : event) : bool :=
  match ev with EvCreate _ _ _ _ _ _ => true | _ => false end.

(** The job object a remote answer hands to the runner. *)
Definition job_of (ev : event) : option video :=
  match ev with
  | EvCreate _ _ _ _ _ (Ok v) => Some v
  | EvRetrieve _ (Ok v) => Some v
  | _ => None
  end.

(** The job objects received along a trace, oldest first; the runner's
    variable [video] holds the last of them. *)
Definition jobs (tr : list event) : list video := omap job_of tr.

Definition current_job (tr : list event) : option video := last (jobs tr).

(** The part of a trace before the loop, after a successful creation. *)
Definition before_loop (reference : option string) (prompt size : string)
    (seconds : Z) (v : video) : list event :=
  prologue reference prompt ++
  creation_events reference prompt size seconds (Ok v) ++
  [EvPrint (LogVideoId (id v)); EvPrint (LogInitialStatus (status v))].

(** Characters of a file name that needs no quoting: digits, letters and
    the underscore. *)
Definition is_name_char (c : ascii) : bool :=
  let n := nat_of_ascii c in
  ((48 <=? n) && (n <=? 57) || (65 <=? n) && (n <=? 90) ||
   (97 <=? n) && (n <=? 122) || (n =? 95))%nat.

Fixpoint string_forall (p : ascii -> bool) (s : string) : bool :=
  match s with
  | EmptyString => true
  | String c s' => p c && string_forall p s'
  end.

(** More scripted services.  A status request that raises after [N]
    pending answers; a service that renames the job on every answer; a
    download that raises; a write that fails half-way. *)
Definition fetch_raises (N : nat) (e : exn) : env :=
  Env (Ok (Video "video_1" "queued"))
      (fun k => if (k <? N)%nat
                then Ok (Video "video_1" "in_progress")
                else Err e)
      (Ok FAKEMP4) WriteOk (fun _ => march_15).

Definition renaming : env :=
  Env (Ok (Video "job_a" "queued"))
      (fun k => match k with
                | O => Ok (Video "job_b" "in_progress")
                | _ => Ok (Video "job_c" "completed")
                end)
      (Ok FAKEMP4) WriteOk (fun _ => march_15).

Definition download_raises (e : exn) : env :=
  Env (Ok (Video "video_1" "completed"))
      (fun _ => Ok (Video "video_1" "completed"))
      (Err e) WriteOk (fun _ => march_15).

Definition write_breaks (e : exn) (partial : option nat) : env :=
  Env (Ok (Video "video_1" "completed"))
      (fun _ => Ok (Video "video_1" "completed"))
      (Ok FAKEMP4) (WriteFails e partial) (fun _ => march_15).

(** The same job as [scripted 0 "completed"], with other bytes to
    download. *)
Definition other_video (now : datetime) : env :=
  Env (Ok (Video "video_2" "completed"))
      (fun _ => Ok (Video "video_2" "completed"))
      (Ok [x00; x01]) WriteOk (fun _ => now).

Definition APIConnectionError : exn := Exn true "APIConnectionError".

Definition OSError : exn := Exn true "OSError".

(** ** The time stamp in the words of the specification

    "day-abbreviated-month-year_hourminutesecond", as in
    [15Mar2025_143022]: the numbers in decimal as the standard library
    prints them, filled with zeros to two places (four for the year), and
    the English abbreviation of the month. *)
Definition decimal (places : nat) (n : Z) : string :=
  let s := NilZero.string_of_uint (N.to_uint (Z.to_N n)) in
  String.concat "" (repeat "0"%string (places - String.length s)) +:+ s.

Definition abbreviated_months : list string :=
  ["Jan"; "Feb"; "Mar"; "Apr"; "May"; "Jun";
   "Jul"; "Aug"; "Sep"; "Oct"; "Nov"; "Dec"]%string.

Definition spec_timestamp (d : datetime) : string :=
  decimal 2 (day d) +:+
  nth (Z.to_nat (month d - 1)) abbreviated_months ""%string +:+
  decimal 4 (year d) +:+ "_" +:+
  decimal 2 (hour d) +:+ decimal 2 (minute d) +:+ decimal 2 (second d).

(** The two lines that only the text-to-video function prints. *)
Definition is_completion_line (ev : event) : bool :=
  match ev with
  | EvPrint LogCompleted | EvPrint LogDownloading => true
  | _ => false
  end.

(** ** A standard output that can refuse a line

    [print] raises when the stream cannot take the line: a
    [UnicodeEncodeError] when the encoding of the stream has no code for
    a character of the line, a [BrokenPipeError] when the reader of the
    pipe is gone.  Both are instances of [Exception].  A [stdout] tells,
    from what the run has done so far and the line, whether the line is
    written ([None]) or the call raises. *)
Definition stdout := list event -> log_line -> option exn.

Definition UnicodeEncodeError : exn := Exn true "UnicodeEncodeError".
Definition BrokenPipeError : exn := Exn true "BrokenPipeError".

(** The two functions again, line by line as above, with [print] asking
    the stream. *)
Module Console.

Definition print (out : stdout) (l : log_line) : M unit := fun _ st =>
  match out (trace st) l with
  | None => (Val tt, record (EvPrint l) st)
  | Some e => (Raise e, st)
  end.

(** Lines 71-75 (and 145-149). *)
Fixpoint poll (out : stdout) (fuel : nat) (v : video) : M video :=
  if terminal (status v) then ret v
  else
    match fuel with
    | O => out_of_fuel
    | S fuel' =>
        now <- datetime_now;;
        print out (LogStatus (strftime "%d-%b-%Y %H:%M:%S" now) (status v));;
        time_sleep 10;;
        v' <- client_videos_retrieve (id v);;
        poll out fuel' v'
    end.

(** Lines 33-102. *)
Definition text_to_video_sora2 (out : stdout) (fuel : nat)
    (prompt : string) (size : string) (seconds : Z) : M pyval :=
  print out LogBanner;;
  print out (LogPrompt prompt);;
  try_except_Exception
    (v <- client_videos_create "sora-2" prompt None size seconds;;
     print out (LogVideoId (id v));;
     print out (LogInitialStatus (status v));;
     v <- poll out fuel v;;
     if String.eqb (status v) "completed" then
       print out LogCompleted;;
       print out LogDownloading;;
       content <- client_videos_download_content (id v) "video";;
       now <- datetime_now;;
       write_to_file content (sora2_videofile now);;
       print out LogDone;;
       print out (LogSaved (sora2_videofile now));;
       ret (PyStr (sora2_videofile now))
     else if String.eqb (status v) "failed" then
       print out LogFailed;;
       ret (PyBool false)
     else if String.eqb (status v) "cancelled" then
       print out LogCancelled;;
       ret (PyBool false)
     else ret PyNone)
    (fun e => print out (LogError (exn_str e));; ret (PyBool false)).

(** Lines 105-174. *)
Definition image_to_video_sora2 (out : stdout) (fuel : nat)
    (prompt : string) (image_file : string) (size : string) (seconds : Z) : M pyval :=
  print out LogBanner;;
  print out (LogInputImage image_file);;
  print out (LogPrompt prompt);;
  try_except_Exception
    (v <- with_open image_file "rb" (fun f =>
            client_videos_create "sora-2" prompt (Some f) size seconds);;
     print out (LogVideoId (id v));;
     print out (LogInitialStatus (status v));;
     v <- poll out fuel v;;
     if String.eqb (status v) "completed" then
       content <- client_videos_download_content (id v) "video";;
       now <- datetime_now;;
       write_to_file content (sora2_videofile now);;
       print out LogDone;;
       print out (LogSaved (sora2_videofile now));;
       ret (PyStr (sora2_videofile now))
     else if String.eqb (status v) "failed" then
       print out LogFailed;;
       ret (PyBool false)
     else if String.eqb (status v) "cancelled" then
       print out LogCancelled;;
       ret (PyBool false)
     else ret PyNone)
    (fun e => print out (LogError (exn_str e));; ret (PyBool false)).

Definition run (out : stdout) (reference : option string) (fuel : nat)
    (prompt : string) (size : string) (seconds : Z) : M pyval :=
  match reference with
  | None => text_to_video_sora2 out fuel prompt size seconds
  | Some image_file => image_to_video_sora2 out fuel prompt image_file size seconds
  end.

End Console.

(** A stream that takes every line. *)
Definition takes_every_line (out : stdout) : Prop :=
  forall tr l, out tr l = None.

Definition always_writes : stdout := fun _ _ => None.

(** The lines printed where no handler is in force: the opening lines,
    before [try] (56-57, 128-130), and the line of the handler itself
    (101, 173). *)
Definition unguarded (l : log_line) : bool :=
  match l with
  | LogBanner | LogInputImage _ | LogPrompt _ | LogError _ => true
  | _ => false
  end.

Definition takes_unguarded_lines (out : stdout) : Prop :=
  forall tr l, unguarded l = true -> out tr l = None.

Definition stdout_raises_only_Exception (out : stdout) : Prop :=
  forall tr l e, out tr l = Some e -> derives_Exception e = true.

(** A stream in an encoding without the pictographs of the banner, and
    one that has no code for something in the identifier of the job (a
    lone surrogate in the answer of the service). *)
Definition ascii_stdout : stdout := fun _ l =>
  match l with
  | LogInputImage _ | LogPrompt _ => None
  | _ => Some UnicodeEncodeError
  end.

Definition unprintable_id : stdout := fun _ l =>
  match l with
  | LogVideoId _ => Some UnicodeEncodeError
  | _ => None
  end.

(** A pipe whose reader goes away once the job is created. *)
Definition pipe_closed_after_create : stdout := fun tr _ =>
  if existsb is_create tr then Some BrokenPipeError else None.

(** Where an exception that leaves a run can come from: the answers of
    the outside world, or the stream. *)
Definition raised_by (w : env) (e : exn) : Prop :=
  create_resp w = Err e \/
  (exists k, retrieve_resp w k = Err e) \/
  download_resp w = Err e \/
  (exists partial, write_resp w = WriteFails e partial).

Definition refused_by (out : stdout) (e : exn) : Prop :=
  exists tr l, out tr l = Some e.

Definition refused_unguarded (out : stdout) (e : exn) : Prop :=
  exists tr l, unguarded l = true /\ out tr l = Some e.

(** The job is created and stays pending for the first [fuel] status
    requests. *)
Definition pending_for (w : env) (fuel : nat) : Prop :=
  exists v,
    create_resp w = Ok v /\ terminal (status v) = false /\
    forall k, (k < fuel)%nat -> resolves (retrieve_resp w k) = false.

(** What can be said of an exception raised inside the body of [try]. *)
Definition origin (out : stdout) (w : env) (e : exn) : Prop :=
  derives_Exception e = true \/ refused_by out e \/ raised_by w e.

(** The outcomes of a part of the body of [try]: a value with [Qv], an
    exception with an origin, or the loop out of fuel. *)
Definition post {A} (out : stdout) (w : env) (fuel : nat)
    (Qv : A -> state -> Prop) (o : outcome A) (st : state) : Prop :=
  match o with
  | Val a => Qv a st
  | Raise e => origin out w e
  | Running => pending_for w fuel
  end.

(** The outcomes of a whole run. *)
Definition run_outcome (out : stdout) (w : env) (fuel : nat)
    (o : outcome pyval) : Prop :=
  match o with
  | Val a => is_result a
  | Raise e =>
      refused_unguarded out e \/
      (derives_Exception e = false /\ (refused_by out e \/ raised_by w e))
  | Running => pending_for w fuel
  end.

(** [triple w P m Q]: started in a state that satisfies [P], the
    computation [m] ends with an outcome and a state that satisfy [Q]. *)
Definition triple {A} (w : env) (P : state -> Prop) (m : M A)
    (Q : outcome A -> state -> Prop) : Prop :=
  forall st, P st -> Q (fst (m w st)) (snd (m w st)).

Arguments strftime : simpl never.
Arguments sora2_videofile : simpl never.
Arguments conclude : simpl never.

(** * Proofs *)

(** ** Small facts *)

Lemma terminal_true s :
  terminal s = true <-> s = "completed" \/ s = "failed" \/ s = "cancelled".
Proof.
  unfold terminal. simpl. rewrite !orb_true_iff, !String.eqb_eq.
  split; [intros [?|[?|[?|?]]] | intros [?|[?|?]]]; auto; discriminate.
Qed.

Lemma extend_nil st : extend st [] = st.
Proof. destruct st. unfold extend. simpl. by rewrite app_nil_r. Qed.

Lemma observed_app (a b : list event) : observed (a ++ b) = observed a ++ observed b.
Proof. unfold observed. apply omap_app. Qed.

Lemma observed_iteration w v p t :
  observed (iteration w v p t) =
  match retrieve_resp w p with Ok v' => [status v'] | Err _ => [] end.
Proof. unfold iteration, observed. simpl. by destruct (retrieve_resp w p). Qed.

Lemma count_app p (a b : list event) : count p (a ++ b) = (count p a + count p b)%nat.
Proof. unfold count. by rewrite List.filter_app, length_app. Qed.

Lemma count_none p q (tr : list event) :
  forallb q tr = true -> (forall ev, q ev = true -> p ev = false) -> count p tr = 0%nat.
Proof.
  intros Hq Hpq. induction tr as [|ev tr IH]; [reflexivity|].
  simpl in Hq. apply andb_true_iff in Hq as [Hev Htr].
  unfold count in *. simpl. rewrite (Hpq ev Hev). auto.
Qed.

(** ** The loop and its relation *)

(** The executable loop follows [polled]; what it does depends neither
    on the trace so far nor on the files. *)
Lemma poll_polled fuel : forall v w p t,
  exists n evs out,
    polled w v p t n evs out /\
    (n <= fuel)%nat /\
    (out = Running -> n = fuel) /\
    forall f o tr,
      poll fuel v w (State f o p t tr) =
      (out, State f o (p + n) (t + n) (tr ++ evs)).
Proof.
  induction fuel as [|fuel IH]; intros v w p t.
  - destruct (terminal (status v)) eqn:Ht.
    + exists 0%nat, [], (Val v). split; [|split; [|split]]; [by constructor | lia | done |].
      intros f o tr. simpl. rewrite Ht, !Nat.add_0_r, app_nil_r. reflexivity.
    + exists 0%nat, [], Running. split; [|split; [|split]]; [by constructor | lia | done |].
      intros f o tr. simpl. rewrite Ht, !Nat.add_0_r, app_nil_r. reflexivity.
  - destruct (terminal (status v)) eqn:Ht.
    + exists 0%nat, [], (Val v). split; [|split; [|split]]; [by constructor | lia | done |].
      intros f o tr. simpl. rewrite Ht, !Nat.add_0_r, app_nil_r. reflexivity.
    + destruct (retrieve_resp w p) as [v'|e] eqn:Hr.
      * destruct (IH v' w (S p) (S t)) as (n & evs & out & Hrel & Hle & Hfuel & Hp).
        exists (S n), (iteration w v p t ++ evs), out.
        split; [|split; [|split]]; [by apply polled_again with v' | lia | intros; f_equal; auto |].
        intros f o tr. simpl. rewrite Ht.
        unfold bind at 1. simpl. unfold bind at 1. simpl.
        unfold bind at 1. simpl. unfold bind at 1.
        unfold client_videos_retrieve. simpl. rewrite Hr. simpl.
        unfold next_poll, record. simpl. rewrite Hp.
        unfold iteration. rewrite ?Hr, <- ?List.app_assoc. simpl.
        do 2 f_equal; lia.
      * exists 1%nat, (iteration w v p t), (Raise e).
        split; [|split; [|split]]; [by apply polled_raise | lia | done |].
        intros f o tr. simpl. rewrite Ht.
        unfold bind at 1. simpl. unfold bind at 1. simpl.
        unfold bind at 1. simpl. unfold bind at 1.
        unfold client_videos_retrieve. simpl. rewrite Hr. simpl.
        unfold next_poll, record, iteration. simpl.
        rewrite ?Hr, <- ?List.app_assoc. simpl.
        do 2 f_equal; lia.
Qed.

Section Polled.
Variable w : env.

Lemma polled_events v p t n evs o :
  polled w v p t n evs o -> forallb is_poll_event evs = true.
Proof.
  induction 1; try reflexivity.
  rewrite forallb_app, IHpolled. reflexivity.
Qed.

Lemma polled_count v p t n evs o :
  polled w v p t n evs o -> count is_retrieve evs = n.
Proof.
  induction 1; try reflexivity.
  rewrite count_app, IHpolled. reflexivity.
Qed.

Lemma polled_val v p t n evs v' :
  polled w v p t n evs (Val v') ->
  terminal (status v') = true /\
  last (status v :: observed evs) = Some (status v').
Proof.
  remember (Val v') as o eqn:Ho. induction 1; try discriminate.
  - injection Ho as ->. split; [assumption | reflexivity].
  - destruct (IHpolled Ho) as [Ht Hl]. split; [assumption|].
    rewrite observed_app, observed_iteration, H0. simpl.
    simpl in Hl. exact Hl.
Qed.

Lemma polled_raise_source v p t n evs e :
  polled w v p t n evs (Raise e) -> exists k, retrieve_resp w k = Err e.
Proof.
  remember (Raise e) as o eqn:Ho. induction 1; try discriminate.
  - injection Ho as ->. eauto.
  - auto.
Qed.

(** A terminal status is seen at most once, and it is what the loop
    returns. *)
Lemma polled_terminal_seen v p t n evs o s :
  polled w v p t n evs o ->
  s ∈ status v :: observed evs -> terminal s = true ->
  exists v', o = Val v' /\ status v' = s.
Proof.
  induction 1; intros Hin Hs.
  - apply list_elem_of_singleton in Hin. subst s. eauto.
  - apply list_elem_of_singleton in Hin. subst s. congruence.
  - rewrite observed_iteration, H0 in Hin.
    apply list_elem_of_singleton in Hin. subst s. congruence.
  - rewrite observed_app, observed_iteration, H0 in Hin. simpl in Hin.
    apply elem_of_cons in Hin as [-> | Hin]; [congruence|].
    by apply IHpolled.
Qed.

(** While the loop is still running, no answer so far has resolved. *)
Lemma polled_running v p t n evs :
  polled w v p t n evs Running ->
  terminal (status v) = false /\
  forall k, (k < n)%nat -> resolves (retrieve_resp w (p + k)) = false.
Proof.
  remember Running as o eqn:Ho. induction 1; try discriminate.
  - split; [assumption | intros; lia].
  - destruct (IHpolled Ho) as [Hv' Hk]. split; [assumption|].
    intros [|k] Hlt.
    + rewrite Nat.add_0_r, H0. exact Hv'.
    + replace (p + S k)%nat with (S p + k)%nat by lia. apply Hk. lia.
Qed.

(** The loop against a script: [N] answers that do not resolve, then one
    that does. *)
Lemma polled_script v p t n evs o :
  polled w v p t n evs o ->
  forall N,
    terminal (status v) = false ->
    (forall k, (k < N)%nat -> resolves (retrieve_resp w (p + k)) = false) ->
    resolves (retrieve_resp w (p + N)) = true ->
    (o = outcome_of_answer (retrieve_resp w (p + N)) /\ n = S N) \/
    (o = Running /\ (n <= N)%nat).
Proof.
  induction 1; intros N Hv Hpre HN.
  - congruence.
  - right. split; [reflexivity | lia].
  - destruct N as [|N].
    + left. rewrite Nat.add_0_r, H0. auto.
    + specialize (Hpre 0%nat ltac:(lia)). rewrite Nat.add_0_r, H0 in Hpre.
      discriminate.
  - destruct N as [|N].
    + rewrite Nat.add_0_r, H0 in HN. simpl in HN.
      inversion H1; subst; try congruence.
      left. rewrite Nat.add_0_r, H0. auto.
    + assert (Hv' : terminal (status v') = false).
      { specialize (Hpre 0%nat ltac:(lia)). by rewrite Nat.add_0_r, H0 in Hpre. }
      destruct (IHpolled N Hv') as [[-> ->] | [-> Hle]].
      * intros k Hk. replace (S p + k)%nat with (p + S k)%nat by lia.
        apply Hpre. lia.
      * by replace (S p + N)%nat with (p + S N)%nat by lia.
      * left. by replace (S p + N)%nat with (p + S N)%nat by lia.
      * right. split; [reflexivity | lia].
Qed.

End Polled.

Lemma poll_events_no_download evs :
  forallb is_poll_event evs = true -> count is_download evs = 0%nat.
Proof. intros H. apply (count_none _ _ _ H). by intros []. Qed.

Lemma poll_events_no_write evs :
  forallb is_poll_event evs = true -> count is_write evs = 0%nat.
Proof. intros H. apply (count_none _ _ _ H). by intros []. Qed.

Lemma poll_events_no_file_event evs :
  forallb is_poll_event evs = true ->
  forallb (fun ev => negb (is_file_event ev)) evs = true.
Proof.
  induction evs as [|ev evs IH]; [reflexivity|]. simpl.
  rewrite !andb_true_iff. intros [Hev Hevs]. split; [by destruct ev | auto].
Qed.

(** ** The stages, computed *)

Lemma run_stages reference fuel prompt size seconds w st :
  run reference fuel prompt size seconds w st =
  try_except_Exception
    (v <- creation reference prompt size seconds;;
     after_create (chatty reference) fuel v)
    on_error w (announced reference prompt st).
Proof. destruct reference; reflexivity. Qed.

Lemma try_except_handled body w st :
  try_except_Exception body on_error w st = handled (body w st).
Proof.
  unfold try_except_Exception, handled.
  destruct (body w st) as [[v|e|] st']; reflexivity.
Qed.

Lemma handled_raise e st :
  handled (Raise e, st) = (caught e, extend st (error_lines e)).
Proof.
  unfold handled, caught, error_lines.
  destruct (derives_Exception e); [reflexivity|]. by rewrite extend_nil.
Qed.

Lemma store_eq v w st :
  store v w st =
  match download_resp w with
  | Err e => (Raise e, extend st [EvDownload (id v) "video" (Err e)])
  | Ok content =>
      let now := clock w (ticks st) in
      let path := sora2_videofile now in
      match write_resp w with
      | WriteOk =>
          (Val (PyStr path),
           State (<[path := File content]> (fs st)) (open_files st)
             (polls st) (S (ticks st))
             (trace st ++
              [EvDownload (id v) "video" (Ok content); EvNow now;
               EvWrite path content; EvPrint LogDone; EvPrint (LogSaved path)]))
      | WriteFails e partial =>
          (Raise e,
           State (written partial path content (fs st)) (open_files st)
             (polls st) (S (ticks st))
             (trace st ++
              [EvDownload (id v) "video" (Ok content); EvNow now;
               EvWrite path content]))
      end
  end.
Proof.
  destruct st as [f o p t tr].
  unfold store, bind, client_videos_download_content, write_to_file, extend.
  destruct (download_resp w) as [content|e]; simpl; [|reflexivity].
  unfold bind, datetime_now. simpl.
  destruct (write_resp w) as [|e [k|]];
    unfold ret, record, set_fs, next_tick; simpl;
    rewrite <- ?List.app_assoc; reflexivity.
Qed.

Lemma conclude_completed verbose v w st :
  status v = "completed" ->
  conclude verbose v w st = store v w (extend st (completion_lines verbose)).
Proof.
  intros Hs. unfold conclude. rewrite Hs. simpl.
  destruct verbose; simpl.
  - destruct st as [f o p t tr]. unfold bind at 1. simpl. unfold bind at 1. simpl.
    unfold extend, record. simpl. by rewrite <- !List.app_assoc.
  - by rewrite extend_nil.
Qed.

Lemma conclude_failed verbose v w st :
  status v = "failed" ->
  conclude verbose v w st = (Val (PyBool false), extend st [EvPrint LogFailed]).
Proof. intros Hs. unfold conclude. rewrite Hs. reflexivity. Qed.

Lemma conclude_cancelled verbose v w st :
  status v = "cancelled" ->
  conclude verbose v w st = (Val (PyBool false), extend st [EvPrint LogCancelled]).
Proof. intros Hs. unfold conclude. rewrite Hs. reflexivity. Qed.

Lemma run_unreadable reference fuel prompt size seconds w files image_file :
  reference = Some image_file ->
  readable files reference = false ->
  run reference fuel prompt size seconds w (initial files) =
  (Val (PyBool false),
   State files [] 0 0
     (prologue reference prompt ++
      [EvPrint (LogError (exn_str (open_error files image_file)))])).
Proof.
  intros -> Hr. rewrite run_stages, try_except_handled.
  unfold readable, open_error in *. unfold bind, creation, with_open, py_open.
  simpl. destruct (files !! image_file) as [[|d]|]; try discriminate; reflexivity.
Qed.

Lemma run_create_err reference fuel prompt size seconds w files e :
  readable files reference = true ->
  create_resp w = Err e ->
  run reference fuel prompt size seconds w (initial files) =
  handled
    (Raise e,
     State files [] 0 0
       (prologue reference prompt ++
        creation_events reference prompt size seconds (Err e))).
Proof.
  intros Hr He. rewrite run_stages, try_except_handled. f_equal.
  unfold readable in Hr. unfold bind, creation, with_open, py_open.
  destruct reference as [image_file|]; simpl.
  - destruct (files !! image_file) as [[|d]|]; try discriminate.
    unfold client_videos_create. rewrite He. simpl.
    unfold py_close. simpl. by rewrite String.eqb_refl.
  - unfold client_videos_create. rewrite He. reflexivity.
Qed.

(** After a successful creation, both functions run the same loop and
    differ only in the trace around it. *)
Lemma run_create_ok fuel w v :
  create_resp w = Ok v ->
  exists n evs o,
    polled w v 0 0 n evs o /\
    (n <= fuel)%nat /\
    (o = Running -> n = fuel) /\
    forall reference prompt size seconds files,
      readable files reference = true ->
      run reference fuel prompt size seconds w (initial files) =
      finish (chatty reference) w o
        (State files [] n n (head reference prompt size seconds v evs)).
Proof.
  intros Hv.
  destruct (poll_polled fuel v w 0%nat 0%nat)
    as (n & evs & o & Hrel & Hle & Hfuel & Hp).
  exists n, evs, o. split; [exact Hrel|]. split; [exact Hle|]. split; [exact Hfuel|].
  intros reference prompt size seconds files Hr.
  rewrite run_stages, try_except_handled. unfold finish. f_equal.
  set (tr0 := prologue reference prompt ++
              creation_events reference prompt size seconds (Ok v) ++
              [EvPrint (LogVideoId (id v)); EvPrint (LogInitialStatus (status v))]).
  specialize (Hp files [] tr0).
  replace (head reference prompt size seconds v evs) with (tr0 ++ evs)
    by (unfold tr0, head; by rewrite <- !List.app_assoc).
  unfold readable in Hr. unfold bind at 1, creation, with_open, py_open.
  destruct reference as [image_file|]; simpl.
  - destruct (files !! image_file) as [[|d]|]; try discriminate.
    unfold client_videos_create. rewrite Hv. simpl.
    unfold py_close. simpl. rewrite String.eqb_refl.
    unfold after_create. unfold bind at 1. simpl. unfold bind at 1. simpl.
    unfold bind at 1.
    match goal with
    | |- context [poll fuel v w ?s] => change s with (State files [] 0 0 tr0)
    end.
    rewrite Hp. by destruct o.
  - unfold client_videos_create. rewrite Hv. simpl.
    unfold after_create. unfold bind at 1. simpl. unfold bind at 1. simpl.
    unfold bind at 1.
    match goal with
    | |- context [poll fuel v w ?s] => change s with (State files [] 0 0 tr0)
    end.
    rewrite Hp. by destruct o.
Qed.

(** ** Every run is one of the executions *)

Theorem run_execution reference fuel prompt size seconds w files :
  execution reference fuel prompt size seconds w files
    (fst (run reference fuel prompt size seconds w (initial files)))
    (snd (run reference fuel prompt size seconds w (initial files))).
Proof.
  destruct (readable files reference) eqn:Hr.
  2:{ destruct reference as [image_file|] eqn:Href; [|discriminate].
      rewrite <- Href in *.
      rewrite (run_unreadable _ fuel prompt size seconds w files image_file Href Hr).
      by apply ex_unreadable. }
  destruct (create_resp w) as [v|e] eqn:Hc.
  2:{ rewrite (run_create_err _ fuel prompt size seconds w files e Hr Hc).
      rewrite handled_raise. unfold extend. simpl. rewrite <- ?List.app_assoc.
      by apply ex_create_raises. }
  destruct (run_create_ok fuel w v Hc) as (n & evs & o & Hp & Hle & Hfuel & Hrun).
  rewrite (Hrun reference prompt size seconds files Hr). unfold finish.
  destruct o as [v'|e|].
  - destruct (polled_val w _ _ _ _ _ _ Hp) as [Ht _].
    apply terminal_true in Ht as [Hs|[Hs|Hs]].
    + rewrite (conclude_completed _ _ _ _ Hs), store_eq. simpl.
      destruct (download_resp w) as [content|e] eqn:Hd.
      * destruct (write_resp w) as [|e partial] eqn:Hw.
        -- simpl. rewrite <- ?List.app_assoc. by eapply ex_stored.
        -- rewrite handled_raise. unfold extend. simpl.
           rewrite <- ?List.app_assoc. by eapply ex_write_raises.
      * rewrite handled_raise. unfold extend. simpl.
        rewrite <- ?List.app_assoc. by eapply ex_download_raises.
    + rewrite (conclude_failed _ _ _ _ Hs). by eapply ex_failed.
    + rewrite (conclude_cancelled _ _ _ _ Hs). by eapply ex_cancelled.
  - rewrite handled_raise. by eapply ex_poll_raises.
  - simpl. pose proof (Hfuel eq_refl) as Hn. subst n. by apply ex_running.
Qed.

(** ** Reading the trace of an execution *)

Lemma observed_prologue reference prompt : observed (prologue reference prompt) = [].
Proof. by destruct reference. Qed.

Lemma observed_creation reference prompt size seconds r :
  observed (creation_events reference prompt size seconds r) =
  match r with Ok v => [status v] | Err _ => [] end.
Proof. by destruct reference, r. Qed.

Lemma observed_error_lines e : observed (error_lines e) = [].
Proof. unfold error_lines. by destruct (derives_Exception e). Qed.

Lemma observed_completion_lines verbose : observed (completion_lines verbose) = [].
Proof. by destruct verbose. Qed.

Lemma observed_head reference prompt size seconds v evs :
  observed (head reference prompt size seconds v evs) = status v :: observed evs.
Proof.
  unfold head. by rewrite !observed_app, observed_prologue, observed_creation.
Qed.

Lemma count_prologue p reference prompt :
  (forall l, p (EvPrint l) = false) -> count p (prologue reference prompt) = 0%nat.
Proof. intros Hp. destruct reference; unfold count; simpl; by rewrite !Hp. Qed.

Lemma count_error_lines p e :
  (forall l, p (EvPrint l) = false) -> count p (error_lines e) = 0%nat.
Proof.
  intros Hp. unfold error_lines, count.
  destruct (derives_Exception e); simpl; by rewrite ?Hp.
Qed.

Lemma count_completion_lines p verbose :
  (forall l, p (EvPrint l) = false) -> count p (completion_lines verbose) = 0%nat.
Proof. intros Hp. unfold count. destruct verbose; simpl; by rewrite ?Hp. Qed.

Lemma count_creation p reference prompt size seconds r :
  (forall ev, is_file_event ev = true -> p ev = false) ->
  count p (creation_events reference prompt size seconds r) = 0%nat.
Proof.
  intros Hp. unfold count. destruct reference; simpl; by rewrite !Hp.
Qed.

Lemma count_head p reference prompt size seconds v evs :
  (forall l, p (EvPrint l) = false) ->
  (forall ev, is_file_event ev = true -> p ev = false) ->
  count p (head reference prompt size seconds v evs) = count p evs.
Proof.
  intros Hp Hf. unfold head.
  rewrite !count_app, count_prologue, count_creation by assumption.
  unfold count. simpl. by rewrite !Hp.
Qed.

Lemma count_cons p ev (tr : list event) :
  count p (ev :: tr) = ((if p ev then 1 else 0) + count p tr)%nat.
Proof. unfold count. simpl. by destruct (p ev). Qed.

Lemma count_nil p : count p [] = 0%nat.
Proof. reflexivity. Qed.

Ltac count_trace :=
  repeat progress
    (rewrite ?count_app, ?count_cons, ?count_nil, ?count_head, ?count_prologue,
       ?count_creation, ?count_error_lines, ?count_completion_lines
       by (by intros []);
     simpl).

Ltac observe_trace :=
  rewrite ?observed_app, ?observed_head, ?observed_prologue, ?observed_creation,
    ?observed_error_lines, ?observed_completion_lines.

Ltac observe_all :=
  repeat progress (observe_trace; simpl; rewrite ?app_nil_r).

(** ** Failed and cancelled jobs *)

(** C3.  In every run in which the job is seen in the terminal status
    [failed] or [cancelled], the function returns [False], no
    [download_content] call is made, no file is written and the file
    system is as it was. *)
Theorem failed_or_cancelled_returns_False
    reference fuel prompt size seconds w files s :
  s = "failed" \/ s = "cancelled" ->
  s ∈ observed (trace (snd (run reference fuel prompt size seconds w (initial files)))) ->
  fst (run reference fuel prompt size seconds w (initial files)) = Val (PyBool false) /\
  count is_download
    (trace (snd (run reference fuel prompt size seconds w (initial files)))) = 0%nat /\
  count is_write
    (trace (snd (run reference fuel prompt size seconds w (initial files)))) = 0%nat /\
  fs (snd (run reference fuel prompt size seconds w (initial files))) = files.
Proof.
  intros Hs Hin.
  assert (Hterm : terminal s = true) by (apply terminal_true; tauto).
  assert (Hnc : s <> "completed") by (destruct Hs; subst; discriminate).
  destruct (run_execution reference fuel prompt size seconds w files)
    as [image_file Href Hr | e Hr Hc | v evs Hr Hc Hp | v n evs e Hr Hc Hp Hle
       | v n evs v' Hr Hc Hp Hle Hv' | v n evs v' Hr Hc Hp Hle Hv'
       | v n evs v' e Hr Hc Hp Hle Hv' Hd
       | v n evs v' content e partial Hr Hc Hp Hle Hv' Hd Hw
       | v n evs v' content Hr Hc Hp Hle Hv' Hd Hw];
    simpl in *; revert Hin; observe_all; intros Hin;
    try (by apply elem_of_nil in Hin);
    destruct (polled_terminal_seen w _ _ _ _ _ _ s Hp Hin Hterm) as (v'' & Ho & Hv'');
    try discriminate; try (injection Ho as <-; congruence).
  - pose proof (polled_events w _ _ _ _ _ _ Hp) as Hev.
    repeat split; count_trace;
      rewrite ?poll_events_no_download, ?poll_events_no_write by assumption;
      reflexivity.
  - pose proof (polled_events w _ _ _ _ _ _ Hp) as Hev.
    repeat split; count_trace;
      rewrite ?poll_events_no_download, ?poll_events_no_write by assumption;
      reflexivity.
Qed.

Lemma failed_or_cancelled_returns_False_witness :
  fst (run None 5 dog_prompt "1280x720" 8 (scripted 2 "failed" march_15) (initial ∅))
    = Val (PyBool false) /\
  count is_download
    (trace (snd (run None 5 dog_prompt "1280x720" 8 (scripted 2 "failed" march_15)
                   (initial ∅)))) = 0%nat /\
  count is_write
    (trace (snd (run None 5 dog_prompt "1280x720" 8 (scripted 2 "failed" march_15)
                   (initial ∅)))) = 0%nat /\
  fs (snd (run None 5 dog_prompt "1280x720" 8 (scripted 2 "failed" march_15)
             (initial ∅))) = ∅.
Proof.
  apply (failed_or_cancelled_returns_False None 5 dog_prompt "1280x720" 8
           (scripted 2 "failed" march_15) ∅ "failed").
  - left. reflexivity.
  - vm_compute. do 3 apply list_elem_of_further. apply list_elem_of_here.
Defined.

(** ** The creation call raises *)

(** C6, as the code has it.  When the creation call raises, nothing is
    downloaded or written and the file system is as it was, whatever the
    exception.  An instance of [Exception] is caught: the error is
    printed and the function returns [False].  Any other exception
    reaches the caller, and nothing is printed about it. *)
Theorem create_raises_nothing_written
    reference fuel prompt size seconds w files e :
  readable files reference = true ->
  create_resp w = Err e ->
  fst (run reference fuel prompt size seconds w (initial files)) =
    (if derives_Exception e then Val (PyBool false) else Raise e) /\
  trace (snd (run reference fuel prompt size seconds w (initial files))) =
    prologue reference prompt ++
    creation_events reference prompt size seconds (Err e) ++
    (if derives_Exception e then [EvPrint (LogError (exn_str e))] else []) /\
  count is_download
    (trace (snd (run reference fuel prompt size seconds w (initial files)))) = 0%nat /\
  count is_write
    (trace (snd (run reference fuel prompt size seconds w (initial files)))) = 0%nat /\
  fs (snd (run reference fuel prompt size seconds w (initial files))) = files.
Proof.
  intros Hr Hc.
  rewrite (run_create_err _ fuel prompt size seconds w files e Hr Hc), handled_raise.
  unfold caught, error_lines. simpl. rewrite <- List.app_assoc.
  split; [reflexivity|]. split; [reflexivity|].
  split; [|split; [|reflexivity]];
    destruct reference, (derives_Exception e); reflexivity.
Qed.

Lemma create_raises_nothing_written_witness :
  fst (run (Some "cat.png") 3 dog_prompt "720x1280" 4 create_interrupted
         (initial with_image)) = Raise KeyboardInterrupt /\
  trace (snd (run (Some "cat.png") 3 dog_prompt "720x1280" 4 create_interrupted
                (initial with_image))) =
    [EvPrint LogBanner; EvPrint (LogInputImage "cat.png"); EvPrint (LogPrompt dog_prompt);
     EvOpen "cat.png" "rb";
     EvCreate "sora-2" dog_prompt (Some "cat.png") "720x1280" 4 (Err KeyboardInterrupt);
     EvClose "cat.png"] /\
  count is_download
    (trace (snd (run (Some "cat.png") 3 dog_prompt "720x1280" 4 create_interrupted
                   (initial with_image)))) = 0%nat /\
  count is_write
    (trace (snd (run (Some "cat.png") 3 dog_prompt "720x1280" 4 create_interrupted
                   (initial with_image)))) = 0%nat /\
  fs (snd (run (Some "cat.png") 3 dog_prompt "720x1280" 4 create_interrupted
             (initial with_image))) = with_image.
Proof.
  apply (create_raises_nothing_written (Some "cat.png") 3 dog_prompt "720x1280" 4
           create_interrupted with_image KeyboardInterrupt);
    reflexivity.
Defined.

(** C6, as stated, fails: an exception that is not an instance of
    [Exception] passes the handler and reaches the caller. *)
Lemma create_interrupt_reaches_caller :
  create_resp create_interrupted = Err KeyboardInterrupt /\
  fst (text_to_video_sora2 3 dog_prompt "1280x720" 8 create_interrupted (initial ∅))
    = Raise KeyboardInterrupt /\
  fst (text_to_video_sora2 3 dog_prompt "1280x720" 8 create_interrupted (initial ∅))
    <> Val (PyBool false).
Proof. repeat split. discriminate. Qed.

(** An error of the service is caught. *)
Example create_refused_returns_False :
  text_to_video_sora2 3 dog_prompt "1280x720" 8 create_refused (initial ∅) =
  (Val (PyBool false),
   State ∅ [] 0 0
     [EvPrint LogBanner; EvPrint (LogPrompt dog_prompt);
      EvCreate "sora-2" dog_prompt None "1280x720" 8 (Err (Exn true "BadRequestError"));
      EvPrint (LogError "BadRequestError")]).
Proof. reflexivity. Qed.

(** ** A completed job *)

Lemma strftime_file now :
  strftime "%d%b%Y_%H%M%S" now =
  pad2 (day now) +:+ month_abbr (month now) +:+ pad4 (year now) +:+ "_" +:+
  pad2 (hour now) +:+ pad2 (minute now) +:+ pad2 (second now).
Proof. reflexivity. Qed.

Lemma month_cases m :
  1 <= m <= 12 ->
  m = 1 \/ m = 2 \/ m = 3 \/ m = 4 \/ m = 5 \/ m = 6 \/
  m = 7 \/ m = 8 \/ m = 9 \/ m = 10 \/ m = 11 \/ m = 12.
Proof. lia. Qed.

Lemma days_in_month_le y m : days_in_month y m <= 31.
Proof.
  destruct (Z_le_dec 1 m) as [H1|H1]; [destruct (Z_le_dec m 12) as [H2|H2]|].
  - destruct (month_cases m (conj H1 H2)) as [->|[->|[->|[->|[->|[->|[->|[->|[->|[->|[->| ->]]]]]]]]]]];
      simpl; try lia. destruct (is_leap y); lia.
  - unfold days_in_month. destruct m as [|p|p]; try lia.
    do 4 (destruct p as [p|p|]; try lia).
  - unfold days_in_month. destruct m as [|p|p]; lia.
Qed.

Lemma datetime_ok_ranges d :
  datetime_ok d = true ->
  1 <= year d <= 9999 /\ 1 <= month d <= 12 /\ 1 <= day d <= 31 /\
  0 <= hour d <= 23 /\ 0 <= minute d <= 59 /\ 0 <= second d <= 59 /\
  0 <= microsecond d <= 999999.
Proof.
  unfold datetime_ok. rewrite !andb_true_iff, !Z.leb_le.
  pose proof (days_in_month_le (year d) (month d)). lia.
Qed.

(** A check on every number of a range. *)
Lemma checked_range (p : Z -> bool) (lo len : Z) :
  forallb (fun k => p (lo + Z.of_nat k)) (seq 0 (Z.to_nat len)) = true ->
  forall n, lo <= n < lo + len -> p n = true.
Proof.
  intros Hall n Hn. rewrite forallb_forall in Hall.
  replace n with (lo + Z.of_nat (Z.to_nat (n - lo))) by lia.
  apply Hall. apply in_seq. lia.
Qed.

(** The fields of [strftime] are the decimal numbers of the standard
    library, filled with zeros. *)
Lemma pad2_decimal n : 0 <= n <= 99 -> pad2 n = decimal 2 n.
Proof.
  intros Hn. apply String.eqb_eq.
  apply (checked_range (fun n => String.eqb (pad2 n) (decimal 2 n)) 0 100);
    [vm_compute; reflexivity | lia].
Qed.

Lemma pad4_decimal n : 1000 <= n <= 9999 -> pad4 n = decimal 4 n.
Proof.
  intros Hn. apply String.eqb_eq.
  apply (checked_range (fun n => String.eqb (pad4 n) (decimal 4 n)) 1000 9000);
    [vm_compute; reflexivity | lia].
Qed.

Lemma month_abbr_spec m :
  1 <= m <= 12 -> month_abbr m = nth (Z.to_nat (m - 1)) abbreviated_months ""%string.
Proof.
  intros Hm.
  destruct (month_cases m Hm)
    as [->|[->|[->|[->|[->|[->|[->|[->|[->|[->|[->| ->]]]]]]]]]]]; reflexivity.
Qed.

(** Lines 82-85 produce the path the specification describes. *)
Lemma sora2_videofile_spec now :
  datetime_ok now = true -> 1000 <= year now ->
  sora2_videofile now = "videos/sora2_video_" +:+ spec_timestamp now +:+ ".mp4".
Proof.
  intros Hok Hy.
  apply datetime_ok_ranges in Hok as (Hy' & Hm & Hd & Hh & Hmi & Hs & _).
  unfold sora2_videofile, spec_timestamp. rewrite strftime_file.
  rewrite <- (pad2_decimal (day now)), <- month_abbr_spec, <- pad4_decimal,
    <- !pad2_decimal by lia.
  reflexivity.
Qed.

Example strftime_file_march_15 : strftime "%d%b%Y_%H%M%S" march_15 = "15Mar2025_143022".
Proof. reflexivity. Qed.

Example strftime_log_march_15 :
  strftime "%d-%b-%Y %H:%M:%S" march_15 = "15-Mar-2025 14:30:22".
Proof. reflexivity. Qed.

(** C4.  In every run in which the job is seen [completed] and the
    download and the write succeed, the content is requested with variant
    ["video"], the bytes received are written to the output file named
    after the clock reading taken just before, that file then holds
    exactly these bytes, and its path is returned.  For a valid reading
    in a year of four digits the path is
    [videos/sora2_video_<stamp>.mp4] with the stamp of the
    specification: day, abbreviated month, year, an underscore, hour,
    minute, second. *)
Theorem completed_run_stores_video
    reference fuel prompt size seconds w files content :
  "completed" ∈
    observed (trace (snd (run reference fuel prompt size seconds w (initial files)))) ->
  download_resp w = Ok content ->
  write_resp w = WriteOk ->
  exists pre video_id now,
    trace (snd (run reference fuel prompt size seconds w (initial files))) =
      pre ++ [EvDownload video_id "video" (Ok content);
              EvNow now;
              EvWrite (sora2_videofile now) content;
              EvPrint LogDone;
              EvPrint (LogSaved (sora2_videofile now))] /\
    count is_download pre = 0%nat /\
    count is_write pre = 0%nat /\
    fst (run reference fuel prompt size seconds w (initial files)) =
      Val (PyStr (sora2_videofile now)) /\
    fs (snd (run reference fuel prompt size seconds w (initial files))) =
      <[sora2_videofile now := File content]> files /\
    (datetime_ok now = true -> 1000 <= year now ->
     sora2_videofile now =
       "videos/sora2_video_" +:+ spec_timestamp now +:+ ".mp4").
Proof.
  intros Hin Hdl Hwr.
  destruct (run_execution reference fuel prompt size seconds w files)
    as [image_file Href Hr | e Hr Hc | v evs Hr Hc Hp | v n evs e Hr Hc Hp Hle
       | v n evs v' Hr Hc Hp Hle Hv' | v n evs v' Hr Hc Hp Hle Hv'
       | v n evs v' e Hr Hc Hp Hle Hv' Hd
       | v n evs v' content' e partial Hr Hc Hp Hle Hv' Hd Hw
       | v n evs v' content' Hr Hc Hp Hle Hv' Hd Hw];
    simpl in *; revert Hin; observe_all; intros Hin;
    try (by apply elem_of_nil in Hin);
    try congruence;
    destruct (polled_terminal_seen w _ _ _ _ _ _ "completed" Hp Hin eq_refl)
      as (v'' & Ho & Hv'');
    try discriminate; try (injection Ho as <-; congruence).
  assert (content' = content) as -> by congruence.
  pose proof (polled_events w _ _ _ _ _ _ Hp) as Hev.
  exists (head reference prompt size seconds v evs ++ completion_lines (chatty reference)),
    (id v'), (clock w n).
  rewrite <- List.app_assoc.
  split; [reflexivity|].
  split; [count_trace; by rewrite poll_events_no_download|].
  split; [count_trace; by rewrite poll_events_no_write|].
  split; [reflexivity|]. split; [reflexivity|].
  apply sora2_videofile_spec.
Qed.

Lemma completed_run_stores_video_witness :
  fst (run None 5 dog_prompt "1280x720" 8 (scripted 0 "completed" march_15)
         (initial ∅)) =
    Val (PyStr "videos/sora2_video_15Mar2025_143022.mp4") /\
  fs (snd (run None 5 dog_prompt "1280x720" 8 (scripted 0 "completed" march_15)
             (initial ∅))) =
    <["videos/sora2_video_15Mar2025_143022.mp4" := File FAKEMP4]> ∅ /\
  exists pre,
    trace (snd (run None 5 dog_prompt "1280x720" 8 (scripted 0 "completed" march_15)
                  (initial ∅))) =
      pre ++ [EvDownload "video_1" "video" (Ok FAKEMP4);
              EvNow march_15;
              EvWrite "videos/sora2_video_15Mar2025_143022.mp4" FAKEMP4;
              EvPrint LogDone;
              EvPrint (LogSaved "videos/sora2_video_15Mar2025_143022.mp4")] /\
    count is_download pre = 0%nat /\
    count is_write pre = 0%nat.
Proof.
  destruct (completed_run_stores_video None 5 dog_prompt "1280x720" 8
              (scripted 0 "completed" march_15) ∅ FAKEMP4)
    as (pre & video_id & now & Htrace & Hnd & Hnw & Hres & Hfs & Hshape).
  - vm_compute. apply list_elem_of_further, list_elem_of_here.
  - reflexivity.
  - reflexivity.
  - assert (Hlast :
      drop 11 (trace (snd (run None 5 dog_prompt "1280x720" 8
                             (scripted 0 "completed" march_15) (initial ∅)))) =
      [EvDownload "video_1" "video" (Ok FAKEMP4); EvNow march_15;
       EvWrite (sora2_videofile march_15) FAKEMP4; EvPrint LogDone;
       EvPrint (LogSaved (sora2_videofile march_15))]) by reflexivity.
    pose proof Htrace as Hsplit.
    rewrite <- (take_drop 11 (trace _)), Hlast in Hsplit.
    apply app_inj_2 in Hsplit as [Hpre Hsplit]; [|reflexivity].
    assert (Hnow : now = march_15) by (inversion Hsplit; reflexivity).
    assert (Hid : video_id = "video_1") by (inversion Hsplit; reflexivity).
    subst now video_id.
    assert (Hpath : sora2_videofile march_15 = "videos/sora2_video_15Mar2025_143022.mp4").
    { rewrite Hshape; [reflexivity | reflexivity | simpl; lia]. }
    rewrite Hres, Hfs, Htrace, Hpath.
    split; [reflexivity|]. split; [reflexivity|].
    exists pre. auto.
Defined.

(** The example of the specification: [completed] on the first poll and
    the bytes [FAKEMP4]. *)
Example dog_on_a_beach :
  let r := text_to_video_sora2 5 dog_prompt "1280x720" 8
             (scripted 0 "completed" march_15) (initial ∅) in
  fst r = Val (PyStr "videos/sora2_video_15Mar2025_143022.mp4") /\
  fs (snd r) !! "videos/sora2_video_15Mar2025_143022.mp4" = Some (File FAKEMP4) /\
  count is_retrieve (trace (snd r)) = 1%nat.
Proof. vm_compute. repeat split. Qed.

(** ** No write before [completed] *)

Lemma count_split_positive p (pre post : list event) ev :
  p ev = true -> count p (pre ++ ev :: post) <> 0%nat.
Proof.
  intros Hev. rewrite count_app. unfold count at 2. simpl. rewrite Hev. simpl. lia.
Qed.

(** The one event of its kind in a list is found at one place only. *)
Lemma split_unique p (a : list event) : forall x b pre y post,
  count p a = 0%nat -> count p b = 0%nat -> p y = true ->
  a ++ x :: b = pre ++ y :: post -> pre = a.
Proof.
  induction a as [|a0 a IH]; intros x b pre y post Ha Hb Hy Heq.
  - destruct pre as [|z pre]; [reflexivity|].
    simpl in Heq. injection Heq as _ Heq. subst b.
    by apply count_split_positive in Hb.
  - unfold count in Ha. simpl in Ha.
    destruct (p a0) eqn:Ha0; [discriminate|].
    destruct pre as [|z pre].
    + simpl in Heq. injection Heq as Heq _. congruence.
    + simpl in Heq. injection Heq as -> Heq. f_equal.
      by apply (IH x b pre y post).
Qed.

(** C5.  At every point of every execution, complete or still in the
    loop, a write to the output file is preceded by the observation of
    the status [completed], and [completed] is the last status observed
    before it. *)
Theorem write_only_after_completed
    reference fuel prompt size seconds w files pre path data post :
  trace (snd (run reference fuel prompt size seconds w (initial files))) =
    pre ++ EvWrite path data :: post ->
  last_status pre = Some "completed".
Proof.
  intros Heq.
  destruct (run_execution reference fuel prompt size seconds w files)
    as [image_file Href Hr | e Hr Hc | v evs Hr Hc Hp | v n evs e Hr Hc Hp Hle
       | v n evs v' Hr Hc Hp Hle Hv' | v n evs v' Hr Hc Hp Hle Hv'
       | v n evs v' e Hr Hc Hp Hle Hv' Hd
       | v n evs v' content e partial Hr Hc Hp Hle Hv' Hd Hw
       | v n evs v' content Hr Hc Hp Hle Hv' Hd Hw];
    simpl in Heq;
    try (pose proof (polled_events w _ _ _ _ _ _ Hp) as Hev;
         pose proof (poll_events_no_write _ Hev) as Hnw).
  1-7: exfalso; apply (count_split_positive is_write pre post (EvWrite path data) eq_refl);
       rewrite <- Heq; count_trace; rewrite ?Hnw; reflexivity.
  - set (a := head reference prompt size seconds v evs ++
              completion_lines (chatty reference) ++
              [EvDownload (id v') "video" (Ok content); EvNow (clock w n)]).
    assert (Hpre : pre = a).
    { apply (split_unique is_write a
               (EvWrite (sora2_videofile (clock w n)) content) (error_lines e)
               pre (EvWrite path data) post).
      - unfold a. count_trace. by rewrite Hnw.
      - by count_trace.
      - reflexivity.
      - rewrite <- Heq. unfold a. by rewrite <- !List.app_assoc. }
    destruct (polled_val w _ _ _ _ _ _ Hp) as [_ Hlast].
    rewrite Hpre. unfold last_status, a. observe_trace. simpl.
    rewrite app_nil_r. simpl in Hlast. by rewrite Hlast, Hv'.
  - set (a := head reference prompt size seconds v evs ++
              completion_lines (chatty reference) ++
              [EvDownload (id v') "video" (Ok content); EvNow (clock w n)]).
    assert (Hpre : pre = a).
    { apply (split_unique is_write a
               (EvWrite (sora2_videofile (clock w n)) content)
               [EvPrint LogDone; EvPrint (LogSaved (sora2_videofile (clock w n)))]
               pre (EvWrite path data) post).
      - unfold a. count_trace. by rewrite Hnw.
      - reflexivity.
      - reflexivity.
      - rewrite <- Heq. unfold a. by rewrite <- !List.app_assoc. }
    destruct (polled_val w _ _ _ _ _ _ Hp) as [_ Hlast].
    rewrite Hpre. unfold last_status, a. observe_trace. simpl.
    rewrite app_nil_r. simpl in Hlast. by rewrite Hlast, Hv'.
Qed.

Lemma write_only_after_completed_witness :
  last_status
    (take 17 (trace (snd (run None 5 dog_prompt "1280x720" 8
                            (scripted 1 "completed" march_15) (initial ∅))))) =
  Some "completed".
Proof.
  apply (write_only_after_completed None 5 dog_prompt "1280x720" 8
           (scripted 1 "completed" march_15) ∅ _
           "videos/sora2_video_15Mar2025_143022.mp4" FAKEMP4
           [EvPrint LogDone;
            EvPrint (LogSaved "videos/sora2_video_15Mar2025_143022.mp4")]).
  vm_compute. reflexivity.
Defined.

(** ** The number of status fetches *)

(** C2, as the code has it.  The job is created in a non-terminal
    status, the service answers the first [N] status requests with a
    non-terminal status and the next one with [completed].  Then, given
    more than [N] iterations, the loop ends, and exactly [N + 1] status
    fetches precede the download call; none follows it. *)
Theorem poll_fetches_N_plus_1
    reference fuel prompt size seconds w files N v0 vN :
  readable files reference = true ->
  create_resp w = Ok v0 ->
  terminal (status v0) = false ->
  (forall k, (k < N)%nat -> resolves (retrieve_resp w k) = false) ->
  retrieve_resp w N = Ok vN ->
  status vN = "completed" ->
  (N < fuel)%nat ->
  exists pre post,
    trace (snd (run reference fuel prompt size seconds w (initial files))) =
      pre ++ EvDownload (id vN) "video" (download_resp w) :: post /\
    count is_retrieve pre = S N /\
    count is_download pre = 0%nat /\
    count is_retrieve post = 0%nat /\
    fst (run reference fuel prompt size seconds w (initial files)) <> Running.
Proof.
  intros Hr Hc Hv0 Hpre HN HvN Hfuel.
  assert (HresN : resolves (retrieve_resp w (0 + N)) = true).
  { simpl. rewrite HN. simpl. rewrite HvN. reflexivity. }
  destruct (run_execution reference fuel prompt size seconds w files)
    as [image_file Href Hr' | e Hr' Hc' | v evs Hr' Hc' Hp | v n evs e Hr' Hc' Hp Hle
       | v n evs v' Hr' Hc' Hp Hle Hv' | v n evs v' Hr' Hc' Hp Hle Hv'
       | v n evs v' e Hr' Hc' Hp Hle Hv' Hd
       | v n evs v' content e partial Hr' Hc' Hp Hle Hv' Hd Hw
       | v n evs v' content Hr' Hc' Hp Hle Hv' Hd Hw];
    try congruence;
    (assert (v = v0) as -> by congruence);
    destruct (polled_script w _ _ _ _ _ _ Hp N Hv0 Hpre HresN) as [[Ho Hn] | [Ho Hn]];
    simpl in Ho; rewrite ?HN in Ho; simpl in Ho;
    try discriminate; try lia;
    try (injection Ho as ->; congruence);
    injection Ho as ->; subst n;
    pose proof (polled_events w _ _ _ _ _ _ Hp) as Hev;
    pose proof (polled_count w _ _ _ _ _ _ Hp) as Hcount;
    exists (head reference prompt size seconds v0 evs ++
            completion_lines (chatty reference)); simpl.
  - exists (error_lines e). rewrite Hd, <- !List.app_assoc.
    repeat split; count_trace; rewrite ?Hcount, ?poll_events_no_download by assumption;
      try reflexivity; try lia.
    unfold caught. destruct (derives_Exception e); discriminate.
  - exists ([EvNow (clock w (S N));
             EvWrite (sora2_videofile (clock w (S N))) content] ++ error_lines e).
    rewrite Hd, <- !List.app_assoc.
    repeat split; count_trace; rewrite ?Hcount, ?poll_events_no_download by assumption;
      try reflexivity; try lia.
    unfold caught. destruct (derives_Exception e); discriminate.
  - exists [EvNow (clock w (S N));
            EvWrite (sora2_videofile (clock w (S N))) content;
            EvPrint LogDone;
            EvPrint (LogSaved (sora2_videofile (clock w (S N))))].
    rewrite Hd, <- !List.app_assoc.
    repeat split; count_trace; rewrite ?Hcount, ?poll_events_no_download by assumption;
      try reflexivity; try lia.
    discriminate.
Qed.

Lemma poll_fetches_N_plus_1_witness :
  exists pre post,
    trace (snd (run None 5 dog_prompt "1280x720" 8 (scripted 2 "completed" march_15)
                  (initial ∅))) =
      pre ++ EvDownload "video_1" "video" (Ok FAKEMP4) :: post /\
    count is_retrieve pre = 3%nat /\
    count is_download pre = 0%nat /\
    count is_retrieve post = 0%nat /\
    fst (run None 5 dog_prompt "1280x720" 8 (scripted 2 "completed" march_15)
           (initial ∅)) <> Running.
Proof.
  apply (poll_fetches_N_plus_1 None 5 dog_prompt "1280x720" 8
           (scripted 2 "completed" march_15) ∅ 2
           (Video "video_1" "queued") (Video "video_1" "completed")).
  - reflexivity.
  - reflexivity.
  - reflexivity.
  - intros k Hk. destruct k as [|[|k]]; [reflexivity | reflexivity | lia].
  - reflexivity.
  - reflexivity.
  - lia.
Defined.

(** C2, as stated, fails when the job is created in a terminal status:
    the service answers a non-terminal status zero times, its first
    status would be [completed], and the runner downloads without a
    single status fetch, not after one. *)
Lemma created_completed_not_fetched :
  retrieve_resp completed_at_once 0 = Ok (Video "video_1" "completed") /\
  count is_download
    (trace (snd (text_to_video_sora2 5 dog_prompt "1280x720" 8 completed_at_once
                   (initial ∅)))) = 1%nat /\
  count is_retrieve
    (trace (snd (text_to_video_sora2 5 dog_prompt "1280x720" 8 completed_at_once
                   (initial ∅)))) = 0%nat /\
  count is_retrieve
    (trace (snd (text_to_video_sora2 5 dog_prompt "1280x720" 8 completed_at_once
                   (initial ∅)))) <> (0 + 1)%nat.
Proof. repeat split. discriminate. Qed.

(** ** The reference image *)

Lemma hold_no_file_event (l : list event) : forall h,
  forallb (fun ev => negb (is_file_event ev)) l = true ->
  fold_left hold l h = h.
Proof.
  induction l as [|ev l IH]; intros h Hl; [reflexivity|].
  simpl in Hl. apply andb_true_iff in Hl as [Hev Hl]. simpl.
  rewrite IH by assumption. by destruct ev.
Qed.

(** An event of a kind that does not occur in [l1] lies in the rest. *)
Lemma split_in_rest (q : event -> bool) (l1 : list event) :
  forall rest pre ev post,
    l1 ++ rest = pre ++ ev :: post ->
    forallb (fun x => negb (q x)) l1 = true ->
    q ev = true ->
    exists pre', pre = l1 ++ pre' /\ rest = pre' ++ ev :: post.
Proof.
  induction l1 as [|x l1 IH]; intros rest pre ev post Heq Hl1 Hev.
  - exists pre. auto.
  - simpl in Hl1. apply andb_true_iff in Hl1 as [Hx Hl1].
    destruct pre as [|z pre].
    + simpl in Heq. injection Heq as -> _. rewrite Hev in Hx. discriminate.
    + simpl in Heq. injection Heq as -> Heq.
      destruct (IH rest pre ev post Heq Hl1 Hev) as (pre' & -> & ->).
      exists pre'. auto.
Qed.

Lemma forallb_prefix {A} (p : A -> bool) (a b : list A) :
  forallb p (a ++ b) = true -> forallb p a = true.
Proof. rewrite forallb_app, andb_true_iff. tauto. Qed.

Lemma no_file_event_error_lines e :
  forallb (fun ev => negb (is_file_event ev)) (error_lines e) = true.
Proof. unfold error_lines. by destruct (derives_Exception e). Qed.

Lemma no_file_event_completion_lines verbose :
  forallb (fun ev => negb (is_file_event ev)) (completion_lines verbose) = true.
Proof. by destruct verbose. Qed.

(** C7.  The image-to-video function holds no file handle at any
    status fetch or sleep, nor when it ends.  When the image file can be
    opened, the function opens it in mode ["rb"], makes the creation call
    with the handle, and closes the handle right after that call,
    whatever the call answered; nothing that follows touches the file. *)
Theorem image_file_released_after_create
    fuel prompt image_file size seconds w files :
  open_files (snd (image_to_video_sora2 fuel prompt image_file size seconds w
                     (initial files))) = [] /\
  (forall pre ev post,
     trace (snd (image_to_video_sora2 fuel prompt image_file size seconds w
                   (initial files))) = pre ++ ev :: post ->
     is_retrieve ev || is_sleep ev = true ->
     held_after pre = []) /\
  (forall data,
     files !! image_file = Some (File data) ->
     exists rest,
       trace (snd (image_to_video_sora2 fuel prompt image_file size seconds w
                     (initial files))) =
         [EvPrint LogBanner; EvPrint (LogInputImage image_file);
          EvPrint (LogPrompt prompt);
          EvOpen image_file "rb";
          EvCreate "sora-2" prompt (Some image_file) size seconds (create_resp w);
          EvClose image_file] ++ rest /\
       forallb (fun ev => negb (is_file_event ev)) rest = true).
Proof.
  change (image_to_video_sora2 fuel prompt image_file size seconds)
    with (run (Some image_file) fuel prompt size seconds).
  destruct (readable files (Some image_file)) eqn:Hr.
  - assert (Hshape : exists rest,
       trace (snd (run (Some image_file) fuel prompt size seconds w (initial files))) =
         [EvPrint LogBanner; EvPrint (LogInputImage image_file);
          EvPrint (LogPrompt prompt);
          EvOpen image_file "rb";
          EvCreate "sora-2" prompt (Some image_file) size seconds (create_resp w);
          EvClose image_file] ++ rest /\
       forallb (fun ev => negb (is_file_event ev)) rest = true /\
       open_files (snd (run (Some image_file) fuel prompt size seconds w (initial files)))
         = []).
    { destruct (run_execution (Some image_file) fuel prompt size seconds w files)
        as [f Href Hr' | e Hr' Hc | v evs Hr' Hc Hp | v n evs e Hr' Hc Hp Hle
           | v n evs v' Hr' Hc Hp Hle Hv' | v n evs v' Hr' Hc Hp Hle Hv'
           | v n evs v' e Hr' Hc Hp Hle Hv' Hd
           | v n evs v' content e partial Hr' Hc Hp Hle Hv' Hd Hw
           | v n evs v' content Hr' Hc Hp Hle Hv' Hd Hw];
        try congruence;
        try (pose proof (poll_events_no_file_event _ (polled_events w _ _ _ _ _ _ Hp))
               as Hev);
        rewrite Hc; unfold head; simpl; eexists; (split; [reflexivity|]);
        (split; [|reflexivity]);
        repeat progress
          (simpl; rewrite ?forallb_app, ?Hev, ?no_file_event_error_lines,
                    ?no_file_event_completion_lines);
        reflexivity. }
    destruct Hshape as (rest & Htr & Hrest & Hopen).
    split; [exact Hopen|]. split; [|intros data _; exists rest; auto].
    intros pre ev post Heq Hev.
    rewrite Htr in Heq.
    destruct (split_in_rest (fun x => is_retrieve x || is_sleep x) _ _ _ _ _
                Heq eq_refl Hev) as (pre' & -> & Hrest').
    unfold held_after. rewrite fold_left_app. simpl. rewrite String.eqb_refl.
    apply hold_no_file_event. rewrite Hrest' in Hrest.
    by apply forallb_prefix in Hrest.
  - rewrite (run_unreadable (Some image_file) fuel prompt size seconds w files
               image_file eq_refl Hr). simpl.
    split; [reflexivity|]. split.
    + intros pre ev post Heq Hev.
      rewrite <- (app_nil_r [_; _; _; _]) in Heq.
      destruct (split_in_rest (fun x => is_retrieve x || is_sleep x) _ _ _ _ _
                  Heq eq_refl Hev) as (pre' & _ & Hnil).
      by destruct pre'.
    + intros data Hfile. unfold readable in Hr. rewrite Hfile in Hr. discriminate.
Qed.

Lemma image_file_released_after_create_witness :
  exists rest,
    trace (snd (image_to_video_sora2 5 dog_prompt "cat.png" "1280x720" 8
                  (scripted 2 "completed" march_15) (initial with_image))) =
      [EvPrint LogBanner; EvPrint (LogInputImage "cat.png");
       EvPrint (LogPrompt dog_prompt);
       EvOpen "cat.png" "rb";
       EvCreate "sora-2" dog_prompt (Some "cat.png") "1280x720" 8
         (create_resp (scripted 2 "completed" march_15));
       EvClose "cat.png"] ++ rest /\
    forallb (fun ev => negb (is_file_event ev)) rest = true.
Proof.
  apply (proj2 (proj2 (image_file_released_after_create 5 dog_prompt "cat.png"
                         "1280x720" 8 (scripted 2 "completed" march_15) with_image))
           [x89; x50]).
  reflexivity.
Defined.

(** Without the image file nothing is opened and no call is made. *)
Example image_missing :
  image_to_video_sora2 5 dog_prompt "cat.png" "1280x720" 8
    (scripted 2 "completed" march_15) (initial ∅) =
  (Val (PyBool false),
   State ∅ [] 0 0
     [EvPrint LogBanner; EvPrint (LogInputImage "cat.png");
      EvPrint (LogPrompt dog_prompt); EvPrint (LogError "FileNotFoundError")]).
Proof. reflexivity. Qed.

(** ** The output directory *)

Lemma makedirs_existing w st :
  fs st !! VIDEO_DIR = Some Dir -> module_setup w st = (Val tt, st).
Proof. intros H. unfold module_setup, os_makedirs. by rewrite H. Qed.

Lemma makedirs_creates w st st1 :
  module_setup w st = (Val tt, st1) -> fs st1 !! VIDEO_DIR = Some Dir.
Proof.
  unfold module_setup, os_makedirs.
  destruct (fs st !! VIDEO_DIR) as [[|d]|] eqn:Hd; intros H; try discriminate.
  - by injection H as <-.
  - injection H as <-. simpl. apply lookup_insert_eq.
Qed.

(** Without [exist_ok] the second call would fail. *)
Example makedirs_not_exist_ok :
  fst (os_makedirs VIDEO_DIR false queued_forever
         (snd (os_makedirs VIDEO_DIR false queued_forever (initial ∅))))
  = Raise FileExistsError.
Proof. reflexivity. Qed.

Lemma sora2_videofile_not_dir now : sora2_videofile now <> VIDEO_DIR.
Proof.
  unfold sora2_videofile, os_path_join, VIDEO_DIR.
  cbv [String.append]. discriminate.
Qed.

(** A run leaves the output directory in place. *)
Lemma run_keeps_directory reference fuel prompt size seconds w files :
  files !! VIDEO_DIR = Some Dir ->
  fs (snd (run reference fuel prompt size seconds w (initial files))) !! VIDEO_DIR
    = Some Dir.
Proof.
  intros Hdir.
  destruct (run_execution reference fuel prompt size seconds w files)
    as [image_file Href Hr | e Hr Hc | v evs Hr Hc Hp | v n evs e Hr Hc Hp Hle
       | v n evs v' Hr Hc Hp Hle Hv' | v n evs v' Hr Hc Hp Hle Hv'
       | v n evs v' e Hr Hc Hp Hle Hv' Hd
       | v n evs v' content e partial Hr Hc Hp Hle Hv' Hd Hw
       | v n evs v' content Hr Hc Hp Hle Hv' Hd Hw];
    simpl; try assumption.
  - destruct partial as [k|]; simpl; [|assumption].
    rewrite lookup_insert_ne; [assumption | apply sora2_videofile_not_dir].
  - rewrite lookup_insert_ne; [assumption | apply sora2_videofile_not_dir].
Qed.

(** C8.  Setting up the output directory when it exists succeeds and
    changes nothing.  Hence, once the setup has succeeded, the directory
    exists, setting it up again succeeds and changes nothing, and it
    still succeeds after any run of either function. *)
Theorem output_directory_setup_idempotent w st :
  (fs st !! VIDEO_DIR = Some Dir -> module_setup w st = (Val tt, st)) /\
  (forall st1,
     module_setup w st = (Val tt, st1) ->
     fs st1 !! VIDEO_DIR = Some Dir /\
     module_setup w st1 = (Val tt, st1) /\
     forall reference fuel prompt size seconds w' w'',
       module_setup w''
         (snd (run reference fuel prompt size seconds w' (initial (fs st1)))) =
       (Val tt, snd (run reference fuel prompt size seconds w' (initial (fs st1))))).
Proof.
  split; [apply makedirs_existing|].
  intros st1 H. pose proof (makedirs_creates _ _ _ H) as Hdir.
  split; [exact Hdir|]. split; [by apply makedirs_existing|].
  intros. apply makedirs_existing. by apply run_keeps_directory.
Qed.

Lemma output_directory_setup_idempotent_witness :
  fs (snd (module_setup queued_forever (initial ∅))) !! VIDEO_DIR = Some Dir /\
  module_setup queued_forever (snd (module_setup queued_forever (initial ∅))) =
    (Val tt, snd (module_setup queued_forever (initial ∅))) /\
  forall reference fuel prompt size seconds w' w'',
    module_setup w''
      (snd (run reference fuel prompt size seconds w'
              (initial (fs (snd (module_setup queued_forever (initial ∅))))))) =
    (Val tt,
     snd (run reference fuel prompt size seconds w'
            (initial (fs (snd (module_setup queued_forever (initial ∅))))))).
Proof.
  apply (proj2 (output_directory_setup_idempotent queued_forever (initial ∅))
           (snd (module_setup queued_forever (initial ∅)))).
  reflexivity.
Defined.

(** ** Timestamps and paths *)

Lemma digit_inj a b :
  0 <= a <= 9 -> 0 <= b <= 9 -> digit a = digit b -> a = b.
Proof.
  intros Ha Hb H. unfold digit in H.
  apply (f_equal nat_of_ascii) in H.
  rewrite !nat_ascii_embedding in H by lia. lia.
Qed.

Lemma pad2_inj a b :
  0 <= a < 100 -> 0 <= b < 100 -> pad2 a = pad2 b -> a = b.
Proof.
  intros Ha Hb H. unfold pad2 in H. injection H as H1 H0.
  apply digit_inj in H1; [| Z.div_mod_to_equations; lia ..].
  apply digit_inj in H0; [| Z.div_mod_to_equations; lia ..].
  Z.div_mod_to_equations. lia.
Qed.

Lemma pad4_inj a b :
  0 <= a < 10000 -> 0 <= b < 10000 -> pad4 a = pad4 b -> a = b.
Proof.
  intros Ha Hb H. unfold pad4 in H. injection H as H3 H2 H1 H0.
  apply digit_inj in H3; [| Z.div_mod_to_equations; lia ..].
  apply digit_inj in H2; [| Z.div_mod_to_equations; lia ..].
  apply digit_inj in H1; [| Z.div_mod_to_equations; lia ..].
  apply digit_inj in H0; [| Z.div_mod_to_equations; lia ..].
  Z.div_mod_to_equations. lia.
Qed.

Lemma month_abbr_shape m :
  1 <= m <= 12 ->
  exists a b c, month_abbr m = String a (String b (String c "")).
Proof.
  intros Hm. destruct (month_cases m Hm) as [->|[->|[->|[->|[->|[->|[->|[->|[->|[->|[->| ->]]]]]]]]]]];
    do 3 eexists; reflexivity.
Qed.

Lemma month_abbr_inj a b :
  1 <= a <= 12 -> 1 <= b <= 12 -> month_abbr a = month_abbr b -> a = b.
Proof.
  intros Ha Hb.
  destruct (month_cases a Ha) as [->|[->|[->|[->|[->|[->|[->|[->|[->|[->|[->| ->]]]]]]]]]]];
    destruct (month_cases b Hb) as [->|[->|[->|[->|[->|[->|[->|[->|[->|[->|[->| ->]]]]]]]]]]];
    intros H; first [reflexivity | discriminate H].
Qed.

(** Two valid timestamps with the same file name agree up to the second. *)
Lemma sora2_videofile_same_second d1 d2 :
  datetime_ok d1 = true -> datetime_ok d2 = true ->
  sora2_videofile d1 = sora2_videofile d2 ->
  year d1 = year d2 /\ month d1 = month d2 /\ day d1 = day d2 /\
  hour d1 = hour d2 /\ minute d1 = minute d2 /\ second d1 = second d2.
Proof.
  intros H1 H2 Heq.
  apply datetime_ok_ranges in H1 as (Hy1 & Hm1 & Hd1 & Hh1 & Hmi1 & Hs1 & _).
  apply datetime_ok_ranges in H2 as (Hy2 & Hm2 & Hd2 & Hh2 & Hmi2 & Hs2 & _).
  unfold sora2_videofile, os_path_join, VIDEO_DIR in Heq.
  rewrite !strftime_file in Heq.
  destruct (month_abbr_shape _ Hm1) as (a1 & b1 & c1 & Ha1).
  destruct (month_abbr_shape _ Hm2) as (a2 & b2 & c2 & Ha2).
  pose proof (month_abbr_inj _ _ Hm1 Hm2) as Hminj.
  rewrite Ha1, Ha2 in Heq, Hminj.
  pose proof (pad2_inj (day d1) (day d2)) as HD.
  pose proof (pad4_inj (year d1) (year d2)) as HY.
  pose proof (pad2_inj (hour d1) (hour d2)) as HH.
  pose proof (pad2_inj (minute d1) (minute d2)) as HM.
  pose proof (pad2_inj (second d1) (second d2)) as HS.
  unfold pad2, pad4 in *. cbv [String.append] in Heq.
  injection Heq; intros.
  repeat split.
  - apply HY; [lia | lia | congruence].
  - apply Hminj. congruence.
  - apply HD; [lia | lia | congruence].
  - apply HH; [lia | lia | congruence].
  - apply HM; [lia | lia | congruence].
  - apply HS; [lia | lia | congruence].
Qed.

Lemma sora2_videofile_inj d1 d2 :
  datetime_ok d1 = true -> datetime_ok d2 = true ->
  1000000 < Z.abs (to_microseconds d1 - to_microseconds d2) ->
  sora2_videofile d1 <> sora2_videofile d2.
Proof.
  intros H1 H2 Hfar Heq.
  destruct (sora2_videofile_same_second d1 d2 H1 H2 Heq)
    as (Hy & Hm & Hd & Hh & Hmi & Hs).
  apply datetime_ok_ranges in H1 as (_ & _ & _ & _ & _ & _ & Hu1).
  apply datetime_ok_ranges in H2 as (_ & _ & _ & _ & _ & _ & Hu2).
  unfold to_microseconds, toordinal in Hfar.
  rewrite Hy, Hm, Hd, Hh, Hmi, Hs in Hfar. lia.
Qed.

Lemma write_time_found (a : list event) : forall d path data b,
  count is_write a = 0%nat ->
  write_time (a ++ EvNow d :: EvWrite path data :: b) = Some d.
Proof.
  induction a as [|x a IH]; intros d path data b Ha; [reflexivity|].
  unfold count in Ha. simpl in Ha.
  destruct (is_write x) eqn:Hx; [discriminate|].
  specialize (IH d path data b Ha).
  destruct x; try discriminate; simpl; try exact IH.
  destruct a as [|y a]; simpl; [exact IH|].
  simpl in Ha. destruct y; try discriminate; exact IH.
Qed.

(** A run that returns a path has written the file named after the clock
    reading taken just before the write. *)
Lemma returned_path_names_write_time
    reference fuel prompt size seconds w files path :
  fst (run reference fuel prompt size seconds w (initial files)) = Val (PyStr path) ->
  exists now,
    write_time (trace (snd (run reference fuel prompt size seconds w (initial files))))
      = Some now /\
    path = sora2_videofile now.
Proof.
  destruct (run_execution reference fuel prompt size seconds w files)
    as [image_file Href Hr | e Hr Hc | v evs Hr Hc Hp | v n evs e Hr Hc Hp Hle
       | v n evs v' Hr Hc Hp Hle Hv' | v n evs v' Hr Hc Hp Hle Hv'
       | v n evs v' e Hr Hc Hp Hle Hv' Hd
       | v n evs v' content e partial Hr Hc Hp Hle Hv' Hd Hw
       | v n evs v' content Hr Hc Hp Hle Hv' Hd Hw];
    intros H; try discriminate H;
    try (unfold caught in H; destruct (derives_Exception e); discriminate H).
  injection H as <-. exists (clock w n). split; [|reflexivity].
  simpl.
  pose proof (poll_events_no_write _ (polled_events w _ _ _ _ _ _ Hp)) as Hnw.
  replace (head reference prompt size seconds v evs ++
           completion_lines (chatty reference) ++
           [EvDownload (id v') "video" (Ok content); EvNow (clock w n);
            EvWrite (sora2_videofile (clock w n)) content; EvPrint LogDone;
            EvPrint (LogSaved (sora2_videofile (clock w n)))])
    with ((head reference prompt size seconds v evs ++
           completion_lines (chatty reference) ++
           [EvDownload (id v') "video" (Ok content)]) ++
          EvNow (clock w n) :: EvWrite (sora2_videofile (clock w n)) content ::
          [EvPrint LogDone; EvPrint (LogSaved (sora2_videofile (clock w n)))])
    by (by rewrite <- !List.app_assoc).
  apply write_time_found. count_trace. by rewrite Hnw.
Qed.

(** C9.  Two runs, of either function, that return a path and whose
    file-write timestamps are more than one second apart return different
    paths. *)
Theorem distinct_seconds_distinct_paths
    reference1 fuel1 prompt1 size1 seconds1 w1 files1
    reference2 fuel2 prompt2 size2 seconds2 w2 files2
    path1 path2 now1 now2 :
  fst (run reference1 fuel1 prompt1 size1 seconds1 w1 (initial files1))
    = Val (PyStr path1) ->
  fst (run reference2 fuel2 prompt2 size2 seconds2 w2 (initial files2))
    = Val (PyStr path2) ->
  write_time (trace (snd (run reference1 fuel1 prompt1 size1 seconds1 w1
                            (initial files1)))) = Some now1 ->
  write_time (trace (snd (run reference2 fuel2 prompt2 size2 seconds2 w2
                            (initial files2)))) = Some now2 ->
  datetime_ok now1 = true ->
  datetime_ok now2 = true ->
  1000000 < Z.abs (to_microseconds now1 - to_microseconds now2) ->
  path1 <> path2.
Proof.
  intros Hr1 Hr2 Ht1 Ht2 Hok1 Hok2 Hfar.
  destruct (returned_path_names_write_time _ _ _ _ _ _ _ _ Hr1) as (t1 & Ht1' & ->).
  destruct (returned_path_names_write_time _ _ _ _ _ _ _ _ Hr2) as (t2 & Ht2' & ->).
  assert (t1 = now1) as -> by congruence.
  assert (t2 = now2) as -> by congruence.
  by apply sora2_videofile_inj.
Qed.

Lemma distinct_seconds_distinct_paths_witness :
  "videos/sora2_video_15Mar2025_143022.mp4" <>
  "videos/sora2_video_15Mar2025_143024.mp4".
Proof.
  apply (distinct_seconds_distinct_paths
           None 5 dog_prompt "1280x720" 8 (scripted 0 "completed" march_15) ∅
           (Some "cat.png") 5 dog_prompt "720x1280" 4
           (scripted 1 "completed" march_15_later) with_image
           "videos/sora2_video_15Mar2025_143022.mp4"
           "videos/sora2_video_15Mar2025_143024.mp4"
           march_15 march_15_later);
    vm_compute; reflexivity.
Defined.

(** Within one second the names collide: the format has a resolution of
    one second. *)
Example same_second_same_path :
  sora2_videofile (Datetime 2025 3 15 14 30 22 100000) =
  sora2_videofile (Datetime 2025 3 15 14 30 22 900000).
Proof. reflexivity. Qed.

(** ** The two functions side by side *)

Lemma outward_app (a b : list event) : outward (a ++ b) = outward a ++ outward b.
Proof. unfold outward. apply List.filter_app. Qed.

Lemma outward_error_lines e : outward (error_lines e) = [].
Proof. unfold error_lines. by destruct (derives_Exception e). Qed.

Lemma outward_completion_lines verbose : outward (completion_lines verbose) = [].
Proof. by destruct verbose. Qed.

Lemma outward_poll_events evs :
  forallb is_poll_event evs = true ->
  map forget_reference (outward evs) = outward evs.
Proof.
  induction evs as [|ev evs IH]; [reflexivity|]. simpl.
  rewrite andb_true_iff. intros [Hev Hevs].
  destruct ev; try discriminate; simpl; rewrite ?IH by assumption; reflexivity.
Qed.

Lemma outward_head image_file prompt size seconds v evs :
  forallb is_poll_event evs = true ->
  map forget_reference (outward (head (Some image_file) prompt size seconds v evs)) =
  outward (head None prompt size seconds v evs).
Proof.
  intros Hev. unfold head. simpl. by rewrite outward_poll_events.
Qed.


(** From the end of the loop on, the two functions do the same to the
    outside, whatever they printed: the same result, the same files, and
    the same outward events [tail] after those made so far. *)
Lemma finish_agree w o files ops p t tr_image tr_text :
  exists tail,
    fst (finish false w o (State files ops p t tr_image)) =
      fst (finish true w o (State files ops p t tr_text)) /\
    fs (snd (finish false w o (State files ops p t tr_image))) =
      fs (snd (finish true w o (State files ops p t tr_text))) /\
    outward (trace (snd (finish false w o (State files ops p t tr_image)))) =
      outward tr_image ++ tail /\
    outward (trace (snd (finish true w o (State files ops p t tr_text)))) =
      outward tr_text ++ tail /\
    map forget_reference tail = tail.
Proof.
  unfold finish. destruct o as [v|e|].
  - destruct (String.eqb (status v) "completed") eqn:Hc.
    + apply String.eqb_eq in Hc.
      rewrite !(conclude_completed _ _ _ _ Hc), !store_eq. simpl.
      destruct (download_resp w) as [content|e].
      * destruct (write_resp w) as [|e partial].
        -- simpl. eexists. rewrite <- !List.app_assoc, !outward_app. simpl.
           repeat split.
        -- rewrite !handled_raise. simpl. eexists.
           rewrite <- !List.app_assoc, !outward_app, !outward_error_lines. simpl.
           repeat split.
      * rewrite !handled_raise. simpl. eexists.
        rewrite <- !List.app_assoc, !outward_app, !outward_error_lines. simpl.
        repeat split.
    + unfold conclude. rewrite Hc. exists [].
      destruct (String.eqb (status v) "failed");
        [|destruct (String.eqb (status v) "cancelled")]; simpl;
        rewrite ?outward_app; simpl; rewrite ?app_nil_r; repeat split.
  - rewrite !handled_raise. simpl. exists [].
    rewrite !outward_app, !outward_error_lines. repeat split.
  - simpl. exists []. rewrite !app_nil_r. repeat split.
Qed.

(** From the end of the loop on, the two functions perform the same
    events [tail]; the text-to-video function first prints [lines], the
    two lines of a completed job, which come exactly when a download
    follows. *)
Lemma finish_lines w o files ops p t :
  exists lines tail,
    (forall tr,
       trace (snd (finish true w o (State files ops p t tr))) = tr ++ lines ++ tail) /\
    (forall tr,
       trace (snd (finish false w o (State files ops p t tr))) = tr ++ tail) /\
    ((lines = [] /\ count is_download tail = 0%nat) \/
     (lines = [EvPrint LogCompleted; EvPrint LogDownloading] /\
      exists video_id r rest, tail = EvDownload video_id "video" r :: rest)).
Proof.
  unfold finish. destruct o as [v|e|].
  - destruct (String.eqb (status v) "completed") eqn:Hc.
    + apply String.eqb_eq in Hc.
      exists [EvPrint LogCompleted; EvPrint LogDownloading].
      destruct (download_resp w) as [content|e] eqn:Hd.
      * destruct (write_resp w) as [|e partial] eqn:Hw.
        -- eexists. split; [|split; [|right; split; [reflexivity|eauto]]];
             intros tr; rewrite !(conclude_completed _ _ _ _ Hc), !store_eq, Hd, Hw;
             simpl; rewrite <- ?List.app_assoc; reflexivity.
        -- eexists. split; [|split; [|right; split; [reflexivity|eauto]]];
             intros tr; rewrite !(conclude_completed _ _ _ _ Hc), !store_eq, Hd, Hw,
               handled_raise; simpl; rewrite <- ?List.app_assoc; reflexivity.
      * eexists. split; [|split; [|right; split; [reflexivity|eauto]]];
          intros tr; rewrite !(conclude_completed _ _ _ _ Hc), !store_eq, Hd,
            handled_raise; simpl; rewrite <- ?List.app_assoc; reflexivity.
    + exists []. unfold conclude. rewrite Hc.
      destruct (String.eqb (status v) "failed");
        [exists [EvPrint LogFailed]
        |destruct (String.eqb (status v) "cancelled");
           [exists [EvPrint LogCancelled] | exists []]];
        (split; [|split; [|left; split; reflexivity]]);
        intros tr; simpl; rewrite ?app_nil_r; reflexivity.
  - exists [], (error_lines e).
    split; [|split; [|left; split; [reflexivity | by apply count_error_lines]]];
      intros tr; rewrite handled_raise; reflexivity.
  - exists [], []. split; [|split; [|left; split; reflexivity]];
      intros tr; simpl; by rewrite app_nil_r.
Qed.

(** C10, as the code has it.  On the same answers of the outside world,
    and with an image file that can be opened, the two functions return
    the same result, leave the same files, and make the same remote
    calls, clock reads, sleeps and writes in the same order, the
    creation call of one carrying the image and that of the other none.
    That is not their only difference: the image-to-video function
    prints the name of the image and opens and closes the file around
    the creation call, and the text-to-video function prints two lines
    before the download that the other does not print.  Apart from
    these, the two runs are the same sequence of events. *)
Theorem text_and_image_agree_after_create
    fuel prompt image_file size seconds w files data :
  files !! image_file = Some (File data) ->
  fst (image_to_video_sora2 fuel prompt image_file size seconds w (initial files)) =
    fst (text_to_video_sora2 fuel prompt size seconds w (initial files)) /\
  fs (snd (image_to_video_sora2 fuel prompt image_file size seconds w (initial files))) =
    fs (snd (text_to_video_sora2 fuel prompt size seconds w (initial files))) /\
  (exists rest,
    outward (trace (snd (image_to_video_sora2 fuel prompt image_file size seconds w
                           (initial files)))) =
      EvCreate "sora-2" prompt (Some image_file) size seconds (create_resp w) :: rest /\
    outward (trace (snd (text_to_video_sora2 fuel prompt size seconds w
                           (initial files)))) =
      EvCreate "sora-2" prompt None size seconds (create_resp w) :: rest /\
    map forget_reference rest = rest) /\
  (exists mid lines tail,
    trace (snd (image_to_video_sora2 fuel prompt image_file size seconds w
                  (initial files))) =
      [EvPrint LogBanner; EvPrint (LogInputImage image_file); EvPrint (LogPrompt prompt);
       EvOpen image_file "rb";
       EvCreate "sora-2" prompt (Some image_file) size seconds (create_resp w);
       EvClose image_file] ++ mid ++ tail /\
    trace (snd (text_to_video_sora2 fuel prompt size seconds w (initial files))) =
      [EvPrint LogBanner; EvPrint (LogPrompt prompt);
       EvCreate "sora-2" prompt None size seconds (create_resp w)] ++
      mid ++ lines ++ tail /\
    ((lines = [] /\ count is_download tail = 0%nat) \/
     (lines = [EvPrint LogCompleted; EvPrint LogDownloading] /\
      exists video_id r rest, tail = EvDownload video_id "video" r :: rest))).
Proof.
  intros Hfile.
  assert (Hr : readable files (Some image_file) = true).
  { unfold readable. by rewrite Hfile. }
  change (image_to_video_sora2 fuel prompt image_file size seconds)
    with (run (Some image_file) fuel prompt size seconds).
  change (text_to_video_sora2 fuel prompt size seconds)
    with (run None fuel prompt size seconds).
  destruct (create_resp w) as [v|e] eqn:Hc.
  - destruct (run_create_ok fuel w v Hc) as (n & evs & o & Hp & Hle & Hfuel & Hrun).
    rewrite (Hrun (Some image_file) prompt size seconds files Hr).
    rewrite (Hrun None prompt size seconds files eq_refl).
    pose proof (polled_events w _ _ _ _ _ _ Hp) as Hev.
    destruct (finish_agree w o files [] n n
                (head (Some image_file) prompt size seconds v evs)
                (head None prompt size seconds v evs))
      as (tail & H1 & H2 & H3 & H4 & H5).
    destruct (finish_lines w o files [] n n) as (lines & tail' & Ht & Hi & Hl).
    simpl chatty. split; [exact H1|]. split; [exact H2|]. split.
    + exists (outward evs ++ tail). rewrite H3, H4. unfold head. simpl.
      repeat split. by rewrite map_app, H5, outward_poll_events.
    + rewrite Ht, Hi.
      exists ([EvPrint (LogVideoId (id v)); EvPrint (LogInitialStatus (status v))] ++ evs),
        lines, tail'.
      unfold head. simpl. rewrite <- ?List.app_assoc. auto.
  - rewrite (run_create_err (Some image_file) fuel prompt size seconds w files e Hr Hc).
    rewrite (run_create_err None fuel prompt size seconds w files e eq_refl Hc).
    rewrite !handled_raise. simpl.
    rewrite ?outward_app, ?outward_error_lines. simpl.
    split; [reflexivity|]. split; [reflexivity|]. split.
    + exists []. repeat split.
    + exists [], [], (error_lines e). simpl. split; [reflexivity|]. split; [reflexivity|].
      left. split; [reflexivity | by apply count_error_lines].
Qed.

Lemma text_and_image_agree_after_create_witness :
  fst (image_to_video_sora2 5 dog_prompt "cat.png" "1280x720" 8
         (scripted 2 "completed" march_15) (initial with_image)) =
    fst (text_to_video_sora2 5 dog_prompt "1280x720" 8
           (scripted 2 "completed" march_15) (initial with_image)) /\
  fs (snd (image_to_video_sora2 5 dog_prompt "cat.png" "1280x720" 8
             (scripted 2 "completed" march_15) (initial with_image))) =
    fs (snd (text_to_video_sora2 5 dog_prompt "1280x720" 8
               (scripted 2 "completed" march_15) (initial with_image))) /\
  (exists rest,
    outward (trace (snd (image_to_video_sora2 5 dog_prompt "cat.png" "1280x720" 8
                           (scripted 2 "completed" march_15) (initial with_image)))) =
      EvCreate "sora-2" dog_prompt (Some "cat.png") "1280x720" 8
        (create_resp (scripted 2 "completed" march_15)) :: rest /\
    outward (trace (snd (text_to_video_sora2 5 dog_prompt "1280x720" 8
                           (scripted 2 "completed" march_15) (initial with_image)))) =
      EvCreate "sora-2" dog_prompt None "1280x720" 8
        (create_resp (scripted 2 "completed" march_15)) :: rest /\
    map forget_reference rest = rest) /\
  (exists mid lines tail,
    trace (snd (image_to_video_sora2 5 dog_prompt "cat.png" "1280x720" 8
                  (scripted 2 "completed" march_15) (initial with_image))) =
      [EvPrint LogBanner; EvPrint (LogInputImage "cat.png"); EvPrint (LogPrompt dog_prompt);
       EvOpen "cat.png" "rb";
       EvCreate "sora-2" dog_prompt (Some "cat.png") "1280x720" 8
         (create_resp (scripted 2 "completed" march_15));
       EvClose "cat.png"] ++ mid ++ tail /\
    trace (snd (text_to_video_sora2 5 dog_prompt "1280x720" 8
                  (scripted 2 "completed" march_15) (initial with_image))) =
      [EvPrint LogBanner; EvPrint (LogPrompt dog_prompt);
       EvCreate "sora-2" dog_prompt None "1280x720" 8
         (create_resp (scripted 2 "completed" march_15))] ++
      mid ++ lines ++ tail /\
    ((lines = [] /\ count is_download tail = 0%nat) \/
     (lines = [EvPrint LogCompleted; EvPrint LogDownloading] /\
      exists video_id r rest, tail = EvDownload video_id "video" r :: rest))).
Proof.
  apply (text_and_image_agree_after_create 5 dog_prompt "cat.png" "1280x720" 8
           (scripted 2 "completed" march_15) with_image [x89; x50]).
  reflexivity.
Defined.

(** C10, as stated, fails: passing the image is not the only
    difference.  On the same answers, with a job that completes, the
    text-to-video function prints nine lines and the image-to-video
    function eight, and the events of the two runs after the creation
    call are not the same. *)
Lemma printed_lines_differ :
  count (fun ev => match ev with EvPrint _ => true | _ => false end)
    (trace (snd (text_to_video_sora2 5 dog_prompt "1280x720" 8
                   (scripted 0 "completed" march_15) (initial with_image)))) = 9%nat /\
  count (fun ev => match ev with EvPrint _ => true | _ => false end)
    (trace (snd (image_to_video_sora2 5 dog_prompt "cat.png" "1280x720" 8
                   (scripted 0 "completed" march_15) (initial with_image)))) = 8%nat /\
  drop 3 (trace (snd (text_to_video_sora2 5 dog_prompt "1280x720" 8
                        (scripted 0 "completed" march_15) (initial with_image)))) <>
  drop 6 (trace (snd (image_to_video_sora2 5 dog_prompt "cat.png" "1280x720" 8
                        (scripted 0 "completed" march_15) (initial with_image)))).
Proof. split; [reflexivity|]. split; [reflexivity|]. vm_compute. discriminate. Qed.

(** ** What a caller can get back *)

Lemma sora2_videofile_is_result now : is_result (PyStr (sora2_videofile now)).
Proof.
  right. exists ("sora2_video_" +:+ strftime "%d%b%Y_%H%M%S" now). reflexivity.
Qed.

(** Once the job settles, enough fuel ends the loop. *)
Lemma run_leaves_loop reference prompt size seconds w files :
  settles w ->
  exists fuel0, forall fuel, (fuel0 <= fuel)%nat ->
    fst (run reference fuel prompt size seconds w (initial files)) <> Running.
Proof.
  intros [Hc | [N HN]].
  - exists 0%nat. intros fuel _.
    destruct (run_execution reference fuel prompt size seconds w files)
      as [image_file Href Hr | e Hr Hc' | v evs Hr Hc' Hp | v n evs e Hr Hc' Hp Hle
         | v n evs v' Hr Hc' Hp Hle Hv' | v n evs v' Hr Hc' Hp Hle Hv'
         | v n evs v' e Hr Hc' Hp Hle Hv' Hd
         | v n evs v' content e partial Hr Hc' Hp Hle Hv' Hd Hw
         | v n evs v' content Hr Hc' Hp Hle Hv' Hd Hw];
      try discriminate;
      try (unfold caught; destruct (derives_Exception e); discriminate).
    destruct (polled_running w _ _ _ _ _ Hp) as [Hv _].
    rewrite Hc' in Hc. simpl in Hc. congruence.
  - exists (S N). intros fuel Hfuel.
    destruct (run_execution reference fuel prompt size seconds w files)
      as [image_file Href Hr | e Hr Hc' | v evs Hr Hc' Hp | v n evs e Hr Hc' Hp Hle
         | v n evs v' Hr Hc' Hp Hle Hv' | v n evs v' Hr Hc' Hp Hle Hv'
         | v n evs v' e Hr Hc' Hp Hle Hv' Hd
         | v n evs v' content e partial Hr Hc' Hp Hle Hv' Hd Hw
         | v n evs v' content Hr Hc' Hp Hle Hv' Hd Hw];
      try discriminate;
      try (unfold caught; destruct (derives_Exception e); discriminate).
    destruct (polled_running w _ _ _ _ _ Hp) as [_ Hk].
    specialize (Hk N ltac:(lia)). simpl in Hk. congruence.
Qed.

(** ** The runs on a standard output that can refuse a line *)

Lemma triple_bind {A B} w (P : state -> Prop) (m : M A) (k : A -> M B)
    (R : A -> state -> Prop) (Q : outcome B -> state -> Prop) :
  triple w P m (fun o st =>
    match o with
    | Val a => R a st
    | Raise e => Q (Raise e) st
    | Running => Q Running st
    end) ->
  (forall a, triple w (R a) (k a) Q) ->
  triple w P (bind m k) Q.
Proof.
  intros Hm Hk st HP. specialize (Hm st HP). unfold bind.
  destruct (m w st) as [[a|e|] st']; simpl in *; auto.
  apply (Hk a st' Hm).
Qed.

Lemma triple_try {A} w (P : state -> Prop) (body : M A) (handler : exn -> M A)
    (R : exn -> state -> Prop) (Q : outcome A -> state -> Prop) :
  triple w P body (fun o st =>
    match o with
    | Raise e => if derives_Exception e then R e st else Q (Raise e) st
    | _ => Q o st
    end) ->
  (forall e, triple w (R e) (handler e) Q) ->
  triple w P (try_except_Exception body handler) Q.
Proof.
  intros Hb Hh st HP. specialize (Hb st HP). unfold try_except_Exception.
  destruct (body w st) as [[a|e|] st']; simpl in *; auto.
  destruct (derives_Exception e); [apply (Hh e st' Hb) | exact Hb].
Qed.

Section Outcomes.
Variables (out : stdout) (w : env) (fuel : nat).

Lemma post_bind {A B} (P : state -> Prop) (m : M A) (k : A -> M B)
    (R : A -> state -> Prop) (Qv : B -> state -> Prop) :
  triple w P m (post out w fuel R) ->
  (forall a, triple w (R a) (k a) (post out w fuel Qv)) ->
  triple w P (bind m k) (post out w fuel Qv).
Proof.
  intros Hm Hk. apply triple_bind with R; [|exact Hk].
  intros st HP. specialize (Hm st HP).
  destruct (fst (m w st)); exact Hm.
Qed.

Lemma post_ret {A} (P : state -> Prop) (a : A) (Qv : A -> state -> Prop) :
  (forall st, P st -> Qv a st) ->
  triple w P (ret a) (post out w fuel Qv).
Proof. intros H st HP. simpl. auto. Qed.

(** A line is printed, or the stream raises. *)
Lemma post_print (P : state -> Prop) l :
  (forall st ev, P st -> P (record ev st)) ->
  triple w P (Console.print out l) (post out w fuel (fun _ st => P st)).
Proof.
  intros Hinv st HP. unfold Console.print.
  destruct (out (trace st) l) as [e|] eqn:He; simpl.
  - right. left. by exists (trace st), l.
  - by apply Hinv.
Qed.

Lemma post_create (P : state -> Prop) model prompt reference size seconds :
  (forall st ev, P st -> P (record ev st)) ->
  triple w P (client_videos_create model prompt reference size seconds)
    (post out w fuel (fun v st => create_resp w = Ok v /\ P st)).
Proof.
  intros Hinv st HP. unfold client_videos_create.
  destruct (create_resp w) as [v|e] eqn:Hc; simpl.
  - split; [reflexivity | by apply Hinv].
  - right. right. by left.
Qed.

Lemma post_open_create image_file prompt size seconds :
  triple w (fun st => polls st = 0%nat)
    (with_open image_file "rb" (fun f =>
       client_videos_create "sora-2" prompt (Some f) size seconds))
    (post out w fuel (fun v st => create_resp w = Ok v /\ polls st = 0%nat)).
Proof.
  intros st HP. unfold with_open, py_open.
  destruct (fs st !! image_file) as [[|data]|]; simpl.
  - by left.
  - unfold client_videos_create.
    destruct (create_resp w) as [v|e] eqn:Hc; simpl.
    + by split.
    + right. right. by left.
  - by left.
Qed.

Lemma post_download video_id variant :
  triple w (fun _ => True) (client_videos_download_content video_id variant)
    (post out w fuel (fun _ _ => True)).
Proof.
  intros st _. unfold client_videos_download_content.
  destruct (download_resp w) as [c|e] eqn:Hd; simpl; [exact I|].
  right. right. right. right. by left.
Qed.

Lemma post_now :
  triple w (fun _ => True) datetime_now (post out w fuel (fun _ _ => True)).
Proof. intros st _. exact I. Qed.

Lemma post_write content path :
  triple w (fun _ => True) (write_to_file content path)
    (post out w fuel (fun _ _ => True)).
Proof.
  intros st _. unfold write_to_file.
  destruct (write_resp w) as [|e [k|]] eqn:Hw; simpl; [exact I| |];
    right; right; right; right; right; eauto.
Qed.

(** The loop: it ends with a terminal status, with an exception of the
    stream or of a status request, or it runs out of fuel with the job
    pending. *)
Lemma console_poll f : forall v st,
  match fst (Console.poll out f v w st) with
  | Val v' => terminal (status v') = true
  | Raise e => refused_by out e \/ exists k, retrieve_resp w k = Err e
  | Running =>
      terminal (status v) = false /\
      forall k, (k < f)%nat -> resolves (retrieve_resp w (polls st + k)) = false
  end.
Proof.
  induction f as [|f IH]; intros v st; simpl.
  - destruct (terminal (status v)) eqn:Ht; simpl; [exact Ht|].
    split; [reflexivity|]. intros k Hk. lia.
  - destruct (terminal (status v)) eqn:Ht; simpl; [exact Ht|].
    unfold bind at 1. simpl. unfold bind at 1. unfold Console.print at 1. simpl.
    match goal with |- context [out ?tr ?l] => destruct (out tr l) as [e|] eqn:He end.
    { simpl. left. unfold refused_by. eauto. }
    simpl. unfold bind at 1. simpl. unfold bind at 1.
    unfold client_videos_retrieve at 1. simpl.
    destruct (retrieve_resp w (polls st)) as [v'|e] eqn:Hr; simpl.
    + match goal with |- context [Console.poll out f v' w ?s] =>
        specialize (IH v' s); set (st' := s) in * end.
      assert (Hp : polls st' = S (polls st)) by reflexivity.
      destruct (fst (Console.poll out f v' w st')); auto.
      destruct IH as [Hv' Hk]. split; [reflexivity|].
      intros [|k] Hlt.
      * rewrite Nat.add_0_r, Hr. exact Hv'.
      * specialize (Hk k ltac:(lia)). rewrite Hp in Hk.
        by replace (polls st + S k)%nat with (S (polls st) + k)%nat by lia.
    + right. eauto.
Qed.

Lemma post_poll v :
  triple w (fun st => create_resp w = Ok v /\ polls st = 0%nat)
    (Console.poll out fuel v)
    (post out w fuel (fun v' _ => terminal (status v') = true)).
Proof.
  intros st [Hc Hp]. pose proof (console_poll fuel v st) as H.
  destruct (fst (Console.poll out fuel v w st)) as [v'|e|]; simpl.
  - exact H.
  - destruct H as [H|H]; [by right; left | right; right; right; by left].
  - destruct H as [Hv Hk]. exists v. repeat split; auto.
    intros k Hlt. specialize (Hk k Hlt). by rewrite Hp in Hk.
Qed.

Lemma triple_pure {A} (phi : Prop) (m : M A) (Q : outcome A -> state -> Prop) :
  (phi -> triple w (fun _ => True) m Q) ->
  triple w (fun _ => phi) m Q.
Proof. intros H st Hphi. by apply H. Qed.

Lemma triple_any {A} (P : state -> Prop) (m : M A) (Q : outcome A -> state -> Prop) :
  triple w (fun _ => True) m Q -> triple w P m Q.
Proof. intros H st _. by apply H. Qed.

(** A print where no handler is in force. *)
Lemma top_print (P : state -> Prop) l :
  unguarded l = true ->
  (forall st ev, P st -> P (record ev st)) ->
  triple w P (Console.print out l) (fun o st =>
    match o with
    | Val _ => P st
    | Raise e => run_outcome out w fuel (Raise e)
    | Running => run_outcome out w fuel Running
    end).
Proof.
  intros Hl Hinv st HP. unfold Console.print.
  destruct (out (trace st) l) as [e|] eqn:He; simpl.
  - left. by exists (trace st), l.
  - by apply Hinv.
Qed.

Lemma on_error_outcome e :
  triple w (fun _ => True)
    (Console.print out (LogError (exn_str e));; ret (PyBool false))
    (fun o _ => run_outcome out w fuel o).
Proof.
  apply triple_bind with (R := fun _ _ => True).
  - by apply (top_print (fun _ => True)).
  - intros _ st _. by left.
Qed.

(** What the [try] statement makes of its body. *)
Lemma body_outcome (P : state -> Prop) (body : M pyval) e_handler :
  (forall e, e_handler e = (Console.print out (LogError (exn_str e));; ret (PyBool false))) ->
  triple w P body (post out w fuel (fun a _ => is_result a)) ->
  triple w P (try_except_Exception body e_handler)
    (fun o _ => run_outcome out w fuel o).
Proof.
  intros Hh Hb. apply triple_try with (R := fun _ _ => True).
  - intros st HP. specialize (Hb st HP).
    destruct (fst (body w st)) as [a|e|]; simpl in *; auto.
    destruct (derives_Exception e) eqn:He; [exact I|].
    right. split; [reflexivity|].
    destruct Hb as [Hb|Hb]; [congruence | exact Hb].
  - intros e. rewrite Hh. apply on_error_outcome.
Qed.

Ltac prim :=
  first [ apply (post_print (fun _ => True)); intros; exact I
        | apply post_download
        | apply post_now
        | apply post_write ].

Ltac steps :=
  repeat (apply post_bind with (R := fun _ _ => True); [prim | intros ?]).

(** Everything from the end of the loop on. *)
Lemma store_outcome (verbose : bool) (v : video) :
  String.eqb (status v) "completed" = true ->
  triple w (fun _ => True)
    (if verbose then
       Console.print out LogCompleted;;
       Console.print out LogDownloading;;
       content <- client_videos_download_content (id v) "video";;
       now <- datetime_now;;
       write_to_file content (sora2_videofile now);;
       Console.print out LogDone;;
       Console.print out (LogSaved (sora2_videofile now));;
       ret (PyStr (sora2_videofile now))
     else
       content <- client_videos_download_content (id v) "video";;
       now <- datetime_now;;
       write_to_file content (sora2_videofile now);;
       Console.print out LogDone;;
       Console.print out (LogSaved (sora2_videofile now));;
       ret (PyStr (sora2_videofile now)))
    (post out w fuel (fun a _ => is_result a)).
Proof.
  intros _. destruct verbose; steps;
    apply post_ret; intros; apply sora2_videofile_is_result.
Qed.

Lemma unsuccessful_outcome (v : video) :
  terminal (status v) = true ->
  String.eqb (status v) "completed" = false ->
  triple w (fun _ => True)
    (if String.eqb (status v) "failed" then
       Console.print out LogFailed;; ret (PyBool false)
     else if String.eqb (status v) "cancelled" then
       Console.print out LogCancelled;; ret (PyBool false)
     else ret PyNone)
    (post out w fuel (fun a _ => is_result a)).
Proof.
  intros Ht Hc. unfold terminal in Ht. simpl in Ht. rewrite Hc in Ht.
  destruct (String.eqb (status v) "failed").
  - steps. apply post_ret. intros. by left.
  - destruct (String.eqb (status v) "cancelled"); [|discriminate].
    steps. apply post_ret. intros. by left.
Qed.

Lemma console_text_outcome prompt size seconds files :
  run_outcome out w fuel
    (fst (Console.text_to_video_sora2 out fuel prompt size seconds w (initial files))).
Proof.
  assert (Hinv : forall st ev, polls st = 0%nat -> polls (record ev st) = 0%nat)
    by (intros st ev H; exact H).
  assert (H : triple w (fun st => polls st = 0%nat)
                (Console.text_to_video_sora2 out fuel prompt size seconds)
                (fun o _ => run_outcome out w fuel o)).
  { unfold Console.text_to_video_sora2.
    apply triple_bind with (R := fun _ st => polls st = 0%nat);
      [by apply top_print | intros _].
    apply triple_bind with (R := fun _ st => polls st = 0%nat);
      [by apply top_print | intros _].
    apply body_outcome; [reflexivity|].
    apply post_bind with (R := fun v st => create_resp w = Ok v /\ polls st = 0%nat);
      [by apply post_create | intros v].
    apply post_bind with (R := fun _ st => create_resp w = Ok v /\ polls st = 0%nat);
      [apply (post_print (fun st => create_resp w = Ok v /\ polls st = 0%nat));
       intros st ev [? ?]; by split | intros _].
    apply post_bind with (R := fun _ st => create_resp w = Ok v /\ polls st = 0%nat);
      [apply (post_print (fun st => create_resp w = Ok v /\ polls st = 0%nat));
       intros st ev [? ?]; by split | intros _].
    apply post_bind with (R := fun v' _ => terminal (status v') = true);
      [apply post_poll | intros v'].
    apply triple_pure. intros Ht.
    destruct (String.eqb (status v') "completed") eqn:Hc.
    - by apply (store_outcome true).
    - by apply unsuccessful_outcome. }
  apply (H (initial files)). reflexivity.
Qed.

Lemma console_image_outcome prompt image_file size seconds files :
  run_outcome out w fuel
    (fst (Console.image_to_video_sora2 out fuel prompt image_file size seconds w
            (initial files))).
Proof.
  assert (Hinv : forall st ev, polls st = 0%nat -> polls (record ev st) = 0%nat)
    by (intros st ev H; exact H).
  assert (H : triple w (fun st => polls st = 0%nat)
                (Console.image_to_video_sora2 out fuel prompt image_file size seconds)
                (fun o _ => run_outcome out w fuel o)).
  { unfold Console.image_to_video_sora2.
    do 3 (apply triple_bind with (R := fun _ st => polls st = 0%nat);
          [by apply top_print | intros _]).
    apply body_outcome; [reflexivity|].
    apply post_bind with (R := fun v st => create_resp w = Ok v /\ polls st = 0%nat);
      [by apply post_open_create | intros v].
    do 2 (apply post_bind with (R := fun _ st => create_resp w = Ok v /\ polls st = 0%nat);
      [apply (post_print (fun st => create_resp w = Ok v /\ polls st = 0%nat));
       intros st ev [? ?]; by split | intros _]).
    apply post_bind with (R := fun v' _ => terminal (status v') = true);
      [apply post_poll | intros v'].
    apply triple_pure. intros Ht.
    destruct (String.eqb (status v') "completed") eqn:Hc.
    - by apply (store_outcome false).
    - by apply unsuccessful_outcome. }
  apply (H (initial files)). reflexivity.
Qed.

End Outcomes.

Lemma console_run_outcome out reference fuel prompt size seconds w files :
  run_outcome out w fuel
    (fst (Console.run out reference fuel prompt size seconds w (initial files))).
Proof.
  destruct reference as [image_file|]; simpl.
  - apply console_image_outcome.
  - apply console_text_outcome.
Qed.

(** On a stream that takes every line the two embeddings are the same
    function. *)
Lemma bind_agree {A B} (m m' : M A) (k k' : A -> M B) w st :
  m w st = m' w st ->
  (forall a st', k a w st' = k' a w st') ->
  bind m k w st = bind m' k' w st.
Proof.
  intros Hm Hk. unfold bind. rewrite Hm.
  destruct (m' w st) as [[a|e|] st']; auto.
Qed.

Lemma try_agree {A} (body body' : M A) (h h' : exn -> M A) w st :
  body w st = body' w st ->
  (forall e st', h e w st' = h' e w st') ->
  try_except_Exception body h w st = try_except_Exception body' h' w st.
Proof.
  intros Hb Hh. unfold try_except_Exception. rewrite Hb.
  destruct (body' w st) as [[a|e|] st']; auto.
  destruct (derives_Exception e); auto.
Qed.

Section EveryLine.
Variable out : stdout.
Hypothesis Hout : takes_every_line out.

Lemma console_print_agree l w st : Console.print out l w st = print l w st.
Proof. unfold Console.print. by rewrite Hout. Qed.

Lemma console_poll_agree fuel : forall v w st,
  Console.poll out fuel v w st = poll fuel v w st.
Proof.
  induction fuel as [|fuel IH]; intros v w st; simpl; [reflexivity|].
  destruct (terminal (status v)); [reflexivity|].
  repeat (apply bind_agree; [try reflexivity; apply console_print_agree | intros]).
  apply IH.
Qed.

Ltac agree :=
  repeat first
    [ apply bind_agree; [| intros]
    | apply try_agree; [| intros]
    | apply console_print_agree
    | apply console_poll_agree
    | reflexivity
    | match goal with |- context [if ?b then _ else _] => destruct b end ].

Lemma console_run_agree reference fuel prompt size seconds w st :
  Console.run out reference fuel prompt size seconds w st =
  run reference fuel prompt size seconds w st.
Proof.
  destruct reference as [image_file|]; simpl.
  - unfold Console.image_to_video_sora2, image_to_video_sora2. agree.
  - unfold Console.text_to_video_sora2, text_to_video_sora2. agree.
Qed.

End EveryLine.

Lemma scripted_raises_only_Exception N final now :
  raises_only_Exception (scripted N final now).
Proof.
  repeat split; simpl; try discriminate.
  intros k e. destruct (k <? N)%nat; discriminate.
Qed.

Lemma scripted_settles N final now :
  terminal final = true -> settles (scripted N final now).
Proof.
  intros H. right. exists N. simpl. by rewrite Nat.ltb_irrefl.
Qed.

Lemma unprintable_id_raises_only_Exception :
  stdout_raises_only_Exception unprintable_id.
Proof. intros tr l e. destruct l; simpl; intros H; try discriminate. by injection H as <-. Qed.

Lemma unprintable_id_takes_unguarded_lines : takes_unguarded_lines unprintable_id.
Proof. intros tr l. by destruct l. Qed.

(** C1, as the code has it.  Whatever the outside world and the stream
    do, what a function returns is [False] or a path
    [VIDEO_DIR/<stem>.mp4].  When every exception raised by the outside
    world (the remote calls and the write of the file) and by the stream
    is an instance of [Exception], and the stream takes the lines
    printed where no handler is in force (the opening lines and the line
    of the handler), no exception reaches the caller; when moreover the
    job settles (some answer is a terminal status or an exception), the
    function does return, given enough loop iterations. *)
Theorem run_returns_False_or_path out reference prompt size seconds w files :
  (forall fuel a,
     fst (Console.run out reference fuel prompt size seconds w (initial files)) = Val a ->
     is_result a) /\
  (raises_only_Exception w ->
   stdout_raises_only_Exception out ->
   takes_unguarded_lines out ->
   (forall fuel e,
      fst (Console.run out reference fuel prompt size seconds w (initial files))
        <> Raise e) /\
   (settles w ->
    exists fuel0, forall fuel, (fuel0 <= fuel)%nat ->
      exists a,
        fst (Console.run out reference fuel prompt size seconds w (initial files))
          = Val a /\
        is_result a)).
Proof.
  assert (Hval : forall fuel a,
    fst (Console.run out reference fuel prompt size seconds w (initial files)) = Val a ->
    is_result a).
  { intros fuel a H.
    pose proof (console_run_outcome out reference fuel prompt size seconds w files) as Ho.
    by rewrite H in Ho. }
  split; [exact Hval|].
  intros (Hcreate & Hretrieve & Hdownload & Hwrite) Hstream Hlines.
  assert (Hraise : forall fuel e,
    fst (Console.run out reference fuel prompt size seconds w (initial files))
      <> Raise e).
  { intros fuel e H.
    pose proof (console_run_outcome out reference fuel prompt size seconds w files) as Ho.
    rewrite H in Ho. simpl in Ho.
    destruct Ho as [(tr & l & Hl & He) | [Hd [(tr & l & He) | Hw]]].
    - rewrite (Hlines tr l Hl) in He. discriminate.
    - apply Hstream in He. congruence.
    - destruct Hw as [Hw | [[k Hw] | [Hw | [partial Hw]]]];
        [apply Hcreate in Hw | apply Hretrieve in Hw
        | apply Hdownload in Hw | apply Hwrite in Hw]; congruence. }
  split; [exact Hraise|].
  intros Hsettles.
  assert (Hends : exists fuel0, forall fuel, (fuel0 <= fuel)%nat ->
    fst (Console.run out reference fuel prompt size seconds w (initial files))
      <> Running).
  { destruct Hsettles as [Hc | [N HN]].
    - exists 0%nat. intros fuel _ H.
      pose proof (console_run_outcome out reference fuel prompt size seconds w files) as Ho.
      rewrite H in Ho. destruct Ho as (v & Hv & Ht & _).
      rewrite Hv in Hc. simpl in Hc. congruence.
    - exists (S N). intros fuel Hfuel H.
      pose proof (console_run_outcome out reference fuel prompt size seconds w files) as Ho.
      rewrite H in Ho. destruct Ho as (v & _ & _ & Hk).
      specialize (Hk N ltac:(lia)). congruence. }
  destruct Hends as [fuel0 Hends]. exists fuel0. intros fuel Hfuel.
  specialize (Hends fuel Hfuel). specialize (Hraise fuel). specialize (Hval fuel).
  destruct (fst (Console.run out reference fuel prompt size seconds w (initial files)))
    as [a|e|]; [eauto | by destruct (Hraise e) | congruence].
Qed.

Lemma run_returns_False_or_path_witness :
  (forall fuel e,
     fst (Console.run unprintable_id (Some "cat.png") fuel dog_prompt "1280x720" 8
            (scripted 2 "completed" march_15) (initial with_image)) <> Raise e) /\
  (exists fuel0, forall fuel, (fuel0 <= fuel)%nat ->
     exists a,
       fst (Console.run unprintable_id (Some "cat.png") fuel dog_prompt "1280x720" 8
              (scripted 2 "completed" march_15) (initial with_image)) = Val a /\
       is_result a).
Proof.
  destruct (run_returns_False_or_path unprintable_id (Some "cat.png") dog_prompt
              "1280x720" 8 (scripted 2 "completed" march_15) with_image)
    as [_ Hsafe].
  destruct (Hsafe (scripted_raises_only_Exception 2 "completed" march_15)
              unprintable_id_raises_only_Exception
              unprintable_id_takes_unguarded_lines)
    as [Hraise Hreturns].
  split; [exact Hraise|]. apply Hreturns. apply scripted_settles. reflexivity.
Defined.

(** The conditions on the stream are needed.  A stream that cannot
    encode the banner raises at the first line, before [try], and the
    exception, an instance of [Exception], reaches the caller before any
    call is made; a pipe closed after the creation call raises again in
    the handler.  A line refused inside [try] is caught like any other
    error: the function returns [False] and leaves the job it created. *)
Example banner_refused_reaches_caller reference fuel prompt size seconds w files :
  derives_Exception UnicodeEncodeError = true /\
  Console.run ascii_stdout reference fuel prompt size seconds w (initial files) =
    (Raise UnicodeEncodeError, initial files).
Proof. split; [reflexivity|]. by destruct reference. Qed.

Example error_line_refused_reaches_caller :
  derives_Exception BrokenPipeError = true /\
  Console.run pipe_closed_after_create None 5 dog_prompt "1280x720" 8
    (scripted 1 "completed" march_15) (initial ∅) =
    (Raise BrokenPipeError,
     State ∅ [] 0 0
       [EvPrint LogBanner; EvPrint (LogPrompt dog_prompt);
        EvCreate "sora-2" dog_prompt None "1280x720" 8 (Ok (Video "video_1" "queued"))]).
Proof. split; reflexivity. Qed.

Example refused_line_inside_try_is_caught :
  Console.run unprintable_id None 5 dog_prompt "1280x720" 8
    (scripted 1 "completed" march_15) (initial ∅) =
    (Val (PyBool false),
     State ∅ [] 0 0
       [EvPrint LogBanner; EvPrint (LogPrompt dog_prompt);
        EvCreate "sora-2" dog_prompt None "1280x720" 8 (Ok (Video "video_1" "queued"));
        EvPrint (LogError "UnicodeEncodeError")]).
Proof. reflexivity. Qed.


(** A job that never leaves the queue keeps the loop running. *)
Lemma polled_never w v p t n evs o :
  (forall k, resolves (retrieve_resp w k) = false) ->
  polled w v p t n evs o ->
  terminal (status v) = false ->
  o = Running.
Proof.
  intros Hnever. induction 1; intros Hv; try congruence.
  - specialize (Hnever p). rewrite H0 in Hnever. discriminate.
  - apply IHpolled. specialize (Hnever p). by rewrite H0 in Hnever.
Qed.

Lemma queued_forever_running fuel :
  fst (text_to_video_sora2 fuel dog_prompt "1280x720" 8 queued_forever (initial ∅))
  = Running.
Proof.
  change (text_to_video_sora2 fuel dog_prompt "1280x720" 8)
    with (run None fuel dog_prompt "1280x720" 8).
  destruct (run_create_ok fuel queued_forever (Video "video_1" "queued") eq_refl)
    as (n & evs & o & Hp & Hle & Hfuel & Hrun).
  rewrite (Hrun None dog_prompt "1280x720" 8 ∅ eq_refl).
  assert (o = Running) as ->.
  { eapply polled_never; [|exact Hp|reflexivity]. reflexivity. }
  reflexivity.
Qed.

(** C1, as stated, fails three times: a job that never leaves the queue
    makes the function return nothing at all, however long it runs; an
    exception that is not an instance of [Exception] reaches the caller;
    and so does the [UnicodeEncodeError], an instance of [Exception],
    that [print] raises at the banner, before [try], on a stream that
    cannot encode it. *)
Lemma run_may_not_return :
  (~ exists fuel v,
       fst (text_to_video_sora2 fuel dog_prompt "1280x720" 8 queued_forever
              (initial ∅)) = Val v) /\
  fst (image_to_video_sora2 3 dog_prompt "cat.png" "1280x720" 8 create_interrupted
         (initial with_image)) = Raise KeyboardInterrupt /\
  (derives_Exception UnicodeEncodeError = true /\
   fst (Console.text_to_video_sora2 ascii_stdout 3 dog_prompt "1280x720" 8
          completed_at_once (initial ∅)) = Raise UnicodeEncodeError).
Proof.
  split; [|split; [reflexivity | split; reflexivity]].
  intros (fuel & v & H). rewrite queued_forever_running in H. discriminate.
Qed.

(** * Further properties of the two functions *)

Ltac run_cases reference fuel prompt size seconds w files :=
  destruct (run_execution reference fuel prompt size seconds w files)
    as [image_file Href Hr | e Hr Hc | v evs Hr Hc Hp | v n evs e Hr Hc Hp Hle
       | v n evs v' Hr Hc Hp Hle Hv' | v n evs v' Hr Hc Hp Hle Hv'
       | v n evs v' e Hr Hc Hp Hle Hv' Hd
       | v n evs v' content e partial Hr Hc Hp Hle Hv' Hd Hw
       | v n evs v' content Hr Hc Hp Hle Hv' Hd Hw].

Lemma caught_not_path e path : caught e <> Val (PyStr path).
Proof. unfold caught. destruct (derives_Exception e); discriminate. Qed.

Lemma caught_not_running e : caught e <> Running.
Proof. unfold caught. destruct (derives_Exception e); discriminate. Qed.

(** ** The image file cannot be opened *)

(** X1.  When the image file is missing or is a directory, the
    image-to-video function prints the error of [open] and returns
    [False]; it makes no remote call, reads no clock, and leaves the
    file system as it was. *)
Theorem unreadable_image_makes_no_call
    fuel prompt image_file size seconds w files :
  readable files (Some image_file) = false ->
  image_to_video_sora2 fuel prompt image_file size seconds w (initial files) =
  (Val (PyBool false),
   State files [] 0 0
     [EvPrint LogBanner; EvPrint (LogInputImage image_file);
      EvPrint (LogPrompt prompt);
      EvPrint (LogError (exn_str (open_error files image_file)))]).
Proof.
  intros Hr.
  change (image_to_video_sora2 fuel prompt image_file size seconds)
    with (run (Some image_file) fuel prompt size seconds).
  rewrite (run_unreadable (Some image_file) fuel prompt size seconds w files
             image_file eq_refl Hr).
  reflexivity.
Qed.

Lemma unreadable_image_makes_no_call_witness :
  image_to_video_sora2 5 dog_prompt "videos" "1280x720" 8
    (scripted 2 "completed" march_15) (initial {[ "videos" := Dir ]}) =
  (Val (PyBool false),
   State {[ "videos" := Dir ]} [] 0 0
     [EvPrint LogBanner; EvPrint (LogInputImage "videos");
      EvPrint (LogPrompt dog_prompt);
      EvPrint (LogError
                 (exn_str (open_error {[ "videos" := Dir ]} "videos")))]).
Proof.
  apply (unreadable_image_makes_no_call 5 dog_prompt "videos" "1280x720" 8
           (scripted 2 "completed" march_15) {[ "videos" := Dir ]}).
  reflexivity.
Defined.

(** ** The download or the write raises *)

(** X2.  In every run in which the job is seen [completed] and the
    download call raises, exactly one download call is made, nothing is
    written and the file system is as it was; the result is [False] when
    the exception is an instance of [Exception], and the exception itself
    otherwise. *)
Theorem download_raises_nothing_written
    reference fuel prompt size seconds w files err :
  "completed" ∈
    observed (trace (snd (run reference fuel prompt size seconds w (initial files)))) ->
  download_resp w = Err err ->
  fst (run reference fuel prompt size seconds w (initial files)) =
    (if derives_Exception err then Val (PyBool false) else Raise err) /\
  count is_download
    (trace (snd (run reference fuel prompt size seconds w (initial files)))) = 1%nat /\
  count is_write
    (trace (snd (run reference fuel prompt size seconds w (initial files)))) = 0%nat /\
  fs (snd (run reference fuel prompt size seconds w (initial files))) = files.
Proof.
  intros Hin Hdl.
  run_cases reference fuel prompt size seconds w files;
    simpl in *; revert Hin; observe_all; intros Hin;
    try (by apply elem_of_nil in Hin);
    try congruence;
    destruct (polled_terminal_seen w _ _ _ _ _ _ "completed" Hp Hin eq_refl)
      as (v'' & Ho & Hv'');
    try discriminate; try (injection Ho as <-; congruence).
  assert (e = err) as -> by congruence.
  pose proof (polled_events w _ _ _ _ _ _ Hp) as Hev.
  repeat split; count_trace;
    rewrite ?poll_events_no_download, ?poll_events_no_write by assumption;
    reflexivity.
Qed.

Lemma download_raises_nothing_written_witness :
  fst (run None 5 dog_prompt "1280x720" 8 (download_raises APIConnectionError)
         (initial ∅)) =
    (if derives_Exception APIConnectionError then Val (PyBool false)
     else Raise APIConnectionError) /\
  count is_download
    (trace (snd (run None 5 dog_prompt "1280x720" 8
                   (download_raises APIConnectionError) (initial ∅)))) = 1%nat /\
  count is_write
    (trace (snd (run None 5 dog_prompt "1280x720" 8
                   (download_raises APIConnectionError) (initial ∅)))) = 0%nat /\
  fs (snd (run None 5 dog_prompt "1280x720" 8 (download_raises APIConnectionError)
             (initial ∅))) = ∅.
Proof.
  apply (download_raises_nothing_written None 5 dog_prompt "1280x720" 8
           (download_raises APIConnectionError) ∅ APIConnectionError).
  - vm_compute. apply list_elem_of_here.
  - reflexivity.
Defined.

(** X3.  In every run in which the job is seen [completed], the download
    succeeds and the write raises, the path is not returned: the result
    is [False] for an instance of [Exception] and the exception itself
    otherwise.  What the failed write left behind stays: nothing, or the
    first bytes of the content under the output path. *)
Theorem write_raises_path_not_returned
    reference fuel prompt size seconds w files data err part :
  "completed" ∈
    observed (trace (snd (run reference fuel prompt size seconds w (initial files)))) ->
  download_resp w = Ok data ->
  write_resp w = WriteFails err part ->
  fst (run reference fuel prompt size seconds w (initial files)) =
    (if derives_Exception err then Val (PyBool false) else Raise err) /\
  exists now,
    write_time (trace (snd (run reference fuel prompt size seconds w (initial files))))
      = Some now /\
    fs (snd (run reference fuel prompt size seconds w (initial files))) =
      match part with
      | None => files
      | Some k => <[sora2_videofile now := File (take k data)]> files
      end.
Proof.
  intros Hin Hdl Hwr.
  run_cases reference fuel prompt size seconds w files;
    simpl in *; revert Hin; observe_all; intros Hin;
    try (by apply elem_of_nil in Hin);
    try congruence;
    destruct (polled_terminal_seen w _ _ _ _ _ _ "completed" Hp Hin eq_refl)
      as (v'' & Ho & Hv'');
    try discriminate; try (injection Ho as <-; congruence).
  assert (e = err) as -> by congruence.
  assert (partial = part) as -> by congruence.
  assert (content = data) as -> by congruence.
  split; [reflexivity|].
  exists (clock w n). split; [|reflexivity].
  pose proof (poll_events_no_write _ (polled_events w _ _ _ _ _ _ Hp)) as Hnw.
  replace (head reference prompt size seconds v evs ++
           completion_lines (chatty reference) ++
           EvDownload (id v') "video" (Ok data) :: EvNow (clock w n) ::
           EvWrite (sora2_videofile (clock w n)) data :: error_lines err)
    with ((head reference prompt size seconds v evs ++
           completion_lines (chatty reference) ++
           [EvDownload (id v') "video" (Ok data)]) ++
          EvNow (clock w n) :: EvWrite (sora2_videofile (clock w n)) data ::
          error_lines err)
    by (by rewrite <- !List.app_assoc).
  apply write_time_found. count_trace. by rewrite Hnw.
Qed.

Lemma write_raises_path_not_returned_witness :
  fst (run None 5 dog_prompt "1280x720" 8 (write_breaks OSError (Some 3%nat))
         (initial ∅)) =
    (if derives_Exception OSError then Val (PyBool false) else Raise OSError) /\
  exists now,
    write_time (trace (snd (run None 5 dog_prompt "1280x720" 8
                              (write_breaks OSError (Some 3%nat)) (initial ∅))))
      = Some now /\
    fs (snd (run None 5 dog_prompt "1280x720" 8 (write_breaks OSError (Some 3%nat))
               (initial ∅))) =
      <[sora2_videofile now := File (take 3 FAKEMP4)]> ∅.
Proof.
  apply (write_raises_path_not_returned None 5 dog_prompt "1280x720" 8
           (write_breaks OSError (Some 3%nat)) ∅ FAKEMP4 OSError (Some 3%nat)).
  - vm_compute. apply list_elem_of_here.
  - reflexivity.
  - reflexivity.
Defined.

(** ** What a returned path means *)

(** X4.  A path is returned only after everything went well: the last
    status seen is [completed], the download and the write succeeded,
    exactly one download and one write were made, and the file system is
    the initial one with the downloaded bytes under the returned path. *)
Theorem returned_path_is_stored
    reference fuel prompt size seconds w files path :
  fst (run reference fuel prompt size seconds w (initial files)) = Val (PyStr path) ->
  last_status
    (trace (snd (run reference fuel prompt size seconds w (initial files))))
    = Some "completed" /\
  count is_download
    (trace (snd (run reference fuel prompt size seconds w (initial files)))) = 1%nat /\
  count is_write
    (trace (snd (run reference fuel prompt size seconds w (initial files)))) = 1%nat /\
  write_resp w = WriteOk /\
  exists content,
    download_resp w = Ok content /\
    fs (snd (run reference fuel prompt size seconds w (initial files))) =
      <[path := File content]> files.
Proof.
  run_cases reference fuel prompt size seconds w files;
    intros H; try discriminate H;
    try (by apply caught_not_path in H).
  simpl in H. injection H as <-. simpl.
  pose proof (polled_events w _ _ _ _ _ _ Hp) as Hev.
  destruct (polled_val w _ _ _ _ _ _ Hp) as [_ Hlast].
  split.
  { unfold last_status. observe_all. simpl in Hlast. by rewrite Hlast, Hv'. }
  split; [count_trace; by rewrite poll_events_no_download|].
  split; [count_trace; by rewrite poll_events_no_write|].
  split; [assumption|]. exists content. auto.
Qed.

Lemma returned_path_is_stored_witness :
  last_status
    (trace (snd (run (Some "cat.png") 5 dog_prompt "1280x720" 8
                   (scripted 2 "completed" march_15) (initial with_image))))
    = Some "completed" /\
  count is_download
    (trace (snd (run (Some "cat.png") 5 dog_prompt "1280x720" 8
                   (scripted 2 "completed" march_15) (initial with_image)))) = 1%nat /\
  count is_write
    (trace (snd (run (Some "cat.png") 5 dog_prompt "1280x720" 8
                   (scripted 2 "completed" march_15) (initial with_image)))) = 1%nat /\
  write_resp (scripted 2 "completed" march_15) = WriteOk /\
  exists content,
    download_resp (scripted 2 "completed" march_15) = Ok content /\
    fs (snd (run (Some "cat.png") 5 dog_prompt "1280x720" 8
               (scripted 2 "completed" march_15) (initial with_image))) =
      <["videos/sora2_video_15Mar2025_143022.mp4" := File content]> with_image.
Proof.
  apply (returned_path_is_stored (Some "cat.png") 5 dog_prompt "1280x720" 8
           (scripted 2 "completed" march_15) with_image
           "videos/sora2_video_15Mar2025_143022.mp4").
  reflexivity.
Defined.

(** ** What a run leaves alone *)

(** X5.  A run changes no file but its own output file: every path that
    is not an output path [VIDEO_DIR/sora2_video_<stamp>.mp4] maps to
    what it mapped to before, and a run without a write leaves the whole
    file system as it was. *)
Theorem run_touches_only_output_file
    reference fuel prompt size seconds w files :
  (forall path,
     (forall now, path <> sora2_videofile now) ->
     fs (snd (run reference fuel prompt size seconds w (initial files))) !! path =
     files !! path) /\
  (count is_write
     (trace (snd (run reference fuel prompt size seconds w (initial files)))) = 0%nat ->
   fs (snd (run reference fuel prompt size seconds w (initial files))) = files).
Proof.
  run_cases reference fuel prompt size seconds w files; simpl;
    try (split; [reflexivity | reflexivity]).
  - split.
    + intros path Hpath. destruct partial as [k|]; simpl; [|reflexivity].
      rewrite lookup_insert_ne; [reflexivity | apply not_eq_sym, Hpath].
    + intros Hnw. exfalso. revert Hnw. count_trace. lia.
  - split.
    + intros path Hpath.
      rewrite lookup_insert_ne; [reflexivity | apply not_eq_sym, Hpath].
    + intros Hnw. exfalso. revert Hnw. count_trace. lia.
Qed.

Lemma run_touches_only_output_file_witness :
  fs (snd (run (Some "cat.png") 5 dog_prompt "1280x720" 8
             (scripted 2 "completed" march_15) (initial with_image))) !! "cat.png" =
  with_image !! "cat.png".
Proof.
  apply (proj1 (run_touches_only_output_file (Some "cat.png") 5 dog_prompt
                  "1280x720" 8 (scripted 2 "completed" march_15) with_image)).
  intros now. unfold sora2_videofile, os_path_join, VIDEO_DIR.
  cbv [String.append]. discriminate.
Defined.

(** ** When a run ends *)

Lemma polled_settled w v p t n evs o :
  polled w v p t n evs o -> o <> Running ->
  terminal (status v) = true \/ exists k, resolves (retrieve_resp w k) = true.
Proof.
  induction 1; intros Ho.
  - by left.
  - congruence.
  - right. exists p. by rewrite H0.
  - destruct (IHpolled Ho) as [Hv' | Hk]; [|by right].
    right. exists p. by rewrite H0.
Qed.

(** X6.  A run comes to an end exactly when the image file cannot be
    opened or the job settles: the creation call or some status request
    is answered by one of the three terminal statuses or by an
    exception.  Any other status, whatever its spelling, keeps the loop
    going. *)
Theorem run_ends_iff_settles reference prompt size seconds w files :
  (exists fuel,
     fst (run reference fuel prompt size seconds w (initial files)) <> Running) <->
  (readable files reference = false \/ settles w).
Proof.
  split.
  - intros [fuel Hend].
    run_cases reference fuel prompt size seconds w files;
      try (by left); try (by contradiction Hend).
    + right. left. by rewrite Hc.
    + right. destruct (polled_settled _ _ _ _ _ _ _ Hp) as [Hv | Hk];
        [discriminate | left; by rewrite Hc | by right].
    + right. destruct (polled_settled _ _ _ _ _ _ _ Hp) as [Hv | Hk];
        [discriminate | left; by rewrite Hc | by right].
    + right. destruct (polled_settled _ _ _ _ _ _ _ Hp) as [Hv | Hk];
        [discriminate | left; by rewrite Hc | by right].
    + right. destruct (polled_settled _ _ _ _ _ _ _ Hp) as [Hv | Hk];
        [discriminate | left; by rewrite Hc | by right].
    + right. destruct (polled_settled _ _ _ _ _ _ _ Hp) as [Hv | Hk];
        [discriminate | left; by rewrite Hc | by right].
    + right. destruct (polled_settled _ _ _ _ _ _ _ Hp) as [Hv | Hk];
        [discriminate | left; by rewrite Hc | by right].
  - intros [Hr | Hsettles].
    + exists 0%nat. destruct reference as [image_file|]; [|discriminate].
      rewrite (run_unreadable (Some image_file) 0 prompt size seconds w files
                 image_file eq_refl Hr).
      discriminate.
    + destruct (run_leaves_loop reference prompt size seconds w files Hsettles)
        as [fuel0 Hfuel0].
      exists fuel0. apply Hfuel0. lia.
Qed.

Lemma run_ends_iff_settles_witness :
  exists fuel,
    fst (run None fuel dog_prompt "1280x720" 8 (scripted 2 "cancelled" march_15)
           (initial ∅)) <> Running.
Proof.
  apply (proj2 (run_ends_iff_settles None dog_prompt "1280x720" 8
                  (scripted 2 "cancelled" march_15) ∅)).
  right. apply scripted_settles. reflexivity.
Defined.

(** A status the loop does not know, such as ["succeeded"], is pending
    like any other. *)
Example unknown_status_keeps_polling :
  fst (text_to_video_sora2 4 dog_prompt "1280x720" 8
         (scripted 0 "succeeded" march_15) (initial ∅)) = Running /\
  count is_retrieve
    (trace (snd (text_to_video_sora2 4 dog_prompt "1280x720" 8
                   (scripted 0 "succeeded" march_15) (initial ∅)))) = 4%nat.
Proof. split; reflexivity. Qed.

(** ** Where the events of the loop lie in a trace *)

Lemma split_in_front (q : event -> bool) (l1 : list event) :
  forall l2 pre ev post,
    l1 ++ l2 = pre ++ ev :: post ->
    count q l2 = 0%nat ->
    q ev = true ->
    exists post', l1 = pre ++ ev :: post' /\ post = post' ++ l2.
Proof.
  induction l1 as [|x l1 IH]; intros l2 pre ev post Heq Hl2 Hev.
  - simpl in Heq. subst l2. by apply count_split_positive in Hl2.
  - destruct pre as [|z pre].
    + simpl in Heq. injection Heq as -> <-. by exists l1.
    + simpl in Heq. injection Heq as -> Heq.
      destruct (IH l2 pre ev post Heq Hl2 Hev) as (post' & -> & ->).
      by exists post'.
Qed.

Lemma forallb_negb_count (q : event -> bool) (l : list event) :
  count q l = 0%nat -> forallb (fun x => negb (q x)) l = true.
Proof.
  induction l as [|x l IH]; [reflexivity|].
  rewrite count_cons. simpl. destruct (q x); simpl; [lia | auto].
Qed.

(** An event of a kind that occurs neither before nor after the loop
    lies among the events of the loop. *)
Lemma split_in_loop (q : event -> bool) (before evs after : list event) :
  forall pre ev post,
    before ++ evs ++ after = pre ++ ev :: post ->
    count q before = 0%nat ->
    count q after = 0%nat ->
    q ev = true ->
    exists pre' post',
      pre = before ++ pre' /\ evs = pre' ++ ev :: post' /\ post = post' ++ after.
Proof.
  intros pre ev post Heq Hb Ha Hev.
  destruct (split_in_rest q before _ _ _ _ Heq (forallb_negb_count _ _ Hb) Hev)
    as (pre' & -> & Hrest).
  destruct (split_in_front q evs _ _ _ _ Hrest Ha Hev) as (post' & -> & ->).
  by exists pre', post'.
Qed.

Lemma head_before_loop reference prompt size seconds v evs :
  head reference prompt size seconds v evs =
  before_loop reference prompt size seconds v ++ evs.
Proof. unfold head, before_loop. by rewrite <- !List.app_assoc. Qed.

Lemma count_before_loop p reference prompt size seconds v :
  (forall l, p (EvPrint l) = false) ->
  (forall ev, is_file_event ev = true -> p ev = false) ->
  count p (before_loop reference prompt size seconds v) = 0%nat.
Proof.
  intros Hp Hf.
  rewrite <- (app_nil_r (before_loop _ _ _ _ _)), <- head_before_loop.
  by rewrite count_head.
Qed.

Lemma jobs_app (a b : list event) : jobs (a ++ b) = jobs a ++ jobs b.
Proof. unfold jobs. apply omap_app. Qed.

Lemma jobs_before_loop reference prompt size seconds v :
  jobs (before_loop reference prompt size seconds v) = [v].
Proof. by destruct reference. Qed.

Lemma jobs_completion_lines verbose : jobs (completion_lines verbose) = [].
Proof. by destruct verbose. Qed.

(** One turn of the loop holds one status fetch, its last event. *)
Lemma iteration_split w v p t evs pre ev post :
  iteration w v p t ++ evs = pre ++ ev :: post ->
  is_retrieve ev = true ->
  (pre = [EvNow (clock w t);
          EvPrint (LogStatus (strftime "%d-%b-%Y %H:%M:%S" (clock w t)) (status v));
          EvSleep 10] /\
   ev = EvRetrieve (id v) (retrieve_resp w p) /\ post = evs) \/
  (exists pre', pre = iteration w v p t ++ pre' /\ evs = pre' ++ ev :: post).
Proof.
  unfold iteration. intros Heq Hev.
  destruct pre as [|x1 [|x2 [|x3 [|x4 pre']]]]; simpl in Heq;
    injection Heq; intros; subst; try discriminate.
  - left. auto.
  - right. by exists pre'.
Qed.

Section PolledEvents.
Variable w : env.

(** The fetch asks for the job the runner holds: the one last received. *)
Lemma polled_fetch_id v p t n evs o :
  polled w v p t n evs o ->
  forall pre i r post,
    evs = pre ++ EvRetrieve i r :: post ->
    exists u, last (v :: jobs pre) = Some u /\ i = id u.
Proof.
  induction 1; intros pre i r post Heq.
  - by destruct pre.
  - by destruct pre.
  - rewrite <- (app_nil_r (iteration w v p t)) in Heq.
    destruct (iteration_split _ _ _ _ _ _ _ _ Heq eq_refl)
      as [(-> & Hev & _) | (pre' & _ & Hnil)]; [|by destruct pre'].
    injection Hev as -> _. by exists v.
  - destruct (iteration_split _ _ _ _ _ _ _ _ Heq eq_refl)
      as [(-> & Hev & _) | (pre' & -> & Hevs)].
    + injection Hev as -> _. by exists v.
    + destruct (IHpolled _ _ _ _ Hevs) as (u & Hu & ->).
      exists u. split; [|reflexivity].
      rewrite jobs_app. unfold iteration, jobs at 1. simpl. rewrite H0. simpl.
      exact Hu.
Qed.

(** Each fetch comes right after a sleep of ten seconds. *)
Lemma polled_fetch_after_sleep v p t n evs o :
  polled w v p t n evs o ->
  forall pre i r post,
    evs = pre ++ EvRetrieve i r :: post ->
    exists pre', pre = pre' ++ [EvSleep 10].
Proof.
  induction 1; intros pre i r post Heq.
  - by destruct pre.
  - by destruct pre.
  - rewrite <- (app_nil_r (iteration w v p t)) in Heq.
    destruct (iteration_split _ _ _ _ _ _ _ _ Heq eq_refl)
      as [(-> & _ & _) | (pre' & _ & Hnil)]; [|by destruct pre'].
    by exists [EvNow (clock w t);
               EvPrint (LogStatus (strftime "%d-%b-%Y %H:%M:%S" (clock w t))
                          (status v))].
  - destruct (iteration_split _ _ _ _ _ _ _ _ Heq eq_refl)
      as [(-> & _ & _) | (pre' & -> & Hevs)].
    + by exists [EvNow (clock w t);
                 EvPrint (LogStatus (strftime "%d-%b-%Y %H:%M:%S" (clock w t))
                            (status v))].
    + destruct (IHpolled _ _ _ _ Hevs) as (pre'' & ->).
      exists (iteration w v p t ++ pre''). by rewrite <- List.app_assoc.
Qed.

Lemma polled_sleeps v p t n evs o :
  polled w v p t n evs o -> count is_sleep evs = n.
Proof.
  induction 1; try reflexivity.
  rewrite count_app, IHpolled. reflexivity.
Qed.

(** A fetch that raises ends the loop with that exception, and is its
    last event. *)
Lemma polled_fetch_raised v p t n evs o :
  polled w v p t n evs o ->
  forall pre i e post,
    evs = pre ++ EvRetrieve i (Err e) :: post ->
    o = Raise e /\ post = [].
Proof.
  induction 1; intros pre i e' post Heq.
  - by destruct pre.
  - by destruct pre.
  - rewrite <- (app_nil_r (iteration w v p t)) in Heq.
    destruct (iteration_split _ _ _ _ _ _ _ _ Heq eq_refl)
      as [(_ & Hev & ->) | (pre' & _ & Hnil)]; [|by destruct pre'].
    injection Hev as _ Hev. rewrite H0 in Hev. by injection Hev as ->.
  - destruct (iteration_split _ _ _ _ _ _ _ _ Heq eq_refl)
      as [(_ & Hev & _) | (pre' & -> & Hevs)].
    + injection Hev as _ Hev. rewrite H0 in Hev. discriminate.
    + by apply (IHpolled _ _ _ _ Hevs).
Qed.

(** A fetch that is answered by a terminal status is the last event of
    the loop. *)
Lemma polled_fetch_terminal v p t n evs o :
  polled w v p t n evs o ->
  forall pre i u post,
    evs = pre ++ EvRetrieve i (Ok u) :: post ->
    terminal (status u) = true ->
    post = [].
Proof.
  induction 1; intros pre i u post Heq Hu.
  - by destruct pre.
  - by destruct pre.
  - rewrite <- (app_nil_r (iteration w v p t)) in Heq.
    destruct (iteration_split _ _ _ _ _ _ _ _ Heq eq_refl)
      as [(_ & _ & ->) | (pre' & _ & Hnil)]; [reflexivity | by destruct pre'].
  - destruct (iteration_split _ _ _ _ _ _ _ _ Heq eq_refl)
      as [(_ & Hev & ->) | (pre' & -> & Hevs)].
    + injection Hev as _ Hev. rewrite H0 in Hev. injection Hev as ->.
      inversion H1; subst; congruence.
    + by apply (IHpolled _ _ _ _ Hevs).
Qed.

Lemma polled_terminal_start v p t n evs o :
  polled w v p t n evs o -> terminal (status v) = true -> evs = [].
Proof. destruct 1; congruence. Qed.

(** The job the loop returns is the last one received. *)
Lemma polled_val_job v p t n evs v' :
  polled w v p t n evs (Val v') -> last (v :: jobs evs) = Some v'.
Proof.
  remember (Val v') as o eqn:Ho. induction 1; try discriminate.
  - by injection Ho as ->.
  - rewrite jobs_app. unfold iteration, jobs at 1. simpl. rewrite H0. simpl.
    by apply IHpolled.
Qed.

End PolledEvents.

(** What follows the loop holds prints, one download, one clock read and
    one write at most: no event of any other kind. *)
Lemma finish_after (q : event -> bool) verbose w o st :
  (forall l, q (EvPrint l) = false) ->
  (forall i variant r, q (EvDownload i variant r) = false) ->
  (forall d, q (EvNow d) = false) ->
  (forall path data, q (EvWrite path data) = false) ->
  exists after,
    trace (snd (finish verbose w o st)) = trace st ++ after /\
    count q after = 0%nat.
Proof.
  intros Hprint Hdownload Hnow Hwrite.
  assert (Herr : forall e, count q (error_lines e) = 0%nat).
  { intros e. by apply count_error_lines. }
  assert (Hcl : count q (completion_lines verbose) = 0%nat).
  { by apply count_completion_lines. }
  unfold finish. destruct o as [v|e|].
  - destruct (String.eqb (status v) "completed") eqn:Hc.
    + apply String.eqb_eq in Hc.
      rewrite (conclude_completed _ _ _ _ Hc), store_eq. simpl.
      destruct (download_resp w) as [content|e].
      * destruct (write_resp w) as [|e partial].
        -- simpl. rewrite <- List.app_assoc. eexists. split; [reflexivity|].
           rewrite count_app, Hcl, !count_cons, count_nil.
           by rewrite Hprint, Hdownload, Hnow, Hwrite, Hprint.
        -- rewrite handled_raise. simpl. rewrite <- !List.app_assoc.
           eexists. split; [reflexivity|].
           rewrite !count_app, Hcl, Herr, !count_cons, count_nil.
           by rewrite Hdownload, Hnow, Hwrite.
      * rewrite handled_raise. simpl. rewrite <- !List.app_assoc.
        eexists. split; [reflexivity|].
        rewrite !count_app, Hcl, Herr, !count_cons, count_nil.
        by rewrite Hdownload.
    + unfold conclude. rewrite Hc.
      destruct (String.eqb (status v) "failed");
        [|destruct (String.eqb (status v) "cancelled")]; simpl.
      * eexists. split; [reflexivity|]. by rewrite count_cons, count_nil, Hprint.
      * eexists. split; [reflexivity|]. by rewrite count_cons, count_nil, Hprint.
      * exists []. by rewrite app_nil_r.
  - rewrite handled_raise. simpl. eexists. split; [reflexivity | apply Herr].
  - simpl. exists []. by rewrite app_nil_r.
Qed.

(** A status fetch found in the trace of a run lies in its loop. *)
Lemma fetch_in_run reference fuel prompt size seconds w files pre ev post :
  trace (snd (run reference fuel prompt size seconds w (initial files))) =
    pre ++ ev :: post ->
  is_retrieve ev = true ->
  exists v n evs o pre' post' after,
    readable files reference = true /\
    create_resp w = Ok v /\
    polled w v 0 0 n evs o /\
    run reference fuel prompt size seconds w (initial files) =
      finish (chatty reference) w o
        (State files [] n n (head reference prompt size seconds v evs)) /\
    pre = before_loop reference prompt size seconds v ++ pre' /\
    evs = pre' ++ ev :: post' /\
    post = post' ++ after /\
    count is_retrieve after = 0%nat.
Proof.
  intros Heq Hev.
  destruct (readable files reference) eqn:Hr.
  2:{ destruct reference as [image_file|]; [|discriminate].
      rewrite (run_unreadable (Some image_file) fuel prompt size seconds w files
                 image_file eq_refl Hr) in Heq.
      exfalso. apply (count_split_positive is_retrieve pre post ev Hev).
      rewrite <- Heq. reflexivity. }
  destruct (create_resp w) as [v|e] eqn:Hc.
  2:{ rewrite (run_create_err reference fuel prompt size seconds w files e Hr Hc),
        handled_raise in Heq.
      exfalso. apply (count_split_positive is_retrieve pre post ev Hev).
      rewrite <- Heq. simpl. count_trace. reflexivity. }
  destruct (run_create_ok fuel w v Hc) as (n & evs & o & Hp & _ & _ & Hrun).
  specialize (Hrun reference prompt size seconds files Hr).
  destruct (finish_after is_retrieve (chatty reference) w o
              (State files [] n n (head reference prompt size seconds v evs)))
    as (after & Htr & Hafter); try reflexivity.
  rewrite Hrun, Htr in Heq. simpl in Heq.
  rewrite head_before_loop, <- List.app_assoc in Heq.
  destruct (split_in_loop is_retrieve _ _ _ _ _ _ Heq) as (pre' & post' & -> & -> & ->);
    [by apply count_before_loop; intros [] | assumption | assumption |].
  exists v, n, (pre' ++ ev :: post'), o, pre', post', after.
  repeat split; assumption.
Qed.

(** ** Which job is fetched and downloaded *)

(** X7.  Every status fetch asks for the identifier of the job object
    the runner holds at that moment, the one received last (from the
    creation call or from the previous fetch); the download asks for the
    identifier of the job object last received, which is [completed],
    and for the variant ["video"]. *)
Theorem calls_use_latest_job reference fuel prompt size seconds w files :
  (forall pre i r post,
     trace (snd (run reference fuel prompt size seconds w (initial files))) =
       pre ++ EvRetrieve i r :: post ->
     exists u, current_job pre = Some u /\ i = id u) /\
  (forall pre i variant r post,
     trace (snd (run reference fuel prompt size seconds w (initial files))) =
       pre ++ EvDownload i variant r :: post ->
     variant = "video" /\
     exists u, current_job pre = Some u /\ i = id u /\ status u = "completed").
Proof.
  split.
  - intros pre i r post Heq.
    destruct (fetch_in_run _ _ _ _ _ _ _ _ _ _ Heq eq_refl)
      as (v & n & evs & o & pre' & post' & after & _ & _ & Hp & _ & -> & Hevs & _).
    destruct (polled_fetch_id w _ _ _ _ _ _ Hp _ _ _ _ Hevs) as (u & Hu & ->).
    exists u. split; [|reflexivity].
    unfold current_job. by rewrite jobs_app, jobs_before_loop.
  - intros pre i variant r post Heq.
    run_cases reference fuel prompt size seconds w files; simpl in Heq;
      try (pose proof (polled_events w _ _ _ _ _ _ Hp) as Hev;
           pose proof (poll_events_no_download _ Hev) as Hnd).
    1-6: exfalso;
         apply (count_split_positive is_download pre post
                  (EvDownload i variant r) eq_refl);
         rewrite <- Heq; count_trace; rewrite ?Hnd; reflexivity.
    all: set (a := head reference prompt size seconds v evs ++
                    completion_lines (chatty reference));
      rewrite List.app_assoc in Heq; fold a in Heq;
      assert (Hpre : pre = a)
        by (eapply (split_unique is_download);
              [| | | exact Heq];
              [unfold a; count_trace; by rewrite Hnd
              | by count_trace | reflexivity]);
      subst pre; apply app_inv_head in Heq; injection Heq as <- <- _ _;
      (split; [reflexivity|]); exists v';
      (split; [|split; [reflexivity | assumption]]);
      unfold current_job, a;
      rewrite jobs_app, head_before_loop, jobs_app, jobs_before_loop,
        jobs_completion_lines, app_nil_r;
      by apply (polled_val_job w _ _ _ _ _ _ Hp).
Qed.

Lemma calls_use_latest_job_witness :
  exists u,
    current_job
      [EvPrint LogBanner; EvPrint (LogPrompt dog_prompt);
       EvCreate "sora-2" dog_prompt None "1280x720" 8 (Ok (Video "job_a" "queued"));
       EvPrint (LogVideoId "job_a"); EvPrint (LogInitialStatus "queued");
       EvNow march_15;
       EvPrint (LogStatus "15-Mar-2025 14:30:22" "queued");
       EvSleep 10;
       EvRetrieve "job_a" (Ok (Video "job_b" "in_progress"));
       EvNow march_15;
       EvPrint (LogStatus "15-Mar-2025 14:30:22" "in_progress");
       EvSleep 10] = Some u /\
    "job_b" = id u.
Proof.
  apply (proj1 (calls_use_latest_job None 5 dog_prompt "1280x720" 8 renaming ∅)
           _ "job_b" (Ok (Video "job_c" "completed"))
           [EvPrint LogCompleted; EvPrint LogDownloading;
            EvDownload "job_c" "video" (Ok FAKEMP4);
            EvNow march_15;
            EvWrite "videos/sora2_video_15Mar2025_143022.mp4" FAKEMP4;
            EvPrint LogDone;
            EvPrint (LogSaved "videos/sora2_video_15Mar2025_143022.mp4")]).
  vm_compute. reflexivity.
Defined.

(** ** The cadence of the loop *)

(** X8.  The runner sleeps ten seconds right before every status fetch
    and at no other time: each fetch in a trace is preceded immediately
    by [time.sleep(10)], and a trace holds as many sleeps as fetches. *)
Theorem fetch_follows_sleep_of_ten reference fuel prompt size seconds w files :
  (forall pre i r post,
     trace (snd (run reference fuel prompt size seconds w (initial files))) =
       pre ++ EvRetrieve i r :: post ->
     exists pre', pre = pre' ++ [EvSleep 10]) /\
  count is_sleep
    (trace (snd (run reference fuel prompt size seconds w (initial files)))) =
  count is_retrieve
    (trace (snd (run reference fuel prompt size seconds w (initial files)))).
Proof.
  split.
  - intros pre i r post Heq.
    destruct (fetch_in_run _ _ _ _ _ _ _ _ _ _ Heq eq_refl)
      as (v & n & evs & o & pre' & post' & after & _ & _ & Hp & _ & -> & Hevs & _).
    destruct (polled_fetch_after_sleep w _ _ _ _ _ _ Hp _ _ _ _ Hevs) as (pre'' & ->).
    exists (before_loop reference prompt size seconds v ++ pre'').
    by rewrite <- List.app_assoc.
  - run_cases reference fuel prompt size seconds w files; simpl;
      try (pose proof (polled_sleeps w _ _ _ _ _ _ Hp) as Hs;
           pose proof (polled_count w _ _ _ _ _ _ Hp) as Hf);
      count_trace; rewrite ?Hs, ?Hf; reflexivity.
Qed.

Lemma fetch_follows_sleep_of_ten_witness :
  exists pre',
    [EvPrint LogBanner; EvPrint (LogPrompt dog_prompt);
     EvCreate "sora-2" dog_prompt None "1280x720" 8 (Ok (Video "job_a" "queued"));
     EvPrint (LogVideoId "job_a"); EvPrint (LogInitialStatus "queued");
     EvNow march_15;
     EvPrint (LogStatus "15-Mar-2025 14:30:22" "queued");
     EvSleep 10] = pre' ++ [EvSleep 10].
Proof.
  apply (proj1 (fetch_follows_sleep_of_ten None 5 dog_prompt "1280x720" 8 renaming ∅)
           _ "job_a" (Ok (Video "job_b" "in_progress"))
           [EvNow march_15;
            EvPrint (LogStatus "15-Mar-2025 14:30:22" "in_progress");
            EvSleep 10;
            EvRetrieve "job_b" (Ok (Video "job_c" "completed"));
            EvPrint LogCompleted; EvPrint LogDownloading;
            EvDownload "job_c" "video" (Ok FAKEMP4);
            EvNow march_15;
            EvWrite "videos/sora2_video_15Mar2025_143022.mp4" FAKEMP4;
            EvPrint LogDone;
            EvPrint (LogSaved "videos/sora2_video_15Mar2025_143022.mp4")]).
  vm_compute. reflexivity.
Defined.

(** ** The end of the loop *)

(** X9.  The loop stops at the first terminal status: after a fetch that
    is answered by [completed], [failed] or [cancelled] no further fetch
    is made, and a job created in a terminal status is not fetched at
    all. *)
Theorem no_fetch_after_terminal_status
    reference fuel prompt size seconds w files :
  (forall pre i u post,
     trace (snd (run reference fuel prompt size seconds w (initial files))) =
       pre ++ EvRetrieve i (Ok u) :: post ->
     terminal (status u) = true ->
     count is_retrieve post = 0%nat) /\
  (forall v,
     create_resp w = Ok v ->
     terminal (status v) = true ->
     count is_retrieve
       (trace (snd (run reference fuel prompt size seconds w (initial files))))
       = 0%nat).
Proof.
  split.
  - intros pre i u post Heq Hu.
    destruct (fetch_in_run _ _ _ _ _ _ _ _ _ _ Heq eq_refl)
      as (v & n & evs & o & pre' & post' & after & _ & _ & Hp & _ & _ & Hevs
          & -> & Hafter).
    by rewrite (polled_fetch_terminal w _ _ _ _ _ _ Hp _ _ _ _ Hevs Hu).
  - intros v0 Hc0 Hv0.
    run_cases reference fuel prompt size seconds w files; simpl;
      try (assert (v = v0) as -> by congruence;
           pose proof (polled_terminal_start w _ _ _ _ _ _ Hp Hv0) as ->);
      count_trace; reflexivity.
Qed.

Lemma no_fetch_after_terminal_status_witness :
  count is_retrieve
    [EvPrint LogCompleted; EvPrint LogDownloading;
     EvDownload "job_c" "video" (Ok FAKEMP4);
     EvNow march_15;
     EvWrite "videos/sora2_video_15Mar2025_143022.mp4" FAKEMP4;
     EvPrint LogDone;
     EvPrint (LogSaved "videos/sora2_video_15Mar2025_143022.mp4")] = 0%nat.
Proof.
  apply (proj1 (no_fetch_after_terminal_status None 5 dog_prompt "1280x720" 8
                  renaming ∅)
           [EvPrint LogBanner; EvPrint (LogPrompt dog_prompt);
            EvCreate "sora-2" dog_prompt None "1280x720" 8
              (Ok (Video "job_a" "queued"));
            EvPrint (LogVideoId "job_a"); EvPrint (LogInitialStatus "queued");
            EvNow march_15;
            EvPrint (LogStatus "15-Mar-2025 14:30:22" "queued");
            EvSleep 10;
            EvRetrieve "job_a" (Ok (Video "job_b" "in_progress"));
            EvNow march_15;
            EvPrint (LogStatus "15-Mar-2025 14:30:22" "in_progress");
            EvSleep 10]
           "job_b" (Video "job_c" "completed")).
  - vm_compute. reflexivity.
  - reflexivity.
Defined.

(** ** A status fetch raises *)

(** X10.  In every run in which a status fetch raises, that fetch is the
    last remote call: nothing is downloaded, nothing is written, the
    file system is as it was, and all that follows is the printed error.
    The result is [False] when the exception is an instance of
    [Exception], and the exception itself otherwise. *)
Theorem fetch_raises_ends_run
    reference fuel prompt size seconds w files i err :
  EvRetrieve i (Err err) ∈
    trace (snd (run reference fuel prompt size seconds w (initial files))) ->
  fst (run reference fuel prompt size seconds w (initial files)) =
    (if derives_Exception err then Val (PyBool false) else Raise err) /\
  count is_download
    (trace (snd (run reference fuel prompt size seconds w (initial files)))) = 0%nat /\
  count is_write
    (trace (snd (run reference fuel prompt size seconds w (initial files)))) = 0%nat /\
  fs (snd (run reference fuel prompt size seconds w (initial files))) = files /\
  exists pre,
    trace (snd (run reference fuel prompt size seconds w (initial files))) =
    pre ++ EvRetrieve i (Err err) ::
      (if derives_Exception err then [EvPrint (LogError (exn_str err))] else []).
Proof.
  intros Hin. apply list_elem_of_split in Hin as (pre & post & Heq).
  destruct (fetch_in_run _ _ _ _ _ _ _ _ _ _ Heq eq_refl)
    as (v & n & evs & o & pre' & post' & after & _ & _ & Hp & Hrun & -> & Hevs
        & -> & Hafter).
  destruct (polled_fetch_raised w _ _ _ _ _ _ Hp _ _ _ _ Hevs) as [-> ->].
  pose proof (polled_events w _ _ _ _ _ _ Hp) as Hev.
  rewrite Hrun. unfold finish. rewrite handled_raise. simpl.
  split; [reflexivity|].
  split; [count_trace; by rewrite poll_events_no_download|].
  split; [count_trace; by rewrite poll_events_no_write|].
  split; [reflexivity|].
  exists (before_loop reference prompt size seconds v ++ pre').
  rewrite head_before_loop, Hevs, <- !List.app_assoc. reflexivity.
Qed.

Lemma fetch_raises_ends_run_witness :
  fst (run None 5 dog_prompt "1280x720" 8 (fetch_raises 1 KeyboardInterrupt)
         (initial ∅)) =
    (if derives_Exception KeyboardInterrupt then Val (PyBool false)
     else Raise KeyboardInterrupt) /\
  count is_download
    (trace (snd (run None 5 dog_prompt "1280x720" 8 (fetch_raises 1 KeyboardInterrupt)
                   (initial ∅)))) = 0%nat /\
  count is_write
    (trace (snd (run None 5 dog_prompt "1280x720" 8 (fetch_raises 1 KeyboardInterrupt)
                   (initial ∅)))) = 0%nat /\
  fs (snd (run None 5 dog_prompt "1280x720" 8 (fetch_raises 1 KeyboardInterrupt)
             (initial ∅))) = ∅ /\
  exists pre,
    trace (snd (run None 5 dog_prompt "1280x720" 8 (fetch_raises 1 KeyboardInterrupt)
                  (initial ∅))) =
    pre ++ EvRetrieve "video_1" (Err KeyboardInterrupt) ::
      (if derives_Exception KeyboardInterrupt
       then [EvPrint (LogError (exn_str KeyboardInterrupt))] else []).
Proof.
  apply (fetch_raises_ends_run None 5 dog_prompt "1280x720" 8
           (fetch_raises 1 KeyboardInterrupt) ∅ "video_1" KeyboardInterrupt).
  vm_compute. do 12 apply list_elem_of_further. apply list_elem_of_here.
Defined.

(** ** The creation call *)

(** X11.  Whenever the creation call is reached, it is made exactly once,
    first of all calls, for the model ["sora-2"] and with the caller's
    prompt, size and duration as they are, whatever they are; at most one
    download follows, and a write only after a download. *)
Theorem creation_call_once_and_verbatim
    reference fuel prompt size seconds w files :
  readable files reference = true ->
  (exists rest,
     trace (snd (run reference fuel prompt size seconds w (initial files))) =
       prologue reference prompt ++
       creation_events reference prompt size seconds (create_resp w) ++ rest /\
     count is_create rest = 0%nat) /\
  (count is_download
     (trace (snd (run reference fuel prompt size seconds w (initial files))))
   <= 1)%nat /\
  (count is_write
     (trace (snd (run reference fuel prompt size seconds w (initial files))))
   <= count is_download
        (trace (snd (run reference fuel prompt size seconds w (initial files)))))%nat.
Proof.
  intros Hread. split.
  - destruct (create_resp w) as [v|e] eqn:Hc.
    + destruct (run_create_ok fuel w v Hc) as (n & evs & o & Hp & _ & _ & Hrun).
      rewrite (Hrun reference prompt size seconds files Hread).
      destruct (finish_after is_create (chatty reference) w o
                  (State files [] n n (head reference prompt size seconds v evs)))
        as (after & -> & Hafter); try reflexivity.
      simpl. unfold head. rewrite <- !List.app_assoc.
      eexists. split; [reflexivity|].
      rewrite ?count_app, ?count_cons, ?count_nil, Hafter.
      rewrite (count_none is_create is_poll_event evs);
        [reflexivity | by apply (polled_events w _ _ _ _ _ _ Hp) | by intros []].
    + rewrite (run_create_err reference fuel prompt size seconds w files e Hread Hc),
        handled_raise.
      simpl. rewrite <- List.app_assoc.
      eexists. split; [reflexivity|]. by apply count_error_lines.
  - clear Hread. run_cases reference fuel prompt size seconds w files; simpl;
      try (pose proof (polled_events w _ _ _ _ _ _ Hp) as Hev;
           pose proof (poll_events_no_download _ Hev) as Hnd;
           pose proof (poll_events_no_write _ Hev) as Hnw);
      count_trace; rewrite ?Hnd, ?Hnw; simpl; lia.
Qed.

Lemma creation_call_once_and_verbatim_witness :
  (exists rest,
     trace (snd (run (Some "cat.png") 5 "" "640x480" (-3)
                   (scripted 1 "failed" march_15) (initial with_image))) =
       prologue (Some "cat.png") "" ++
       creation_events (Some "cat.png") "" "640x480" (-3)
         (create_resp (scripted 1 "failed" march_15)) ++ rest /\
     count is_create rest = 0%nat) /\
  (count is_download
     (trace (snd (run (Some "cat.png") 5 "" "640x480" (-3)
                    (scripted 1 "failed" march_15) (initial with_image))))
   <= 1)%nat /\
  (count is_write
     (trace (snd (run (Some "cat.png") 5 "" "640x480" (-3)
                    (scripted 1 "failed" march_15) (initial with_image))))
   <= count is_download
        (trace (snd (run (Some "cat.png") 5 "" "640x480" (-3)
                       (scripted 1 "failed" march_15) (initial with_image)))))%nat.
Proof.
  apply (creation_call_once_and_verbatim (Some "cat.png") 5 "" "640x480" (-3)
           (scripted 1 "failed" march_15) with_image).
  reflexivity.
Defined.

(** ** The name of the output file *)

Lemma digit_is_name_char k : 0 <= k <= 9 -> is_name_char (digit k) = true.
Proof.
  intros Hk.
  assert (k = 0 \/ k = 1 \/ k = 2 \/ k = 3 \/ k = 4 \/ k = 5 \/ k = 6 \/
          k = 7 \/ k = 8 \/ k = 9) as [->|[->|[->|[->|[->|[->|[->|[->|[->| ->]]]]]]]]]
    by lia; reflexivity.
Qed.

(** X12.  For every valid reading of the clock in a year of four digits,
    the output path is [videos/sora2_video_<stamp>.mp4] where the stamp
    is sixteen characters long and made of digits, letters and the
    underscore: it holds no path separator, no dot, no colon and no
    blank. *)
Theorem output_stamp_is_plain now :
  datetime_ok now = true ->
  1000 <= year now ->
  exists stamp,
    sora2_videofile now = "videos/sora2_video_" +:+ stamp +:+ ".mp4" /\
    String.length stamp = 16%nat /\
    string_forall is_name_char stamp = true.
Proof.
  intros Hok Hyear. exists (strftime "%d%b%Y_%H%M%S" now).
  split; [reflexivity|].
  apply datetime_ok_ranges in Hok as (Hy & Hm & Hd & Hh & Hmi & Hs & _).
  rewrite strftime_file.
  assert (Hdigits :
    is_name_char (digit (day now / 10)) = true /\
    is_name_char (digit (day now mod 10)) = true /\
    is_name_char (digit (year now / 1000)) = true /\
    is_name_char (digit (year now / 100 mod 10)) = true /\
    is_name_char (digit (year now / 10 mod 10)) = true /\
    is_name_char (digit (year now mod 10)) = true /\
    is_name_char (digit (hour now / 10)) = true /\
    is_name_char (digit (hour now mod 10)) = true /\
    is_name_char (digit (minute now / 10)) = true /\
    is_name_char (digit (minute now mod 10)) = true /\
    is_name_char (digit (second now / 10)) = true /\
    is_name_char (digit (second now mod 10)) = true).
  { repeat split; apply digit_is_name_char; Z.div_mod_to_equations; lia. }
  destruct Hdigits as (D1 & D0 & Y3 & Y2 & Y1 & Y0 & H1 & H0 & M1 & M0 & S1 & S0).
  destruct (month_cases (month now) Hm)
    as [->|[->|[->|[->|[->|[->|[->|[->|[->|[->|[->| ->]]]]]]]]]]];
    unfold pad2, pad4; cbv [String.append month_abbr String.length string_forall];
    rewrite D1, D0, Y3, Y2, Y1, Y0, H1, H0, M1, M0, S1, S0;
    split; reflexivity.
Qed.

Lemma output_stamp_is_plain_witness :
  exists stamp,
    sora2_videofile march_15_later = "videos/sora2_video_" +:+ stamp +:+ ".mp4" /\
    String.length stamp = 16%nat /\
    string_forall is_name_char stamp = true.
Proof.
  apply (output_stamp_is_plain march_15_later); [reflexivity | simpl; lia].
Defined.

(** The stamp printed while polling is not plain: it has blanks and
    colons. *)
Example log_stamp_is_not_plain :
  string_forall is_name_char (strftime "%d-%b-%Y %H:%M:%S" march_15) = false.
Proof. reflexivity. Qed.

(** ** Two runs within the same second *)

Lemma path_returned_fs reference fuel prompt size seconds w files path :
  fst (run reference fuel prompt size seconds w (initial files)) = Val (PyStr path) ->
  exists content,
    download_resp w = Ok content /\
    fs (snd (run reference fuel prompt size seconds w (initial files))) =
      <[path := File content]> files.
Proof.
  run_cases reference fuel prompt size seconds w files;
    intros H; try discriminate H;
    try (by apply caught_not_path in H).
  simpl in H. injection H as <-. simpl. exists content. auto.
Qed.

(** X13.  The output file is opened for writing whether or not it exists:
    when a run returns the path that an earlier run returned (both read
    the clock within the same second), the earlier video is replaced by
    the later one, and the file system is what the later run alone would
    have left. *)
Theorem later_run_replaces_same_path
    reference1 fuel1 prompt1 size1 seconds1 w1
    reference2 fuel2 prompt2 size2 seconds2 w2 files path :
  fst (run reference1 fuel1 prompt1 size1 seconds1 w1 (initial files))
    = Val (PyStr path) ->
  fst (run reference2 fuel2 prompt2 size2 seconds2 w2
         (initial (fs (snd (run reference1 fuel1 prompt1 size1 seconds1 w1
                              (initial files))))))
    = Val (PyStr path) ->
  exists content2,
    download_resp w2 = Ok content2 /\
    fs (snd (run reference2 fuel2 prompt2 size2 seconds2 w2
               (initial (fs (snd (run reference1 fuel1 prompt1 size1 seconds1 w1
                                    (initial files)))))))
      = <[path := File content2]> files.
Proof.
  intros H1 H2.
  destruct (path_returned_fs _ _ _ _ _ _ _ _ H1) as (content1 & _ & Hfs1).
  destruct (path_returned_fs _ _ _ _ _ _ _ _ H2) as (content2 & Hd2 & Hfs2).
  exists content2. split; [assumption|].
  rewrite Hfs2, Hfs1. apply insert_insert_eq.
Qed.

Lemma later_run_replaces_same_path_witness :
  exists content2,
    download_resp (other_video march_15) = Ok content2 /\
    fs (snd (run None 5 dog_prompt "1280x720" 8 (other_video march_15)
               (initial (fs (snd (run (Some "cat.png") 5 dog_prompt "1280x720" 8
                                    (scripted 1 "completed" march_15)
                                    (initial with_image)))))))
      = <["videos/sora2_video_15Mar2025_143022.mp4" := File content2]> with_image.
Proof.
  apply (later_run_replaces_same_path
           (Some "cat.png") 5 dog_prompt "1280x720" 8
           (scripted 1 "completed" march_15)
           None 5 dog_prompt "1280x720" 8 (other_video march_15)
           with_image "videos/sora2_video_15Mar2025_143022.mp4");
    reflexivity.
Defined.

(** ** What the caller is told *)

(** X14.  The value returned is always explained by the last thing the
    run did, which is a printed line: a returned path is the path of the
    "saved to" line, and [False] follows the "failed" line, the
    "cancelled" line or the line of the error that was caught. *)
Theorem returned_value_is_on_last_line
    reference fuel prompt size seconds w files res :
  fst (run reference fuel prompt size seconds w (initial files)) = Val res ->
  (exists path,
     res = PyStr path /\
     last (trace (snd (run reference fuel prompt size seconds w (initial files))))
       = Some (EvPrint (LogSaved path))) \/
  (res = PyBool false /\
   exists reason,
     last (trace (snd (run reference fuel prompt size seconds w (initial files))))
       = Some (EvPrint reason) /\
     (reason = LogFailed \/ reason = LogCancelled \/
      exists msg, reason = LogError msg)).
Proof.
  run_cases reference fuel prompt size seconds w files;
    intros H; simpl in H; try discriminate H;
    try (unfold caught in H; unfold error_lines;
         destruct (derives_Exception e); try discriminate H);
    injection H as <-; simpl trace.
  1-7: right; split; [reflexivity|]; eexists;
    (split; [rewrite ?last_app; reflexivity|]); eauto.
  left. eexists. split; [reflexivity|]. rewrite !last_app. reflexivity.
Qed.

Lemma returned_value_is_on_last_line_witness :
  (exists path,
     PyBool false = PyStr path /\
     last (trace (snd (run None 5 dog_prompt "1280x720" 8
                         (scripted 1 "cancelled" march_15) (initial ∅))))
       = Some (EvPrint (LogSaved path))) \/
  (PyBool false = PyBool false /\
   exists reason,
     last (trace (snd (run None 5 dog_prompt "1280x720" 8
                         (scripted 1 "cancelled" march_15) (initial ∅))))
       = Some (EvPrint reason) /\
     (reason = LogFailed \/ reason = LogCancelled \/
      exists msg, reason = LogError msg)).
Proof.
  apply (returned_value_is_on_last_line None 5 dog_prompt "1280x720" 8
           (scripted 1 "cancelled" march_15) ∅ (PyBool false)).
  reflexivity.
Defined.
